(** * Simple Coding Time Tracker: a shallow embedding of the aggregation
      and utility code, and of the tracker core described by the design
      document.

    Source files embedded here:
    - [utils.ts]: [formatTime], [detectLanguageFromFile],
      [detectLanguageFromLanguageId];
    - [summaryView.ts] (the script of the webview): [calculateStreaks],
      [calculateDayOfWeekStats], [getTodayTime], [getThisWeekTime],
      [getThisMonthTime], [getThisYearTime], [getIntensityLevel],
      [getLastWeekTime], [getLastMonthTime], [getWeeklyData],
      [getMonthlyData], [getLast30DaysData], [getHourlyData],
      [updateProgressBars], [updateLanguagesInsight], [createMonthGrid],
      [createHeatmap];
    - [statusBar.ts]: [formatTime], and [normalizeHexToSix] and
      [syncTextAndPicker] of the script of the settings page.
    The persisted store and the session state machine (database.ts,
    timeTracker.ts) are modelled from the design document.

    Conventions of the embedding.
    - A JavaScript number is a rational [Q]: every finite double is one,
      and comparisons are exact.  The rounding of [+] and [/] is not
      modelled, except in the [formatTime] of the status bar, whose
      product and quotient are rounded to doubles by [JS.double].
      [NaN] is the [None] of an [option]: it arises from an unparseable
      date, and from [parseInt] on a text without digits.
    - A JavaScript string is a [string] read as a sequence of code units
      below 256; comparison is by code unit, as [<] on strings is.
    - A [Date] is its time value, a [Z] of milliseconds since the epoch;
      the host's time zone is the function [LocalTZA] of ECMAScript,
      kept abstract.  The clock reading [now] is an argument, and every
      [new Date()] of one call reads the same instant. *)

From Stdlib Require Import ZArith QArith Qround Lia Lqa.
From Stdlib Require Import Strings.String Strings.Ascii.
From Stdlib Require Import Numbers.DecimalString.
From stdpp Require Import gmap strings list sorting fin_maps.

Local Open Scope string_scope.
Local Open Scope Z_scope.

(** ** JavaScript primitives used by the sources *)

Module JS.

(** [Math.floor] and [Math.round] (halves round towards [+∞]). *)
Definition floor (x : Q) : Z := Qfloor x.
Definition round (x : Q) : Z := Qfloor (x + (1 # 2))%Q.

(** Truncation towards zero, the quotient behind the [%] operator. *)
Definition trunc (x : Q) : Z :=
  if Qle_bool 0 x then Qfloor x else Qceiling x.

(** [a % b]: the remainder takes the sign of the dividend. *)
Definition rem (a b : Q) : Q := (a - b * inject_Z (trunc (a / b)))%Q.

(** The arithmetic of doubles, where a result is rounded.  [2^e]; the
    nearest integer, a tie going to the even one; the exponent [e] of a
    positive [x], with [2^e <= x < 2^(e+1)]; and the double nearest to
    [x], a tie going to the even significand: 53 bits of precision, the
    least exponent -1022.  A double has no exponent above 1023: [double]
    stands for the rounding of [x] only where the result is below
    [2^1024] in magnitude, beyond which the result is an infinity. *)
Definition pow2 (e : Z) : Q :=
  if 0 <=? e then inject_Z (2 ^ e) else (1 / inject_Z (2 ^ (- e)))%Q.

Definition roundHalfEven (q : Q) : Z :=
  let f := Qfloor q in
  match ((q - inject_Z f) ?= (1 # 2))%Q with
  | Lt => f
  | Gt => f + 1
  | Eq => if Z.even f then f else f + 1
  end.

Definition binade (x : Q) : Z :=
  let d := Z.log2 (Qnum x) - Z.log2 (Zpos (Qden x)) in
  if Qle_bool (pow2 d) x then d else d - 1.

Definition double (x : Q) : Q :=
  if Qeq_bool x 0 then 0%Q
  else
    let a := if Qle_bool 0 x then x else (- x)%Q in
    let quantum := pow2 (Z.max (binade a) (-1022) - 52) in
    let n := roundHalfEven (a / quantum) in
    ((if Qle_bool 0 x then 1 else -1) * inject_Z n * quantum)%Q.

(** [String(n)] for an integral number below [10^21] in magnitude. *)
Definition toString (n : Z) : string := NilZero.string_of_int (Z.to_int n).

(** [s.padStart(k, "0")]. *)
Definition padStart0 (k : nat) (s : string) : string :=
  String.concat "" (replicate (k - String.length s) "0") ++ s.

(** [s.toLowerCase()] on code units below 256: the Latin capitals and
    the capitals of Latin-1 other than the multiplication sign. *)
Definition lowerUnit (c : ascii) : ascii :=
  let n := N_of_ascii c in
  if ((65 <=? n) && (n <=? 90))%N then ascii_of_N (n + 32)
  else if ((192 <=? n) && (n <=? 222) && negb (n =? 215))%N
       then ascii_of_N (n + 32)
       else c.

Fixpoint toLowerCase (s : string) : string :=
  match s with
  | EmptyString => EmptyString
  | String c s' => String (lowerUnit c) (toLowerCase s')
  end.

(** [s.split(sep)] for a separator that is one code unit out of a
    class: the segments between separators, never an empty array. *)
Fixpoint split_go (sep : ascii -> bool) (cur : string) (s : string)
  : list string :=
  match s with
  | EmptyString => [String.rev cur]
  | String c s' =>
      if sep c then String.rev cur :: split_go sep EmptyString s'
      else split_go sep (String c cur) s'
  end.

Definition split (sep : ascii -> bool) (s : string) : list string :=
  split_go sep EmptyString s.

(** [arr.pop()]: the last element, [undefined] on an empty array. *)
Definition pop (arr : list string) : option string := last arr.

(** [s.includes(pat)]. *)
Fixpoint includes (pat s : string) : bool :=
  String.prefix pat s ||
  match s with
  | EmptyString => false
  | String _ s' => includes pat s'
  end.

(** Truthiness of a string: [""] is falsy. *)
Definition truthy (s : string) : bool := negb (String.eqb s "").

(** [Math.max(x, y)] of two numbers. *)
Definition max (x y : Q) : Q := if Qle_bool x y then y else x.

(** A value read out of an object literal whose own properties are
    strings: an own property, or what the literal inherits from
    [Object.prototype] under that name, a function or an object and
    never a string. *)
Inductive Value : Type :=
| VString (s : string)
| VInherited (name : string).

Definition truthyValue (v : Value) : bool :=
  match v with
  | VString s => truthy s
  | VInherited _ => true
  end.

(** The property names of [Object.prototype]. *)
Definition objectPrototypeProps : list string :=
  [ "constructor"; "__defineGetter__"; "__defineSetter__"; "hasOwnProperty";
    "__lookupGetter__"; "__lookupSetter__"; "isPrototypeOf";
    "propertyIsEnumerable"; "toString"; "valueOf"; "__proto__";
    "toLocaleString" ].

(** [obj[key]] on an object literal [{ k1: v1, ... }]: own properties
    first, then the prototype; [None] is [undefined]. *)
Definition get (obj : gmap string string) (key : string) : option Value :=
  match obj !! key with
  | Some v => Some (VString v)
  | None =>
      if bool_decide (key ∈ objectPrototypeProps) then Some (VInherited key)
      else None
  end.

End JS.

(** ** The [Date] arithmetic of ECMAScript (sections 21.4.1.x)

    Time values are integers of milliseconds since 1970-01-01T00:00Z.
    [TimeClip] is left out: the clock readings and entry dates of an
    editor session are far inside the range of +-8.64e15 ms. *)

Module JSDate.

Definition msPerDay : Z := 86400000.

Definition Day (t : Z) : Z := t / msPerDay.
Definition TimeWithinDay (t : Z) : Z := t mod msPerDay.

Definition isLeap (y : Z) : bool :=
  (y mod 4 =? 0) && (negb (y mod 100 =? 0) || (y mod 400 =? 0)).

Definition DaysInYear (y : Z) : Z := if isLeap y then 366 else 365.

Definition DayFromYear (y : Z) : Z :=
  365 * (y - 1970) + (y - 1969) / 4 - (y - 1901) / 100 + (y - 1601) / 400.

Definition TimeFromYear (y : Z) : Z := msPerDay * DayFromYear y.

(** The largest [y] with [DayFromYear y <= d], found from the mean
    length of a year and corrected by at most one. *)
Definition YearFromDay (d : Z) : Z :=
  let y0 := 1970 + (d * 400) / 146097 in
  if d <? DayFromYear y0 then y0 - 1
  else if DayFromYear (y0 + 1) <=? d then y0 + 1
  else y0.

Definition YearFromTime (t : Z) : Z := YearFromDay (Day t).

Definition InLeapYear (t : Z) : Z :=
  if isLeap (YearFromTime t) then 1 else 0.

Definition DayWithinYear (t : Z) : Z := Day t - DayFromYear (YearFromTime t).

(** Days of the year before month [m] (0 = January), [leap] being 0 or 1. *)
Definition daysBeforeMonth (leap m : Z) : Z :=
  match m with
  | 0 => 0
  | 1 => 31
  | 2 => 59 + leap
  | 3 => 90 + leap
  | 4 => 120 + leap
  | 5 => 151 + leap
  | 6 => 181 + leap
  | 7 => 212 + leap
  | 8 => 243 + leap
  | 9 => 273 + leap
  | 10 => 304 + leap
  | _ => 334 + leap
  end.

Definition monthOfYearDay (leap dwy : Z) : Z :=
  if dwy <? 31 then 0
  else if dwy <? 59 + leap then 1
  else if dwy <? 90 + leap then 2
  else if dwy <? 120 + leap then 3
  else if dwy <? 151 + leap then 4
  else if dwy <? 181 + leap then 5
  else if dwy <? 212 + leap then 6
  else if dwy <? 243 + leap then 7
  else if dwy <? 273 + leap then 8
  else if dwy <? 304 + leap then 9
  else if dwy <? 334 + leap then 10
  else 11.

Definition MonthFromTime (t : Z) : Z :=
  monthOfYearDay (InLeapYear t) (DayWithinYear t).

Definition DateFromTime (t : Z) : Z :=
  DayWithinYear t - daysBeforeMonth (InLeapYear t) (MonthFromTime t) + 1.

Definition WeekDay (t : Z) : Z := (Day t + 4) mod 7.

(** The month of a time value, counted from January of the year 0. *)
Definition monthNumber (t : Z) : Z := 12 * YearFromTime t + MonthFromTime t.

(** [MakeDay]: the day number of the first of the month, moved by
    [date - 1]; months and dates out of range carry over. *)
Definition MakeDay (year month date : Z) : Z :=
  let ym := year + month / 12 in
  let mn := month mod 12 in
  DayFromYear ym + daysBeforeMonth (if isLeap ym then 1 else 0) mn + date - 1.

Definition MakeDate (day time : Z) : Z := day * msPerDay + time.

(** The date part of [toISOString()], i.e. [toISOString().split('T')[0]]:
    four digits for the years 0 to 9999, a sign and six digits otherwise. *)
Definition isoYear (y : Z) : string :=
  if (0 <=? y) && (y <=? 9999) then JS.padStart0 4 (JS.toString y)
  else if y <? 0 then "-" ++ JS.padStart0 6 (JS.toString (- y))
  else "+" ++ JS.padStart0 6 (JS.toString y).

Definition isoDate (t : Z) : string :=
  isoYear (YearFromTime t) ++ "-" ++
  JS.padStart0 2 (JS.toString (MonthFromTime t + 1)) ++ "-" ++
  JS.padStart0 2 (JS.toString (DateFromTime t)).

(** A decimal digit, and a run of them read as a number. *)
Definition digit (c : ascii) : option Z :=
  let n := N_of_ascii c in
  if ((48 <=? n) && (n <=? 57))%N then Some (Z.of_N n - 48) else None.

Fixpoint digits (acc : Z) (s : string) : option Z :=
  match s with
  | EmptyString => Some acc
  | String c s' =>
      match digit c with
      | Some v => digits (10 * acc + v) s'
      | None => None
      end
  end.

(** The days of month [m] (0 = January). *)
Definition daysInMonth (leap m : Z) : Z :=
  match m with
  | 1 => 28 + leap
  | 3 | 5 | 8 | 10 => 30
  | _ => 31
  end.

(** [Date.parse] on the date-only format [YYYY-MM-DD] of ECMAScript,
    which denotes midnight UTC.  The month must be one of 1..12 and the
    day one of that month; what an engine makes of any other string is
    its own affair, and is [None] here. *)
Definition parseISODate (s : string) : option Z :=
  if (String.length s =? 10)%nat
     && String.eqb (substring 4 1 s) "-" && String.eqb (substring 7 1 s) "-"
  then
    match digits 0 (substring 0 4 s), digits 0 (substring 5 2 s),
          digits 0 (substring 8 2 s) with
    | Some y, Some m, Some d =>
        if (1 <=? m) && (m <=? 12) && (1 <=? d)
           && (d <=? daysInMonth (if isLeap y then 1 else 0) (m - 1))
        then Some (MakeDate (MakeDay y (m - 1) d) 0)
        else None
    | _, _, _ => None
    end
  else None.

(** A host whose [Date.parse] reads the ISO date-only format as
    ECMAScript lays it down; on other strings it is free. *)
Definition parsesISO (DateParse : string -> option Z) : Prop :=
  forall s t, parseISODate s = Some t -> DateParse s = Some t.

Section Host.

(** [LocalTZA t isUTC]: the offset of local time from UTC in
    milliseconds, at the UTC time [t] when [isUTC], at the local
    time [t] otherwise.  It is the host's. *)
Variable LocalTZA : Z -> bool -> Z.

Definition LocalTime (t : Z) : Z := t + LocalTZA t true.
Definition UTC (t : Z) : Z := t - LocalTZA t false.

Definition getFullYear (t : Z) : Z := YearFromTime (LocalTime t).
Definition getMonth (t : Z) : Z := MonthFromTime (LocalTime t).
Definition getDate (t : Z) : Z := DateFromTime (LocalTime t).
Definition getDay (t : Z) : Z := WeekDay (LocalTime t).

(** [new Date(year, month, date)]: local midnight.  A year from 0
    to 99 stands for 1900 + year. *)
Definition newDateYMD (year month date : Z) : Z :=
  let yr := if (0 <=? year) && (year <=? 99) then 1900 + year else year in
  UTC (MakeDate (MakeDay yr month date) 0).

(** [d.setDate(date)] on the time value [t] of [d]. *)
Definition setDate (t date : Z) : Z :=
  let lt := LocalTime t in
  UTC (MakeDate (MakeDay (YearFromTime lt) (MonthFromTime lt) date)
                (TimeWithinDay lt)).

End Host.

(** A zone at a fixed offset of [minutes] east of Greenwich. *)
Definition fixedZone (minutes : Z) : Z -> bool -> Z :=
  fun _ _ => minutes * 60000.

Definition UTCZone : Z -> bool -> Z := fixedZone 0.


End JSDate.

Module Utils.

(** [formatTime] of utils.ts. *)
Definition formatTime (minutes : Q) : string :=
  let hours := JS.floor (minutes / 60) in
  let mins := JS.round (JS.rem minutes 60) in
  JS.toString hours ++ "h " ++ JS.toString mins ++ "m".

(** The literal [languageMap] of [detectLanguageFromFile]. *)
Definition languageMapEntries : list (string * string) :=
  [ ("js", "JavaScript"); ("mjs", "JavaScript"); ("jsx", "JavaScript");
    ("ts", "TypeScript"); ("tsx", "TypeScript");
    ("py", "Python"); ("pyw", "Python"); ("pyc", "Python");
    ("pyo", "Python"); ("pyd", "Python");
    ("java", "Java"); ("kt", "Kotlin"); ("kts", "Kotlin");
    ("scala", "Scala"); ("groovy", "Groovy");
    ("c", "C"); ("h", "C"); ("cpp", "C++"); ("cxx", "C++"); ("cc", "C++");
    ("hpp", "C++"); ("hxx", "C++"); ("cs", "C#");
    ("html", "HTML"); ("htm", "HTML"); ("css", "CSS"); ("scss", "SCSS");
    ("sass", "Sass"); ("less", "Less"); ("vue", "Vue"); ("svelte", "Svelte");
    ("php", "PHP"); ("php3", "PHP"); ("php4", "PHP"); ("php5", "PHP");
    ("phps", "PHP"); ("phtml", "PHP");
    ("rb", "Ruby"); ("rbw", "Ruby");
    ("go", "Go");
    ("rs", "Rust");
    ("swift", "Swift");
    ("dart", "Dart");
    ("sh", "Shell"); ("bash", "Shell"); ("zsh", "Shell"); ("fish", "Shell");
    ("ps1", "PowerShell"); ("psm1", "PowerShell"); ("psd1", "PowerShell");
    ("sql", "SQL");
    ("r", "R");
    ("m", "MATLAB");
    ("lua", "Lua");
    ("pl", "Perl"); ("pm", "Perl");
    ("hs", "Haskell");
    ("ex", "Elixir"); ("exs", "Elixir");
    ("fs", "F#"); ("fsx", "F#"); ("fsi", "F#");
    ("clj", "Clojure"); ("cljs", "Clojure"); ("cljc", "Clojure");
    ("json", "JSON"); ("xml", "XML"); ("yaml", "YAML"); ("yml", "YAML");
    ("toml", "TOML"); ("ini", "INI"); ("cfg", "Config"); ("conf", "Config");
    ("md", "Markdown"); ("markdown", "Markdown");
    ("rst", "reStructuredText"); ("tex", "LaTeX");
    ("dockerfile", "Dockerfile"); ("makefile", "Makefile");
    ("cmake", "CMake"); ("gradle", "Gradle"); ("properties", "Properties") ].

Definition languageMap : gmap string string := list_to_map languageMapEntries.

Definition isDot (c : ascii) : bool := Ascii.eqb c ".".
(** The class [[\\\/]]: a backslash or a slash. *)
Definition isSlash (c : ascii) : bool := Ascii.eqb c "/" || Ascii.eqb c "\".

(** The special file names, tried when the extension is not mapped. *)
Definition specialFilename (filename : string) : option string :=
  if String.eqb filename "dockerfile" then Some "Dockerfile"
  else if String.eqb filename "makefile" then Some "Makefile"
  else if String.eqb filename "cmakelists.txt" then Some "CMake"
  else if String.eqb filename "package.json" then Some "JSON"
  else if String.eqb filename "tsconfig.json" then Some "JSON"
  else if JS.includes "requirements.txt" filename then Some "Text"
  else if JS.includes ".env" filename then Some "Environment"
  else None.

(** [filePath.split('.').pop()?.toLowerCase()]. *)
Definition extensionOf (filePath : string) : option string :=
  JS.toLowerCase <$> JS.pop (JS.split isDot filePath).

(** [filePath.split(/[\\\/]/).pop()?.toLowerCase()]. *)
Definition filenameOf (filePath : string) : option string :=
  JS.toLowerCase <$> JS.pop (JS.split isSlash filePath).

(** [detectLanguageFromFile] of utils.ts.  The declared result type is
    [string]; what is returned is whatever [languageMap[extension]]
    holds, hence a [JS.Value]. *)
Definition detectLanguageFromFile (filePath : string) : JS.Value :=
  if negb (JS.truthy filePath) then JS.VString "unknown"
  else
    let extension := extensionOf filePath in
    let mapped :=
      match extension with
      | Some ext =>
          if JS.truthy ext then
            match JS.get languageMap ext with
            | Some v => if JS.truthyValue v then Some v else None
            | None => None
            end
          else None
      | None => None
      end in
    match mapped with
    | Some v => v
    | None =>
        let filename := filenameOf filePath in
        let special :=
          match filename with
          | Some fn => if JS.truthy fn then specialFilename fn else None
          | None => None
          end in
        match special with
        | Some lang => JS.VString lang
        | None => JS.VString "Other"
        end
    end.

(** The literal [languageIdMap] of [detectLanguageFromLanguageId]. *)
Definition languageIdMapEntries : list (string * string) :=
  [ ("javascript", "JavaScript"); ("javascriptreact", "JavaScript");
    ("typescript", "TypeScript"); ("typescriptreact", "TypeScript");
    ("python", "Python"); ("java", "Java"); ("kotlin", "Kotlin");
    ("scala", "Scala"); ("c", "C"); ("cpp", "C++"); ("csharp", "C#");
    ("html", "HTML"); ("css", "CSS"); ("scss", "SCSS"); ("sass", "Sass");
    ("less", "Less"); ("vue", "Vue"); ("svelte", "Svelte"); ("php", "PHP");
    ("ruby", "Ruby"); ("go", "Go"); ("rust", "Rust"); ("swift", "Swift");
    ("dart", "Dart"); ("shellscript", "Shell"); ("powershell", "PowerShell");
    ("sql", "SQL"); ("r", "R"); ("matlab", "MATLAB"); ("lua", "Lua");
    ("perl", "Perl"); ("haskell", "Haskell"); ("elixir", "Elixir");
    ("fsharp", "F#"); ("clojure", "Clojure"); ("json", "JSON");
    ("jsonc", "JSON"); ("xml", "XML"); ("yaml", "YAML"); ("toml", "TOML");
    ("ini", "INI"); ("markdown", "Markdown"); ("latex", "LaTeX");
    ("dockerfile", "Dockerfile"); ("makefile", "Makefile");
    ("cmake", "CMake"); ("gradle", "Gradle"); ("properties", "Properties");
    ("plaintext", "Text"); ("text", "Text") ].

Definition languageIdMap : gmap string string :=
  list_to_map languageIdMapEntries.

(** [detectLanguageFromLanguageId] of utils.ts:
    [languageIdMap[languageId.toLowerCase()] || 'Other']. *)
Definition detectLanguageFromLanguageId (languageId : string) : JS.Value :=
  if negb (JS.truthy languageId) then JS.VString "unknown"
  else
    match JS.get languageIdMap (JS.toLowerCase languageId) with
    | Some v => if JS.truthyValue v then v else JS.VString "Other"
    | None => JS.VString "Other"
    end.

End Utils.

(** ** The status bar item (statusBar.ts) *)

Module StatusBar.

(** [n.toString().padStart(2, '0')]. *)
Definition twoDigits (n : Z) : string := JS.padStart0 2 (JS.toString n).

(** The private [formatTime] of the status bar: [HH:MM:SS], or [HH:MM]
    without the seconds.  The quotient and the product are doubles,
    rounded; [%] on doubles is exact. *)
Definition formatTime (minutes : Q) (showSeconds : bool) : string :=
  let hours := JS.floor (JS.double (minutes / 60)) in
  let mins := JS.floor (JS.rem minutes 60) in
  let secs := JS.floor (JS.rem (JS.double (minutes * 60)) 60) in
  if showSeconds
  then twoDigits hours ++ ":" ++ twoDigits mins ++ ":" ++ twoDigits secs
  else twoDigits hours ++ ":" ++ twoDigits mins.

End StatusBar.

(** ** The script of the summary webview (summaryView.ts) *)

Module SummaryView.

(** A [TimeEntry] as the database hands it to the webview. *)
Record TimeEntry : Type := {
  date : string;
  project : string;
  timeSpent : Q;
  branch : string;
  language : string
}.

(** An entry of the tracker's own project, for the examples. *)
Definition entryOn (d : string) (minutes : Q) : TimeEntry :=
  {| date := d; project := "tracker"; timeSpent := minutes;
     branch := "main"; language := "TypeScript" |}.

(** [entries.reduce((sum, entry) => sum + entry.timeSpent, 0)]. *)
Definition sumTimeSpent (entries : list TimeEntry) : Q :=
  foldl (fun sum entry => (sum + timeSpent entry)%Q) 0%Q entries.

(** *** calculateStreaks *)

(** The object [dailyTotals] after the [forEach].  A plain object has
    no own property ["__proto__"]: assigning a number or a string to
    it is dropped by the setter it inherits.  (Under the other
    inherited names the stored value is not a number; the totals are
    never read back by [calculateStreaks].) *)
Definition dailyTotals (entries : list TimeEntry) : gmap string Q :=
  foldl (fun (acc : gmap string Q) entry =>
           if String.eqb (date entry) "__proto__" then acc
           else <[ date entry := (default 0%Q (acc !! date entry)
                                  + timeSpent entry)%Q ]> acc)
        ∅ entries.

(** [Object.keys(obj).sort()]: the keys in code-unit order. *)
Definition sortedKeys (obj : gmap string Q) : list string :=
  merge_sort String.le (map fst (map_to_list obj)).

(** [dates], the tracked dates: every date with an entry, ascending. *)
Definition datesOf (entries : list TimeEntry) : list string :=
  sortedKeys (dailyTotals entries).

Record Streaks : Type := { longest : nat; current : nat }.

Record StreakLoop : Type := {
  longestStreak : nat;
  currentStreak : nat;
  tempStreak : nat;
  yesterdayHasCoding : bool
}.

(** [longestStreak], [currentStreak], [tempStreak] and
    [yesterdayHasCoding] as the [let]s initialise them. *)
Definition initialLoop : StreakLoop :=
  {| longestStreak := 0; currentStreak := 0; tempStreak := 0;
     yesterdayHasCoding := false |}.

(** [Math.round((currentDate - prevDate) / (1000 * 60 * 60 * 24))];
    [None] is [NaN], the difference with an invalid date. *)
Definition diffOfDates (currentDate prevDate : option Z) : option Z :=
  match currentDate, prevDate with
  | Some c, Some p =>
      Some (JS.round (inject_Z (c - p) / inject_Z (1000 * 60 * 60 * 24)))
  | _, _ => None
  end.

Section Host.

(** The host: its time zone and its [Date.parse], which ECMAScript
    fixes on the ISO format only. *)
Variable LocalTZA : Z -> bool -> Z.
Variable DateParse : string -> option Z.

(** [diffDays] at the date [d], [prev] being [dates[i-1]] if [i > 0]:
    [prevDate ? Math.round(...) : 1]. *)
Definition diffDaysOf (prev : option string) (d : string) : option Z :=
  match prev with
  | Some p => diffOfDates (DateParse d) (DateParse p)
  | None => Some 1
  end.

(** One round of the [for] loop. *)
Definition streakStep (today yesterdayStr : string) (prev : option string)
    (d : string) (st : StreakLoop) : StreakLoop :=
  let diffDays := diffDaysOf prev d in
  let temp :=
    if bool_decide (diffDays = Some 1) then S (tempStreak st) else 1%nat in
  let longest := Nat.max (longestStreak st) temp in
  if String.eqb d today || String.eqb d yesterdayStr then
    {| longestStreak := longest;
       currentStreak := temp;
       tempStreak := temp;
       yesterdayHasCoding :=
         if String.eqb d yesterdayStr then true else yesterdayHasCoding st |}
  else
    {| longestStreak := longest;
       currentStreak := currentStreak st;
       tempStreak := temp;
       yesterdayHasCoding := yesterdayHasCoding st |}.

Fixpoint streakLoop (today yesterdayStr : string) (prev : option string)
    (dates : list string) (st : StreakLoop) : StreakLoop :=
  match dates with
  | [] => st
  | d :: rest =>
      streakLoop today yesterdayStr (Some d) rest
                 (streakStep today yesterdayStr prev d st)
  end.

(** The body of [calculateStreaks] once [today] and [yesterdayStr]
    are read off the clock. *)
Definition calculateStreaksAt (today yesterdayStr : string)
    (entries : list TimeEntry) : Streaks :=
  if (length entries =? 0)%nat then {| longest := 0; current := 0 |}
  else
    let dates := datesOf entries in
    let st := streakLoop today yesterdayStr None dates initialLoop in
    let currentStreak' :=
      if negb (bool_decide (today ∈ dates)) && negb (yesterdayHasCoding st)
      then 0%nat else currentStreak st in
    {| longest := longestStreak st; current := currentStreak' |}.

(** [new Date().toISOString().split('T')[0]]. *)
Definition todayStr (now : Z) : string := JSDate.isoDate now.

(** [yesterday.setDate(yesterday.getDate() - 1)] then the ISO date. *)
Definition yesterdayStrOf (now : Z) : string :=
  JSDate.isoDate
    (JSDate.setDate LocalTZA now (JSDate.getDate LocalTZA now - 1)).

(** [calculateStreaks(entries)], the clock reading [now]. *)
Definition calculateStreaks (now : Z) (entries : list TimeEntry) : Streaks :=
  calculateStreaksAt (todayStr now) (yesterdayStrOf now) entries.

(** *** calculateDayOfWeekStats *)

(** [new Date(entry.date).getDay()]; [None] is [NaN]. *)
Definition dayOfWeekOf (entry : TimeEntry) : option nat :=
  (fun t => Z.to_nat (JSDate.getDay LocalTZA t)) <$> DateParse (date entry).

(** The arrays [dayTotals] and [dayCounts] after the [forEach].  A
    [NaN] index touches none of the seven slots. *)
Definition dayTotalsCounts (entries : list TimeEntry) : list Q * list Z :=
  foldl (fun '(dayTotals, dayCounts) entry =>
           match dayOfWeekOf entry with
           | Some dayOfWeek =>
               (alter (fun total => (total + timeSpent entry)%Q)
                      dayOfWeek dayTotals,
                alter Z.succ dayOfWeek dayCounts)
           | None => (dayTotals, dayCounts)
           end)
        (replicate 7 0%Q, replicate 7 0) entries.

Definition dayAveragesOf (dayTotals : list Q) (dayCounts : list Z) : list Q :=
  imap (fun index total =>
          let count := default 0 (dayCounts !! index) in
          if 0 <? count then (total / inject_Z count)%Q else 0%Q)
       dayTotals.

End Host.

(** [Math.max(...xs)]; [None] is [-Infinity], the maximum of nothing. *)
Fixpoint mathMax (xs : list Q) : option Q :=
  match xs with
  | [] => None
  | x :: rest =>
      match mathMax rest with
      | None => Some x
      | Some m => Some (if Qle_bool m x then x else m)
      end
  end.

(** [xs.indexOf(x)] with [===] on numbers; [None] is [-1]. *)
Fixpoint indexOf (xs : list Q) (x : Q) : option nat :=
  match xs with
  | [] => None
  | y :: rest => if Qeq_bool y x then Some 0%nat else S <$> indexOf rest x
  end.

Definition dayNames : list string :=
  ["Sunday"; "Monday"; "Tuesday"; "Wednesday"; "Thursday"; "Friday";
   "Saturday"].

Record MostProductive : Type := {
  name : option string;
  avgTime : option Q;
  index : option nat
}.

Record DayOfWeekStats : Type := {
  days : list Q;
  mostProductive : MostProductive
}.

(** The values of [i] in [for (let i = n; i >= 0; i--)]. *)
Definition countDown (n : nat) : list Z := Z.of_nat <$> rev (seq 0 (S n)).

(** What [getWeeklyData] returns: the labels and the values of a chart. *)
Record ChartData : Type := { labels : list string; values : list Q }.


(** The short month names of the locale [en-US]. *)
Definition monthShortNames : list string :=
  ["Jan"; "Feb"; "Mar"; "Apr"; "May"; "Jun"; "Jul"; "Aug"; "Sep"; "Oct";
   "Nov"; "Dec"].

Section Host.

Variable LocalTZA : Z -> bool -> Z.
Variable DateParse : string -> option Z.

Definition calculateDayOfWeekStats (entries : list TimeEntry)
  : DayOfWeekStats :=
  let '(dayTotals, dayCounts) := dayTotalsCounts LocalTZA DateParse entries in
  let dayAverages := dayAveragesOf dayTotals dayCounts in
  let maxAvgIndex := mathMax dayAverages ≫= indexOf dayAverages in
  {| days := dayAverages;
     mostProductive :=
       {| name := maxAvgIndex ≫= (fun i => dayNames !! i);
          avgTime := maxAvgIndex ≫= (fun i => dayAverages !! i);
          index := maxAvgIndex |} |}.



(** *** The rollups *)

(** [entry.date >= lo && entry.date <= hi], on strings. *)
Definition dateWithin (lo hi : string) (entry : TimeEntry) : bool :=
  String.leb lo (date entry) && String.leb (date entry) hi.

Definition getTodayTime (now : Z) (entries : list TimeEntry) : Q :=
  let today := JSDate.isoDate now in
  sumTimeSpent (filter (fun entry => date entry = today) entries).

Definition startOfWeekStr (now : Z) : string :=
  JSDate.isoDate
    (JSDate.newDateYMD LocalTZA
       (JSDate.getFullYear LocalTZA now) (JSDate.getMonth LocalTZA now)
       (JSDate.getDate LocalTZA now - JSDate.getDay LocalTZA now)).

Definition getThisWeekTime (now : Z) (entries : list TimeEntry) : Q :=
  let today := JSDate.isoDate now in
  sumTimeSpent
    (filter (fun entry => dateWithin (startOfWeekStr now) today entry) entries).

Definition startOfMonthStr (now : Z) : string :=
  JSDate.isoDate
    (JSDate.newDateYMD LocalTZA
       (JSDate.getFullYear LocalTZA now) (JSDate.getMonth LocalTZA now) 1).

Definition getThisMonthTime (now : Z) (entries : list TimeEntry) : Q :=
  let today := JSDate.isoDate now in
  sumTimeSpent
    (filter (fun entry => dateWithin (startOfMonthStr now) today entry) entries).

Definition startOfYearStr (now : Z) : string :=
  JSDate.isoDate
    (JSDate.newDateYMD LocalTZA (JSDate.getFullYear LocalTZA now) 0 1).

Definition getThisYearTime (now : Z) (entries : list TimeEntry) : Q :=
  let today := JSDate.isoDate now in
  sumTimeSpent
    (filter (fun entry => dateWithin (startOfYearStr now) today entry) entries).

(** *** getLastWeekTime and getLastMonthTime *)

Definition endOfLastWeek (now : Z) : Z :=
  JSDate.newDateYMD LocalTZA
    (JSDate.getFullYear LocalTZA now) (JSDate.getMonth LocalTZA now)
    (JSDate.getDate LocalTZA now - JSDate.getDay LocalTZA now - 1).

(** [new Date(endOfLastWeek)] moved by [setDate(getDate() - 6)]. *)
Definition startOfLastWeek (now : Z) : Z :=
  let endOfLastWeek := endOfLastWeek now in
  JSDate.setDate LocalTZA endOfLastWeek
    (JSDate.getDate LocalTZA endOfLastWeek - 6).

Definition getLastWeekTime (now : Z) (entries : list TimeEntry) : Q :=
  let startStr := JSDate.isoDate (startOfLastWeek now) in
  let endStr := JSDate.isoDate (endOfLastWeek now) in
  sumTimeSpent (filter (fun entry => dateWithin startStr endStr entry) entries).

Definition startOfLastMonth (now : Z) : Z :=
  JSDate.newDateYMD LocalTZA
    (JSDate.getFullYear LocalTZA now) (JSDate.getMonth LocalTZA now - 1) 1.

Definition endOfLastMonth (now : Z) : Z :=
  JSDate.newDateYMD LocalTZA
    (JSDate.getFullYear LocalTZA now) (JSDate.getMonth LocalTZA now) 0.

Definition getLastMonthTime (now : Z) (entries : list TimeEntry) : Q :=
  let startStr := JSDate.isoDate (startOfLastMonth now) in
  let endStr := JSDate.isoDate (endOfLastMonth now) in
  sumTimeSpent (filter (fun entry => dateWithin startStr endStr entry) entries).

(** *** getWeeklyData, getMonthlyData and getLast30DaysData *)

(** [weekStart] and [weekEnd] in round [i] of the loop of
    [getWeeklyData]: [setDate] on a copy of [now], which keeps the time
    of day. *)
Definition weekStartOf (now i : Z) : Z :=
  JSDate.setDate LocalTZA now
    (JSDate.getDate LocalTZA now - (i * 7) - JSDate.getDay LocalTZA now).

Definition weekEndOf (now i : Z) : Z :=
  let weekStart := weekStartOf now i in
  JSDate.setDate LocalTZA weekStart (JSDate.getDate LocalTZA weekStart + 6).

Definition weekTimeOf (now i : Z) (entries : list TimeEntry) : Q :=
  let startStr := JSDate.isoDate (weekStartOf now i) in
  let endStr := JSDate.isoDate (weekEndOf now i) in
  sumTimeSpent (filter (fun entry => dateWithin startStr endStr entry) entries).

Definition getWeeklyData (now : Z) (entries : list TimeEntry) : ChartData :=
  let weeks :=
    (fun i => ("Week " ++ JS.toString (i + 1), weekTimeOf now i entries))
    <$> countDown 6 in
  {| labels := fst <$> weeks; values := snd <$> weeks |}.

Definition monthStartOf (now i : Z) : Z :=
  JSDate.newDateYMD LocalTZA
    (JSDate.getFullYear LocalTZA now) (JSDate.getMonth LocalTZA now - i) 1.

Definition monthEndOf (now i : Z) : Z :=
  JSDate.newDateYMD LocalTZA
    (JSDate.getFullYear LocalTZA now) (JSDate.getMonth LocalTZA now - i + 1) 0.

Definition monthTimeOf (now i : Z) (entries : list TimeEntry) : Q :=
  let startStr := JSDate.isoDate (monthStartOf now i) in
  let endStr := JSDate.isoDate (monthEndOf now i) in
  sumTimeSpent (filter (fun entry => dateWithin startStr endStr entry) entries).

(** [d.toLocaleDateString('en-US', { month: 'short' })]. *)
Definition monthShortName (d : Z) : option string :=
  monthShortNames !! Z.to_nat (JSDate.getMonth LocalTZA d).

Definition getMonthlyData (now : Z) (entries : list TimeEntry)
  : list (option string) * list Q :=
  let months :=
    (fun i => (monthShortName (monthStartOf now i), monthTimeOf now i entries))
    <$> countDown 5 in
  (fst <$> months, snd <$> months).




End Host.

(** *** The rollups, in days of the calendar

    The day number of the date of an entry, when the date is a date of
    the calendar in the ISO format, as the tracker writes it. *)
Definition dayOfEntry (entry : TimeEntry) : option Z :=
  JSDate.Day <$> JSDate.parseISODate (date entry).

(** The minutes of the entries dated on a day that [onDay] picks. *)
Definition sumOnDays (onDay : Z -> bool) (entries : list TimeEntry) : Q :=
  sumTimeSpent
    (filter (fun entry => from_option onDay false (dayOfEntry entry)) entries).

(** *** getHourlyData *)







(** *** updateProgressBars *)

(** The script of the webview is written inside the untagged template
    literal that [getHtmlForWebview] returns, in which the escapes
    [\d] and [\s] are cooked to the letters [d] and [s]: the regular
    expression that the webview runs is [/(d+)hs*(d+)m/]. *)

(** The longest run of the code unit [c] at the head of [s], and what
    follows it. *)
Fixpoint spanOf (c : ascii) (s : string) : string * string :=
  match s with
  | EmptyString => (EmptyString, EmptyString)
  | String c' s' =>
      if Ascii.eqb c' c
      then let '(run, rest) := spanOf c s' in (String c' run, rest)
      else (EmptyString, s)
  end.

(** White space and line terminators, on code units below 256. *)
Definition isWhiteSpace (c : ascii) : bool :=
  let n := N_of_ascii c in
  ((9 <=? n) && (n <=? 13) || (n =? 32) || (n =? 160))%N.

Fixpoint dropWhiteSpace (s : string) : string :=
  match s with
  | EmptyString => EmptyString
  | String c s' => if isWhiteSpace c then dropWhiteSpace s' else s
  end.

(** [/(d+)hs*(d+)m/] tried at the head of [s]: its two groups.  Each
    quantifier takes all it can, and giving any of it back cannot help:
    what follows a shorter run of [d] is a [d] and not [h] or [m], and
    what follows a shorter run of [s] is an [s] and not a [d]. *)
Definition matchHoursMinutesAt (s : string) : option (string * string) :=
  let '(hours, afterHours) := spanOf "d" s in
  if String.eqb hours "" then None
  else
    match afterHours with
    | String "h" afterH =>
        let '(_, afterSpace) := spanOf "s" afterH in
        let '(mins, afterMins) := spanOf "d" afterSpace in
        if String.eqb mins "" then None
        else
          match afterMins with
          | String "m" _ => Some (hours, mins)
          | _ => None
          end
    | _ => None
    end.

(** [timeStr.match(/(d+)hs*(d+)m/)]: the groups of the leftmost
    match. *)
Fixpoint matchHoursMinutes (s : string) : option (string * string) :=
  match matchHoursMinutesAt s with
  | Some groups => Some groups
  | None =>
      match s with
      | EmptyString => None
      | String _ s' => matchHoursMinutes s'
      end
  end.

(** The value of a digit in a radix up to 36. *)
Definition radixDigit (radix : Z) (c : ascii) : option Z :=
  let n := Z.of_N (N_of_ascii c) in
  let value :=
    if (48 <=? n) && (n <=? 57) then Some (n - 48)
    else if (97 <=? n) && (n <=? 122) then Some (n - 87)
    else if (65 <=? n) && (n <=? 90) then Some (n - 55)
    else None in
  match value with
  | Some v => if v <? radix then Some v else None
  | None => None
  end.

(** The value of the digits at the head of [s]; [acc] is [None] as
    long as there was no digit. *)
Fixpoint parseDigits (radix : Z) (acc : option Z) (s : string) : option Z :=
  match s with
  | EmptyString => acc
  | String c s' =>
      match radixDigit radix c with
      | Some v => parseDigits radix (Some (default 0 acc * radix + v)) s'
      | None => acc
      end
  end.

(** [parseInt(s)]: white space, a sign, [0x] for the radix 16, then
    the digits there are; [None] is [NaN], for no digit. *)
Definition parseInt (s : string) : option Z :=
  let s1 := dropWhiteSpace s in
  let '(sign, s2) :=
    match s1 with
    | String "-" rest => (-1, rest)
    | String "+" rest => (1, rest)
    | _ => (1, s1)
    end in
  let '(radix, s3) :=
    match s2 with
    | String "0" (String "x" rest) => (16, rest)
    | String "0" (String "X" rest) => (16, rest)
    | _ => (10, s2)
    end in
  (fun value => sign * value) <$> parseDigits radix None s3.

(** What [parseTimeToMinutes] returns; [None] is [NaN]. *)
Definition parseTimeToMinutes (timeStr : string) : option Z :=
  if negb (JS.truthy timeStr) || String.eqb timeStr "Loading..."
     || String.eqb timeStr "0h 0m"
  then Some 0
  else
    match matchHoursMinutes timeStr with
    | Some (hours, mins) =>
        h ← parseInt hours; m ← parseInt mins; Some (h * 60 + m)
    | None => Some 0
    end.





(** The dates of the worked example of the design document. *)
Definition exampleDates : list string :=
  ["2024-01-01"; "2024-01-02"; "2024-01-03"; "2024-01-05"].

(** *** Streaks, in the words of the design document

    "Consecutive = exactly one day apart when dates are sorted
    ascending": a run is a block of the sorted dates in which each
    date is one day after the one before it. *)
Section Runs.

Variable DateParse : string -> option Z.

Definition oneDayApart (p d : string) : Prop :=
  diffOfDates (DateParse d) (DateParse p) = Some 1.

Fixpoint isRun (l : list string) : Prop :=
  match l with
  | p :: ((d :: _) as rest) => oneDayApart p d /\ isRun rest
  | _ => True
  end.

End Runs.

(** [seg] is a block of consecutive positions of [l]. *)
Definition segmentOf (seg l : list string) : Prop :=
  exists l1 l2 : list string, l = (l1 ++ seg ++ l2)%list.

Section LoopInvariant.

Variable DateParse : string -> option Z.
Variables today yesterdayStr : string.

(** What the loop has in hand after the dates [pre]: the running
    streak is the longest run at the end of [pre], the longest streak
    the longest run anywhere in [pre], and the current streak the
    running streak at the last date that is today or yesterday. *)
Record LoopInv (pre : list string) (st : StreakLoop) : Prop := {
  inv_temp_run :
    exists seg, seg `suffix_of` pre /\ isRun DateParse seg
                /\ length seg = tempStreak st;
  inv_temp_max :
    forall seg, seg `suffix_of` pre -> isRun DateParse seg ->
                (length seg <= tempStreak st)%nat;
  inv_temp_pos : pre <> [] -> (1 <= tempStreak st)%nat;
  inv_longest_run :
    exists seg, segmentOf seg pre /\ isRun DateParse seg
                /\ length seg = longestStreak st;
  inv_longest_max :
    forall seg, segmentOf seg pre -> isRun DateParse seg ->
                (length seg <= longestStreak st)%nat;
  inv_yesterday : yesterdayHasCoding st = true <-> yesterdayStr ∈ pre;
  inv_current_zero :
    currentStreak st = 0%nat <-> ~ (today ∈ pre \/ yesterdayStr ∈ pre);
  inv_current_run :
    currentStreak st <> 0%nat ->
    exists l1 seg l2,
      pre = (l1 ++ seg ++ l2)%list /\ isRun DateParse seg
      /\ length seg = currentStreak st
      /\ (last seg = Some today \/ last seg = Some yesterdayStr)
      /\ (today ∉ l2) /\ (yesterdayStr ∉ l2)
      /\ (forall seg', seg' `suffix_of` (l1 ++ seg)%list ->
                       isRun DateParse seg' ->
                       (length seg' <= currentStreak st)%nat)
}.

End LoopInvariant.

(** *** getIntensityLevel *)
Definition getIntensityLevel (minutes : Q) : Z :=
  if Qeq_bool minutes 0 then 0
  else if Qlt_le_dec minutes 60 then 1
  else if Qlt_le_dec minutes 180 then 2
  else if Qlt_le_dec minutes 360 then 3
  else 4.

(** *** updateLanguagesInsight *)






(** *** createMonthGrid and createHeatmap *)

(** What the loop of [createMonthGrid] computes for a day, and writes
    into the [data-level] and the tooltip of a cell: the date, the name
    of the weekday, the minutes (shown as hours and minutes) and the
    level. *)
Record CellInfo : Type := {
  dateStr : string;
  dayName : option string;
  minutes : Q;
  level : Z
}.

(** The array [dayNames] of [createMonthGrid], which begins on Saturday. *)
Definition gridDayNames : list string :=
  ["Saturday"; "Sunday"; "Monday"; "Tuesday"; "Wednesday"; "Thursday";
   "Friday"].

Section Host.

Variable LocalTZA : Z -> bool -> Z.

(** [data.dailySummary], an object of numbers under dates. *)
Variable dailySummary : gmap string Q.

(** The body of the loop for [day], up to the tooltip: [currentDate],
    [dateStr], [minutes] ([dailySummary[dateStr] || 0]), [level] and
    [dayNames[dayOfWeek]]. *)
Definition cellInfoOf (date day : Z) : CellInfo :=
  let currentDate :=
    JSDate.newDateYMD LocalTZA
      (JSDate.getFullYear LocalTZA date) (JSDate.getMonth LocalTZA date) day in
  let dateStr := JSDate.isoDate currentDate in
  let minutes := default 0%Q (dailySummary !! dateStr) in
  let level := getIntensityLevel minutes in
  let dayOfWeek := JSDate.getDay LocalTZA currentDate in
  {| dateStr := dateStr;
     dayName := gridDayNames !! Z.to_nat dayOfWeek;
     minutes := minutes;
     level := level |}.

(** One round of the loop over the days.  The cells of the days are
    kept in order, [None] being a cell whose level and tooltip are not
    set; [previousCell] is the last of them.  What the round computes
    goes to [previousCell], if there is one, and the cell of the round
    is appended. *)
Definition gridStep (date : Z) (cells : list (option CellInfo)) (day : Z)
  : list (option CellInfo) :=
  let info := cellInfoOf date day in
  let cells' :=
    match cells with
    | [] => cells
    | _ => <[ (length cells - 1)%nat := Some info ]> cells
    end in
  (cells' ++ [None])%list.

(** The cells of the days of the month of [date], as [createMonthGrid]
    leaves them; the empty cells that pad the first week come before
    them in the grid. *)
Definition createMonthGrid (date : Z) : list (option CellInfo) :=
  let lastDay :=
    JSDate.newDateYMD LocalTZA
      (JSDate.getFullYear LocalTZA date)
      (JSDate.getMonth LocalTZA date + 1) 0 in
  let days := Z.of_nat <$> seq 1 (Z.to_nat (JSDate.getDate LocalTZA lastDay)) in
  let cells := foldl (gridStep date) [] days in
  match cells with
  | [] => cells
  | _ =>
      <[ (length cells - 1)%nat :=
           Some (cellInfoOf date (JSDate.getDate LocalTZA lastDay)) ]> cells
  end.

(** [createHeatmap]: the grids of the last three months, the oldest
    first. *)
Definition createHeatmap (now : Z) : list (list (option CellInfo)) :=
  (fun i => createMonthGrid (monthStartOf LocalTZA now i)) <$> countDown 2.

End Host.

End SummaryView.

(** ** statusBar.ts: the script of the settings page *)

Module StatusBarSettings.

(** [s.trimEnd()] and [s.trim()] on code units below 256. *)
Fixpoint trimEnd (s : string) : string :=
  match s with
  | EmptyString => EmptyString
  | String c s' =>
      match trimEnd s' with
      | EmptyString =>
          if SummaryView.isWhiteSpace c then EmptyString
          else String c EmptyString
      | rest => String c rest
      end
  end.

Definition trim (s : string) : string :=
  trimEnd (SummaryView.dropWhiteSpace s).

(** The class [[0-9a-fA-F]]. *)
Definition isHexDigit (c : ascii) : bool :=
  let n := N_of_ascii c in
  ((48 <=? n) && (n <=? 57) || (65 <=? n) && (n <=? 70)
   || (97 <=? n) && (n <=? 102))%N.

Fixpoint allUnits (p : ascii -> bool) (s : string) : bool :=
  match s with
  | EmptyString => true
  | String c s' => p c && allUnits p s'
  end.

(** [hexRegex.test(s)] for [/^#([0-9a-fA-F]{6}|[0-9a-fA-F]{3})$/]. *)
Definition hexRegexTest (s : string) : bool :=
  match s with
  | String "#" digits =>
      allUnits isHexDigit digits
      && ((String.length digits =? 6)%nat || (String.length digits =? 3)%nat)
  | _ => false
  end.

(** [s.replace('#', '')]: the first ['#'] is taken out. *)
Fixpoint removeFirstHash (s : string) : string :=
  match s with
  | EmptyString => EmptyString
  | String c s' =>
      if Ascii.eqb c "#" then s' else String c (removeFirstHash s')
  end.

(** [s.split('')]: the code units, each a string. *)
Fixpoint splitUnits (s : string) : list string :=
  match s with
  | EmptyString => []
  | String c s' => String c EmptyString :: splitUnits s'
  end.

Definition normalizeHexToSix (value : string) : string :=
  let trimmed := trim value in
  if negb (JS.truthy trimmed) then ""
  else
    let withHash :=
      if String.prefix "#" trimmed then trimmed else "#" ++ trimmed in
    if negb (hexRegexTest withHash) then ""
    else
      let hex := removeFirstHash withHash in
      if (String.length hex =? 3)%nat
      then "#" ++ JS.toLowerCase
                    (String.concat "" ((fun c => c ++ c) <$> splitUnits hex))
      else "#" ++ JS.toLowerCase hex.

(** The two inputs of the status bar colour. *)
Record ColorInputs : Type := { textInput : string; pickerInput : string }.

Definition syncTextAndPicker (value : string) : ColorInputs :=
  let normalized := normalizeHexToSix value in
  {| textInput := value;
     pickerInput := if JS.truthy normalized then normalized else "#ffaa00" |}.

End StatusBarSettings.

(** ** The persisted store (sections 3, 4.3 and 6 of the design document)

    The store and the commit into it live in database.ts and
    timeTracker.ts, which are not at hand; what follows is modelled
    from the design document. *)

Module Database.

Import SummaryView.

(** The natural key of a [TimeEntry]: (date, project, branch, language). *)
Record EntryKey : Type := {
  keyDate : string;
  keyProject : string;
  keyBranch : string;
  keyLanguage : string
}.

Definition keyOf (entry : TimeEntry) : EntryKey :=
  {| keyDate := date entry; keyProject := project entry;
     keyBranch := branch entry; keyLanguage := language entry |}.

Definition sameKey (k : EntryKey) (entry : TimeEntry) : bool :=
  String.eqb (keyDate k) (date entry) && String.eqb (keyProject k) (project entry)
  && String.eqb (keyBranch k) (branch entry)
  && String.eqb (keyLanguage k) (language entry).

(** Modelled from the spec: [mergeEntry(key, deltaMinutes)] of the
    persisted store, whose source file (database.ts) is not at hand.
    "Natural key = (date, project, branch, language); multiple flushes
    on the same key accumulate additively"; rows are "append/merge-only". *)
Fixpoint mergeEntry (k : EntryKey) (deltaMinutes : Q) (store : list TimeEntry)
  : list TimeEntry :=
  match store with
  | [] =>
      [ {| date := keyDate k; project := keyProject k;
           timeSpent := deltaMinutes;
           branch := keyBranch k; language := keyLanguage k |} ]
  | entry :: rest =>
      if sameKey k entry then
        {| date := date entry; project := project entry;
           timeSpent := (timeSpent entry + deltaMinutes)%Q;
           branch := branch entry; language := language entry |} :: rest
      else entry :: mergeEntry k deltaMinutes rest
  end.

(** The minutes persisted for a date, over all its keys. *)
Definition dateTotal (d : string) (store : list TimeEntry) : Q :=
  sumTimeSpent (filter (fun entry => date entry = d) store).

Definition inRange (deltaMinutes : Q) : bool :=
  Qle_bool 0 deltaMinutes && Qle_bool deltaMinutes 1440.

Inductive Outcome : Type := Committed | Rejected.

(** Modelled from the spec: the commit of a delta [TimeEntry], whose
    source files (timeTracker.ts and database.ts) are not at hand.
    "Values outside [0, 1440] are rejected, not silently clamped";
    "sum of all TimeEntry.timeSpentMinutes for a date never exceeds
    1440; attempts to commit more are rejected"; an accepted delta is
    an "additive-merge into the store". *)
Definition commit (k : EntryKey) (deltaMinutes : Q) (store : list TimeEntry)
  : list TimeEntry * Outcome :=
  if inRange deltaMinutes
     && Qle_bool (dateTotal (keyDate k) store + deltaMinutes) 1440
  then (mergeEntry k deltaMinutes store, Committed)
  else (store, Rejected).

(** A run of attempted commits, each on the store the previous left. *)
Definition commitAll (attempts : list (EntryKey * Q)) (store : list TimeEntry)
  : list TimeEntry :=
  foldl (fun st '(k, deltaMinutes) => (commit k deltaMinutes st).1)
        store attempts.

(** Flushing deltas one after the other under one key. *)
Definition flushAll (k : EntryKey) (deltas : list Q) (store : list TimeEntry)
  : list TimeEntry :=
  commitAll (map (fun deltaMinutes => (k, deltaMinutes)) deltas) store.

Definition sumDeltas (deltas : list Q) : Q :=
  foldl Qplus 0%Q deltas.

(** The entries of the store under a key. *)
Definition entriesOf (k : EntryKey) (store : list TimeEntry) : list TimeEntry :=
  filter (fun entry => sameKey k entry) store.

(** A key for the examples. *)
Definition exampleKey : EntryKey :=
  {| keyDate := "2024-01-05"; keyProject := "tracker";
     keyBranch := "main"; keyLanguage := "TypeScript" |}.

End Database.

(** ** The session state machine (section 4.2 of the design document)

    The machine lives in timeTracker.ts, which is not at hand; what
    follows is modelled from the design document, with timestamps in
    milliseconds. *)

Module TimeTracker.

Inductive SignalKind : Type := Edit | Cursor | FocusGained | FocusLost.

Record ActivitySignal : Type := { timestamp : Z; kind : SignalKind }.

Inductive State : Type := Active | Paused.

(** The fields of the Session that drive the transitions between
    Active and Paused; the accrual fields play no part in them. *)
Record Session : Type := {
  state : State;
  lastActivityAt : Z;
  lastFocusLostAt : option Z
}.

Record Config : Type := { inactivityTimeout : Z; focusTimeout : Z }.

Definition stampsActivity (k : SignalKind) : bool :=
  match k with
  | Edit | Cursor => true
  | FocusGained | FocusLost => false
  end.

(** Modelled from the spec: [recordActivity(signal)], whose source
    file (timeTracker.ts) is not at hand.  It "stamps lastActivityAt (for
    edit/cursor) or toggles focus bookkeeping (for focus-gained/lost)";
    "Paused -> Active: any activity signal arrives (edit, cursor, or
    focus-gained followed by activity)". *)
Definition recordActivity (signal : ActivitySignal) (s : Session) : Session :=
  match kind signal with
  | Edit | Cursor =>
      {| state := Active; lastActivityAt := timestamp signal;
         lastFocusLostAt := lastFocusLostAt s |}
  | FocusGained =>
      {| state := state s; lastActivityAt := lastActivityAt s;
         lastFocusLostAt := None |}
  | FocusLost =>
      {| state := state s; lastActivityAt := lastActivityAt s;
         lastFocusLostAt := Some (timestamp signal) |}
  end.

(** Modelled from the spec: the timeout checks of the state machine at
    the instant [now], whose source file (timeTracker.ts) is not at hand.
    "Active -> Paused: no activity signal received for
    inactivityTimeout while the editor is focused", the boundary being
    inclusive ("at t=2.5min state=Active; at t=2.5min+e state=Paused");
    "Active -> Paused: focus lost and focusTimeout elapses with no
    subsequent focus-gained signal"; re-entering Paused is a no-op. *)
Definition checkTimeouts (cfg : Config) (now : Z) (s : Session) : Session :=
  match state s with
  | Paused => s
  | Active =>
      let expired :=
        match lastFocusLostAt s with
        | None => inactivityTimeout cfg <? now - lastActivityAt s
        | Some lostAt => focusTimeout cfg <? now - lostAt
        end in
      if expired then
        {| state := Paused; lastActivityAt := lastActivityAt s;
           lastFocusLostAt := lastFocusLostAt s |}
      else s
  end.

(** What reaches the machine: a signal, or a look at the timers. *)
Inductive Event : Type :=
| Signal (signal : ActivitySignal)
| Tick (now : Z).

Definition timeOf (ev : Event) : Z :=
  match ev with
  | Signal signal => timestamp signal
  | Tick now => now
  end.

Definition step (cfg : Config) (s : Session) (ev : Event) : Session :=
  match ev with
  | Signal signal => recordActivity signal s
  | Tick now => checkTimeouts cfg now s
  end.

(** The sessions after each event of a trace. *)
Fixpoint run (cfg : Config) (s : Session) (trace : list Event) : list Session :=
  match trace with
  | [] => []
  | ev :: rest => let s' := step cfg s ev in s' :: run cfg s' rest
  end.

(** The instants of the signals that stamp [lastActivityAt]. *)
Fixpoint activityTimes (trace : list Event) : list Z :=
  match trace with
  | [] => []
  | Signal signal :: rest =>
      if stampsActivity (kind signal) then timestamp signal :: activityTimes rest
      else activityTimes rest
  | Tick _ :: rest => activityTimes rest
  end.

Definition isActivity (ev : Event) : bool :=
  match ev with
  | Signal signal => stampsActivity (kind signal)
  | Tick _ => false
  end.

(** Consecutive instants less than [gap] apart. *)
Fixpoint spacedBelow (gap : Z) (ts : list Z) : Prop :=
  match ts with
  | a :: (b :: _) as rest => b - a < gap /\ spacedBelow gap rest
  | _ => True
  end.

(** No focus-lost signal in the trace. *)
Definition focusedThroughout (trace : list Event) : Prop :=
  Forall (fun ev => match ev with
                    | Signal signal => kind signal <> FocusLost
                    | Tick _ => True
                    end) trace.

(** A sequence of activity signals with the timer looks interleaved:
    in order of time, from a first activity signal to a last one. *)
Definition activitySequence (trace : list Event) : Prop :=
  Sorted Z.le (map timeOf trace)
  /\ (isActivity <$> head trace) = Some true
  /\ (isActivity <$> last trace) = Some true.

Definition exampleConfig : Config :=
  {| inactivityTimeout := 150000; focusTimeout := 180000 |}.

Definition exampleTrace : list Event :=
  [ Signal {| timestamp := 0; kind := Edit |};
    Tick 5000;
    Tick 140000;
    Signal {| timestamp := 149999; kind := Cursor |};
    Signal {| timestamp := 150000; kind := FocusGained |};
    Tick 299000;
    Signal {| timestamp := 299998; kind := Edit |} ].

End TimeTracker.

(** * Properties *)

(** ** formatTime *)

Section FormatTime.

Import Utils.

Lemma floor_between (x : Q) (n : Z) :
  (inject_Z n <= x)%Q -> (x < inject_Z (n + 1))%Q -> JS.floor x = n.
Proof.
  intros Hlo Hhi. unfold JS.floor.
  apply Z.le_antisymm.
  - apply Z.lt_succ_r. rewrite Zlt_Qlt.
    eapply Qle_lt_trans; [apply Qfloor_le|]. exact Hhi.
  - rewrite <- (Qfloor_Z n). apply Qfloor_resp_le. exact Hlo.
Qed.

Lemma trunc_nonneg (x : Q) : (0 <= x)%Q -> JS.trunc x = JS.floor x.
Proof.
  intros H. unfold JS.trunc.
  destruct (Qle_bool 0 x) eqn:E; [reflexivity|].
  apply Qle_bool_iff in H. congruence.
Qed.

(** In the last half minute of an hour the two components are
    [h] and [60]. *)
Lemma formatTime_last_half_minute (h : Z) (minutes : Q) :
  0 <= h ->
  (inject_Z (60 * h) + (119 # 2) <= minutes)%Q ->
  (minutes < inject_Z (60 * h) + 60)%Q ->
  formatTime minutes = JS.toString h ++ "h 60m".
Proof.
  intros Hh Hlo Hhi.
  assert (Hh' : (0 <= inject_Z h)%Q)
    by (change 0%Q with (inject_Z 0); rewrite <- Zle_Qle; exact Hh).
  assert (H60 : (inject_Z (60 * h) == 60 * inject_Z h)%Q)
    by (rewrite inject_Z_mult; reflexivity).
  assert (Hfl : JS.floor (minutes / 60) = h).
  { apply floor_between.
    - apply Qle_shift_div_l; [reflexivity|]. lra.
    - apply Qlt_shift_div_r; [reflexivity|].
      rewrite inject_Z_plus. change (inject_Z 1) with 1%Q. lra. }
  assert (Htr : JS.trunc (minutes / 60) = h).
  { rewrite trunc_nonneg; [exact Hfl|].
    apply Qle_shift_div_l; [reflexivity|]. lra. }
  unfold formatTime. rewrite Hfl. unfold JS.rem. rewrite Htr.
  assert (Hr : JS.round (minutes - 60 * inject_Z h) = 60).
  { unfold JS.round. apply floor_between.
    - change (inject_Z 60) with 60%Q. lra.
    - change (inject_Z (60 + 1)) with 61%Q. lra. }
  rewrite Hr. reflexivity.
Qed.

End FormatTime.

(** C9. [formatTime] does not always render a normalised pair: the
    minutes are rounded on their own, so [formatTime(59.5)] is
    ["0h 60m"], not ["1h 0m"], its hours being [floor(59.5 / 60) = 0] and
    its minutes [round(59.5 % 60) = 60]; a nonnegative input with the
    minutes component 60 exists, and so it is in the last half minute of
    every hour. *)
Theorem formatTime_renders_sixty_minutes :
  Utils.formatTime (119 # 2) = "0h 60m"
  /\ Utils.formatTime (119 # 2) <> "1h 0m"
  /\ JS.floor ((119 # 2) / 60) = 0
  /\ JS.round (JS.rem (119 # 2) 60) = 60
  /\ (exists minutes : Q, (0 <= minutes)%Q /\ JS.round (JS.rem minutes 60) = 60)
  /\ (forall (h : Z) (minutes : Q),
        0 <= h ->
        (inject_Z (60 * h) + (119 # 2) <= minutes)%Q ->
        (minutes < inject_Z (60 * h) + 60)%Q ->
        Utils.formatTime minutes = JS.toString h ++ "h 60m").
Proof.
  repeat split; try reflexivity.
  - intros H. vm_compute in H. discriminate H.
  - exists (119 # 2). split; [discriminate | reflexivity].
  - intros h minutes. apply formatTime_last_half_minute.
Qed.

Lemma formatTime_renders_sixty_minutes_witness :
  Utils.formatTime (479 # 4) = "1h 60m".
Proof.
  apply (proj2 (proj2 (proj2 (proj2 (proj2
           formatTime_renders_sixty_minutes)))) 1 (479 # 4));
    [lia | discriminate | reflexivity].
Defined.

(** ** getIntensityLevel *)

(** C3. The intensity level is a step function of the minutes of a
    day: 0 at 0, 1 on (0,60), 2 on [60,180), 3 on [180,360) and 4 from
    360 on. *)
Theorem getIntensityLevel_steps (minutes : Q) :
  ((minutes == 0)%Q -> SummaryView.getIntensityLevel minutes = 0)
  /\ ((0 < minutes)%Q /\ (minutes < 60)%Q ->
      SummaryView.getIntensityLevel minutes = 1)
  /\ ((60 <= minutes)%Q /\ (minutes < 180)%Q ->
      SummaryView.getIntensityLevel minutes = 2)
  /\ ((180 <= minutes)%Q /\ (minutes < 360)%Q ->
      SummaryView.getIntensityLevel minutes = 3)
  /\ ((360 <= minutes)%Q -> SummaryView.getIntensityLevel minutes = 4).
Proof.
  unfold SummaryView.getIntensityLevel.
  destruct (Qeq_bool minutes 0) eqn:E0.
  - apply Qeq_bool_iff in E0. repeat split; intros; lra.
  - assert (Hne : ~ (minutes == 0)%Q)
      by (intros H; apply Qeq_bool_iff in H; congruence).
    destruct (Qlt_le_dec minutes 60); [repeat split; intros; lra|].
    destruct (Qlt_le_dec minutes 180); [repeat split; intros; lra|].
    destruct (Qlt_le_dec minutes 360); repeat split; intros; lra.
Qed.

Lemma getIntensityLevel_steps_witness :
  SummaryView.getIntensityLevel 0 = 0
  /\ SummaryView.getIntensityLevel (59 # 1) = 1
  /\ SummaryView.getIntensityLevel (60 # 1) = 2
  /\ SummaryView.getIntensityLevel (359 # 2) = 2
  /\ SummaryView.getIntensityLevel (180 # 1) = 3
  /\ SummaryView.getIntensityLevel (360 # 1) = 4.
Proof.
  split; [apply (getIntensityLevel_steps 0); reflexivity|].
  split; [apply (getIntensityLevel_steps (59 # 1)); split; reflexivity|].
  split; [apply (getIntensityLevel_steps (60 # 1)); split;
          [discriminate | reflexivity]|].
  split; [apply (getIntensityLevel_steps (359 # 2)); split;
          [discriminate | reflexivity]|].
  split; [apply (getIntensityLevel_steps (180 # 1)); split;
          [discriminate | reflexivity]|].
  apply (getIntensityLevel_steps (360 # 1)); discriminate.
Defined.

(** ** detectLanguageFromFile *)

Section DetectLanguage.

Import Utils.

Lemma lowerUnit_idem (c : ascii) : JS.lowerUnit (JS.lowerUnit c) = JS.lowerUnit c.
Proof. destruct c as [[] [] [] [] [] [] [] []]; reflexivity. Qed.

Lemma toLowerCase_idem (s : string) :
  JS.toLowerCase (JS.toLowerCase s) = JS.toLowerCase s.
Proof.
  induction s as [|c s IH]; simpl; [reflexivity|].
  rewrite lowerUnit_idem, IH. reflexivity.
Qed.

(** Of the names [Object.prototype] defines, only two are in lower
    case, and an extension is. *)
Lemma inherited_lowercase (s : string) :
  JS.toLowerCase s ∈ JS.objectPrototypeProps ->
  JS.toLowerCase s = "constructor" \/ JS.toLowerCase s = "__proto__".
Proof.
  intros Hin. pose proof (toLowerCase_idem s) as Hid.
  unfold JS.objectPrototypeProps in Hin.
  repeat match type of Hin with
         | _ ∈ _ :: _ => apply elem_of_cons in Hin as [Hin|Hin]
         | _ ∈ [] => apply elem_of_nil in Hin; contradiction
         end;
    try (left; exact Hin); try (right; exact Hin);
    rewrite Hin in Hid; vm_compute in Hid; discriminate Hid.
Qed.

Lemma languageMap_values_nonempty (k v : string) :
  languageMap !! k = Some v -> JS.truthy v = true.
Proof.
  intros H. unfold languageMap in H. apply elem_of_list_to_map_2 in H.
  assert (Hall : Forall (fun kv => JS.truthy kv.2 = true) languageMapEntries)
    by (repeat constructor).
  rewrite Forall_forall in Hall. exact (Hall _ H).
Qed.

Local Opaque languageMap.

Lemma specialFilename_nonempty (fn lang : string) :
  specialFilename fn = Some lang -> JS.truthy lang = true.
Proof.
  unfold specialFilename.
  repeat match goal with
         | |- context [if ?b then _ else _] => destruct b
         end; intros H; inversion H; reflexivity.
Qed.

(** X1. What [detectLanguageFromFile] returns, case by case: it is total;
    a string it returns is not empty; it returns something that is
    not a string exactly when the extension in lower case is
    ["constructor"] or ["__proto__"]. *)
Lemma detectLanguageFromFile_cases (filePath : string) :
  (filePath = "" /\ detectLanguageFromFile filePath = JS.VString "unknown")
  \/ (filePath <> "" /\
      ((exists lang, detectLanguageFromFile filePath = JS.VString lang
                     /\ lang <> ""
                     /\ extensionOf filePath <> Some "constructor"
                     /\ extensionOf filePath <> Some "__proto__")
       \/ (exists ext, detectLanguageFromFile filePath = JS.VInherited ext
                       /\ extensionOf filePath = Some ext
                       /\ (ext = "constructor" \/ ext = "__proto__")))).
Proof.
  unfold detectLanguageFromFile.
  destruct (JS.truthy filePath) eqn:Hfp; cbv [negb].
  2:{ left. unfold JS.truthy in Hfp.
      destruct (String.eqb_spec filePath ""); [auto | discriminate]. }
  right. split.
  { intros ->. discriminate Hfp. }
  assert (Hne : forall l, JS.truthy l = true -> l <> "")
    by (intros l Hl ->; discriminate Hl).
  assert (Hfallback :
    exists lang,
      match
        match filenameOf filePath with
        | Some fn => if JS.truthy fn then specialFilename fn else None
        | None => None
        end
      with
      | Some lang => JS.VString lang
      | None => JS.VString "Other"
      end = JS.VString lang /\ lang <> "").
  { destruct (filenameOf filePath) as [fn|];
      [|exists "Other"; split; [reflexivity | discriminate]].
    destruct (JS.truthy fn);
      [|exists "Other"; split; [reflexivity | discriminate]].
    destruct (specialFilename fn) as [lang|] eqn:Hsp;
      [|exists "Other"; split; [reflexivity | discriminate]].
    exists lang. split; [reflexivity|].
    apply Hne. eapply specialFilename_nonempty; eassumption. }
  destruct (extensionOf filePath) as [ext|] eqn:Hext.
  2:{ left. destruct Hfallback as (lang & -> & Hl).
      exists lang. repeat split; [exact Hl | discriminate | discriminate]. }
  assert (Hlow : exists s0, ext = JS.toLowerCase s0).
  { unfold extensionOf in Hext.
    destruct (JS.pop (JS.split isDot filePath)) as [s0|]; [|discriminate].
    exists s0. cbn [fmap option_fmap option_map] in Hext. congruence. }
  destruct Hlow as [s0 Hs0].
  destruct (JS.truthy ext) eqn:Htr.
  2:{ left. destruct Hfallback as (lang & -> & Hl).
      exists lang. repeat split; [exact Hl | |];
        intros [= ->]; discriminate Htr. }
  unfold JS.get.
  destruct (languageMap !! ext) as [v|] eqn:Hlk.
  - pose proof (languageMap_values_nonempty _ _ Hlk) as Hv.
    cbv [JS.truthyValue]. rewrite Hv. left. exists v.
    repeat split; [apply Hne, Hv | |]; intros [= ->]; vm_compute in Hlk;
      discriminate Hlk.
  - destruct (bool_decide (ext ∈ JS.objectPrototypeProps)) eqn:Hin.
    + apply bool_decide_eq_true in Hin. cbv [JS.truthyValue]. right.
      exists ext.
      repeat split. subst ext. apply inherited_lowercase. exact Hin.
    + apply bool_decide_eq_false in Hin.
      left. destruct Hfallback as (lang & -> & Hl).
      exists lang. repeat split; [exact Hl | |]; intros [= ->]; apply Hin;
        unfold JS.objectPrototypeProps; set_solver.
Qed.

End DetectLanguage.

(** C10 at the paths whose extension names a property every object
    inherits: [languageMap[extension]] is then found on
    [Object.prototype], it is truthy, and it is returned as it is, so
    that the result is no language name and no string at all, where
    ["Other"] is due. *)
Theorem detectLanguageFromFile_inherited_property :
  Utils.extensionOf "notes.constructor" = Some "constructor"
  /\ Utils.languageMap !! "constructor" = None
  /\ Utils.filenameOf "notes.constructor" ≫= Utils.specialFilename = None
  /\ Utils.detectLanguageFromFile "notes.constructor"
     = JS.VInherited "constructor"
  /\ (forall lang : string,
        Utils.detectLanguageFromFile "notes.constructor" <> JS.VString lang)
  /\ Utils.detectLanguageFromFile "a/b.__PROTO__" = JS.VInherited "__proto__".
Proof.
  repeat split; try reflexivity.
  intros lang H. vm_compute in H. discriminate H.
Qed.

(** ** The rollups *)

Section DateArithmetic.

Import JSDate.

(** [YearFromDay] is the year ECMAScript asks for: the largest one
    that starts on or before the day. *)
Lemma YearFromDay_bounds (d : Z) :
  DayFromYear (YearFromDay d) <= d < DayFromYear (YearFromDay d + 1).
Proof.
  unfold YearFromDay.
  destruct (Z.ltb_spec d (DayFromYear (1970 + d * 400 / 146097))) as [H|H].
  - unfold DayFromYear in *. Z.to_euclidean_division_equations; lia.
  - destruct (Z.leb_spec (DayFromYear (1970 + d * 400 / 146097 + 1)) d)
      as [H'|H'].
    + unfold DayFromYear in *. Z.to_euclidean_division_equations; lia.
    + lia.
Qed.

Lemma DayFromYear_succ (y : Z) : DayFromYear (y + 1) = DayFromYear y + DaysInYear y.
Proof.
  unfold DayFromYear, DaysInYear, isLeap.
  destruct (Z.eqb_spec (y mod 4) 0), (Z.eqb_spec (y mod 100) 0),
    (Z.eqb_spec (y mod 400) 0); cbn [andb orb negb];
    Z.to_euclidean_division_equations; lia.
Qed.

Lemma DayFromYear_mono (y1 y2 : Z) : y1 <= y2 -> DayFromYear y1 <= DayFromYear y2.
Proof. unfold DayFromYear. intros H. Z.to_euclidean_division_equations; lia. Qed.

Lemma YearFromDay_unique (d y : Z) :
  DayFromYear y <= d < DayFromYear (y + 1) -> YearFromDay d = y.
Proof.
  intros [Hlo Hhi]. pose proof (YearFromDay_bounds d) as [Hlo' Hhi'].
  destruct (Z.lt_trichotomy (YearFromDay d) y) as [Hlt|[Heq|Hgt]];
    [exfalso | exact Heq | exfalso].
  - pose proof (DayFromYear_mono (YearFromDay d + 1) y ltac:(lia)). lia.
  - pose proof (DayFromYear_mono (y + 1) (YearFromDay d) ltac:(lia)). lia.
Qed.

Lemma YearFromDay_largest (d y : Z) : DayFromYear y <= d -> y <= YearFromDay d.
Proof.
  intros H. pose proof (YearFromDay_bounds d) as [_ Hhi].
  destruct (Z.le_gt_cases y (YearFromDay d)) as [|Hgt]; [assumption|].
  pose proof (DayFromYear_mono (YearFromDay d + 1) y ltac:(lia)). lia.
Qed.

Lemma monthOfYearDay_range (leap dwy : Z) : 0 <= monthOfYearDay leap dwy <= 11.
Proof.
  unfold monthOfYearDay.
  repeat match goal with
         | |- context [if ?b then _ else _] => destruct b
         end; lia.
Qed.

Lemma Day_MakeDate (day : Z) : Day (MakeDate day 0) = day.
Proof. unfold Day, MakeDate, msPerDay. rewrite Z.add_0_r. apply Z.div_mul. lia. Qed.

(** Building a date back from the fields of a time value, [k] days
    off: [Date] arithmetic on the day of the month is arithmetic on
    day numbers. *)
Lemma MakeDay_fields (t k : Z) :
  MakeDay (YearFromTime t) (MonthFromTime t) (DateFromTime t + k) = Day t + k.
Proof.
  unfold MakeDay, DateFromTime, DayWithinYear, InLeapYear.
  pose proof (monthOfYearDay_range (InLeapYear t) (DayWithinYear t)) as Hm.
  fold (MonthFromTime t) in Hm.
  rewrite Z.div_small, Z.mod_small by lia.
  rewrite Z.add_0_r. fold (InLeapYear t). lia.
Qed.

Lemma WeekDay_range (t : Z) : 0 <= WeekDay t <= 6.
Proof. unfold WeekDay. pose proof (Z.mod_pos_bound (Day t + 4) 7). lia. Qed.

(** The day [WeekDay t] days before the day of [t] is a Sunday. *)
Lemma WeekDay_start_of_week (t : Z) :
  WeekDay (MakeDate (Day t - WeekDay t) 0) = 0.
Proof.
  unfold WeekDay at 1. rewrite Day_MakeDate. unfold WeekDay.
  Z.to_euclidean_division_equations; lia.
Qed.

Lemma InLeapYear_range (t : Z) : 0 <= InLeapYear t <= 1.
Proof. unfold InLeapYear. destruct (isLeap _); lia. Qed.

Lemma DayWithinYear_nonneg (t : Z) : 0 <= DayWithinYear t.
Proof.
  unfold DayWithinYear, YearFromTime.
  pose proof (YearFromDay_bounds (Day t)). lia.
Qed.

Lemma daysBeforeMonth_nonneg (leap m : Z) : 0 <= leap -> 0 <= daysBeforeMonth leap m.
Proof.
  intros H. unfold daysBeforeMonth.
  repeat match goal with
         | |- context [match ?x with _ => _ end] => destruct x
         end; lia.
Qed.

Lemma daysBeforeMonth_le (leap dwy : Z) :
  0 <= leap <= 1 -> 0 <= dwy ->
  daysBeforeMonth leap (monthOfYearDay leap dwy) <= dwy.
Proof.
  intros Hl Hd. unfold monthOfYearDay.
  repeat match goal with
         | |- context [if ?a <? ?b then _ else _] =>
             destruct (Z.ltb_spec a b)
         end; cbn [daysBeforeMonth]; lia.
Qed.

Lemma monthOfYearDay_daysBeforeMonth (leap m : Z) :
  0 <= leap <= 1 -> 0 <= m <= 11 ->
  monthOfYearDay leap (daysBeforeMonth leap m) = m.
Proof.
  intros Hl Hm.
  assert (Hleap : leap = 0 \/ leap = 1) by lia.
  assert (Hmonth : m = 0 \/ m = 1 \/ m = 2 \/ m = 3 \/ m = 4 \/ m = 5 \/ m = 6
                   \/ m = 7 \/ m = 8 \/ m = 9 \/ m = 10 \/ m = 11) by lia.
  destruct Hleap as [-> | ->];
    repeat (destruct Hmonth as [-> | Hmonth]; [reflexivity|]);
    subst; reflexivity.
Qed.

(** The first day of the month of [t]: same year, same month, date 1. *)
Lemma first_of_month (t : Z) :
  let first := MakeDate (Day t - (DateFromTime t - 1)) 0 in
  YearFromTime first = YearFromTime t
  /\ MonthFromTime first = MonthFromTime t
  /\ DateFromTime first = 1.
Proof.
  intros first.
  pose proof (InLeapYear_range t) as Hleap.
  pose proof (DayWithinYear_nonneg t) as Hdwy.
  pose proof (daysBeforeMonth_le _ _ Hleap Hdwy) as Hle.
  pose proof (daysBeforeMonth_nonneg (InLeapYear t) (MonthFromTime t)
                ltac:(lia)) as Hpos.
  pose proof (YearFromDay_bounds (Day t)) as Hyear.
  fold (MonthFromTime t) in Hle.
  assert (Hday : Day first
                 = DayFromYear (YearFromTime t)
                   + daysBeforeMonth (InLeapYear t) (MonthFromTime t)).
  { unfold first. rewrite Day_MakeDate.
    unfold DateFromTime, DayWithinYear. lia. }
  assert (Hy : YearFromTime first = YearFromTime t).
  { unfold YearFromTime at 1. apply YearFromDay_unique. rewrite Hday.
    unfold DayWithinYear, YearFromTime in *. lia. }
  assert (Hl : InLeapYear first = InLeapYear t)
    by (unfold InLeapYear; rewrite Hy; reflexivity).
  assert (Hw : DayWithinYear first
               = daysBeforeMonth (InLeapYear t) (MonthFromTime t))
    by (unfold DayWithinYear; rewrite Hy, Hday; lia).
  assert (Hm : MonthFromTime first = MonthFromTime t).
  { unfold MonthFromTime at 1. rewrite Hl, Hw.
    apply monthOfYearDay_daysBeforeMonth; [exact Hleap|].
    apply monthOfYearDay_range. }
  split; [exact Hy | split; [exact Hm|]].
  unfold DateFromTime. rewrite Hl, Hm, Hw. lia.
Qed.

(** The first day of the year [y]. *)
Lemma first_of_year (y : Z) :
  let first := MakeDate (DayFromYear y) 0 in
  YearFromTime first = y /\ MonthFromTime first = 0 /\ DateFromTime first = 1.
Proof.
  intros first.
  assert (Hy : YearFromTime first = y).
  { unfold YearFromTime, first. rewrite Day_MakeDate.
    apply YearFromDay_unique. rewrite DayFromYear_succ.
    unfold DaysInYear. destruct (isLeap y); lia. }
  assert (Hw : DayWithinYear first = 0)
    by (unfold DayWithinYear; rewrite Hy; unfold first;
        rewrite Day_MakeDate; lia).
  assert (Hm : MonthFromTime first = 0)
    by (unfold MonthFromTime; rewrite Hw; reflexivity).
  split; [exact Hy | split; [exact Hm|]].
  unfold DateFromTime. rewrite Hm, Hw. reflexivity.
Qed.

End DateArithmetic.

Section Rollups.

Import SummaryView JSDate.

Lemma LocalTime_UTCZone (t : Z) : LocalTime UTCZone t = t.
Proof. unfold LocalTime, UTCZone, fixedZone. lia. Qed.

Lemma UTC_UTCZone (t : Z) : UTC UTCZone t = t.
Proof. unfold UTC, UTCZone, fixedZone. lia. Qed.

(** The rollup of today sums the entries dated today, and those only. *)
Lemma getTodayTime_only_today (now : Z) (entries : list TimeEntry) :
  getTodayTime now entries
  = sumTimeSpent (filter (fun entry => date entry = isoDate now) entries).
Proof. reflexivity. Qed.

(** On a host in UTC the week of the rollup starts on the Sunday on
    or before today, as the source means it to. *)
Lemma startOfWeekStr_in_UTC (now : Z) :
  ~ (0 <= YearFromTime now <= 99) ->
  let sunday := MakeDate (Day now - WeekDay now) 0 in
  startOfWeekStr UTCZone now = isoDate sunday
  /\ WeekDay sunday = 0
  /\ Day now - 6 <= Day sunday <= Day now.
Proof.
  intros Hy sunday. split; [|split].
  - unfold startOfWeekStr, newDateYMD, getFullYear, getMonth, getDate, getDay.
    rewrite UTC_UTCZone, !LocalTime_UTCZone.
    destruct ((0 <=? YearFromTime now) && (YearFromTime now <=? 99)) eqn:E.
    { apply andb_prop in E as [E1 E2]. apply Z.leb_le in E1, E2. lia. }
    replace (DateFromTime now - WeekDay now)
      with (DateFromTime now + (- WeekDay now)) by lia.
    rewrite MakeDay_fields. reflexivity.
  - apply WeekDay_start_of_week.
  - unfold sunday. rewrite Day_MakeDate.
    pose proof (WeekDay_range now). lia.
Qed.

Lemma newDateYMD_in_UTC (year month date : Z) :
  ~ (0 <= year <= 99) ->
  newDateYMD UTCZone year month date = MakeDate (MakeDay year month date) 0.
Proof.
  intros Hy. unfold newDateYMD. rewrite UTC_UTCZone.
  destruct ((0 <=? year) && (year <=? 99)) eqn:E; [|reflexivity].
  apply andb_prop in E as [E1 E2]. apply Z.leb_le in E1, E2. lia.
Qed.

(** On a host in UTC the month of the rollup starts on the first day
    of the current month. *)
Lemma startOfMonthStr_in_UTC (now : Z) :
  ~ (0 <= YearFromTime now <= 99) ->
  let first := MakeDate (Day now - (DateFromTime now - 1)) 0 in
  startOfMonthStr UTCZone now = isoDate first
  /\ YearFromTime first = YearFromTime now
  /\ MonthFromTime first = MonthFromTime now
  /\ DateFromTime first = 1.
Proof.
  intros Hy first. split; [|apply first_of_month].
  unfold startOfMonthStr, getFullYear, getMonth.
  rewrite !LocalTime_UTCZone, newDateYMD_in_UTC by exact Hy.
  replace 1 with (DateFromTime now + (1 - DateFromTime now)) at 1 by lia.
  rewrite MakeDay_fields. unfold first. do 2 f_equal. lia.
Qed.

(** On a host in UTC the year of the rollup starts on January 1 of the
    current year. *)
Lemma startOfYearStr_in_UTC (now : Z) :
  ~ (0 <= YearFromTime now <= 99) ->
  let first := MakeDate (DayFromYear (YearFromTime now)) 0 in
  startOfYearStr UTCZone now = isoDate first
  /\ YearFromTime first = YearFromTime now
  /\ MonthFromTime first = 0
  /\ DateFromTime first = 1.
Proof.
  intros Hy first. split; [|apply first_of_year].
  unfold startOfYearStr, getFullYear.
  rewrite !LocalTime_UTCZone, newDateYMD_in_UTC by exact Hy.
  unfold first, MakeDay. do 2 f_equal.
  change (0 / 12) with 0. change (0 mod 12) with 0.
  unfold daysBeforeMonth. rewrite !Z.add_0_r. lia.
Qed.

(** East of Greenwich, by up to a day, the week of the rollup starts
    on the date of the Saturday before the local Sunday: the local
    midnight of that Sunday falls on the Saturday in UTC. *)
Lemma startOfWeekStr_east_of_Greenwich (minutes now : Z) :
  0 < minutes * 60000 <= msPerDay ->
  let zone := fixedZone minutes in
  let start :=
    newDateYMD zone (getFullYear zone now) (getMonth zone now)
      (getDate zone now - getDay zone now) in
  ~ (0 <= getFullYear zone now <= 99) ->
  startOfWeekStr zone now = isoDate start
  /\ Day start = Day (LocalTime zone now) - getDay zone now - 1
  /\ WeekDay start = 6.
Proof.
  intros Hzone zone start Hy.
  assert (Hstart : start
                   = MakeDate (Day (LocalTime zone now) - getDay zone now) 0
                     - minutes * 60000).
  { unfold start, newDateYMD, getFullYear, getMonth, getDate, getDay in *.
    destruct ((0 <=? YearFromTime (LocalTime zone now))
              && (YearFromTime (LocalTime zone now) <=? 99)) eqn:E.
    { apply andb_prop in E as [E1 E2]. apply Z.leb_le in E1, E2. lia. }
    replace (DateFromTime (LocalTime zone now) - WeekDay (LocalTime zone now))
      with (DateFromTime (LocalTime zone now)
            + (- WeekDay (LocalTime zone now))) by lia.
    rewrite MakeDay_fields. unfold UTC, zone, fixedZone, MakeDate. lia. }
  assert (Hday : Day start = Day (LocalTime zone now) - getDay zone now - 1).
  { rewrite Hstart. unfold msPerDay in Hzone.
    generalize (Day (LocalTime zone now) - getDay zone now) as sunday.
    intros sunday. unfold MakeDate, Day, msPerDay.
    Z.to_euclidean_division_equations; lia. }
  split; [reflexivity | split; [exact Hday|]].
  unfold WeekDay at 1. rewrite Hday. unfold getDay, WeekDay.
  Z.to_euclidean_division_equations; lia.
Qed.

End Rollups.

(** C4 on a host east of Greenwich.  At 2024-01-10T10:00Z in a zone two
    hours ahead it is Wednesday noon; the week began on Sunday
    2024-01-07, the month and the year on 2024-01-01.  The rollups
    build these starts as local midnights and print them in UTC, which
    is the evening before: an entry of Saturday 2024-01-06 is counted
    into this week, and one of 2023-12-31 into this month and this
    year. *)
Theorem rollups_start_a_day_early_east_of_Greenwich :
  let zone := JSDate.fixedZone 120 in
  let now := 1704880800000 in
  JSDate.isoDate now = "2024-01-10"
  /\ JSDate.getDay zone now = 3
  /\ JSDate.getDate zone now = 10
  /\ SummaryView.startOfWeekStr zone now = "2024-01-06"
  /\ JSDate.WeekDay <$> JSDate.parseISODate "2024-01-06" = Some 6
  /\ JSDate.WeekDay <$> JSDate.parseISODate "2024-01-07" = Some 0
  /\ SummaryView.getThisWeekTime zone now
       [SummaryView.entryOn "2024-01-06" 30] = 30%Q
  /\ SummaryView.startOfMonthStr zone now = "2023-12-31"
  /\ SummaryView.getThisMonthTime zone now
       [SummaryView.entryOn "2023-12-31" 30] = 30%Q
  /\ SummaryView.startOfYearStr zone now = "2023-12-31"
  /\ SummaryView.getThisYearTime zone now
       [SummaryView.entryOn "2023-12-31" 30] = 30%Q.
Proof. repeat split; vm_compute; reflexivity. Qed.

(** ** calculateStreaks *)

Section TrackedDates.

Import SummaryView.

Lemma dailyTotals_from_dom (acc : gmap string Q) (entries : list TimeEntry)
    (d : string) :
  is_Some (foldl (fun (acc : gmap string Q) entry =>
                    if String.eqb (date entry) "__proto__" then acc
                    else <[ date entry := (default 0%Q (acc !! date entry)
                                           + timeSpent entry)%Q ]> acc)
                 acc entries !! d)
  <-> is_Some (acc !! d) \/ (d <> "__proto__" /\ d ∈ date <$> entries).
Proof.
  revert acc. induction entries as [|e entries IH]; intros acc; simpl.
  - split; [auto | intros [H | [_ H]]; [exact H | inversion H]].
  - rewrite IH. rewrite elem_of_cons.
    destruct (String.eqb_spec (date e) "__proto__") as [Hp | Hp].
    + split; [tauto|]. intros [H | [Hd [-> | H]]]; [tauto | contradiction | tauto].
    + rewrite lookup_insert_is_Some.
      destruct (decide (date e = d)) as [<- | Hne]; [tauto|].
      split; [intros [[H | [_ H]] | H] | intros [H | [H [H' | H']]]];
        try tauto; try (symmetry in H'; contradiction).
Qed.

Lemma datesOf_elem (entries : list TimeEntry) (d : string) :
  d ∈ datesOf entries <-> d <> "__proto__" /\ d ∈ date <$> entries.
Proof.
  unfold datesOf, sortedKeys. rewrite merge_sort_Permutation.
  change (map fst (map_to_list (dailyTotals entries)))
    with ((map_to_list (dailyTotals entries)).*1).
  rewrite list_elem_of_fmap. unfold dailyTotals.
  pose proof (dailyTotals_from_dom ∅ entries d) as Hdom.
  rewrite lookup_empty in Hdom.
  split.
  - intros [[k v] [-> Hkv]]. apply elem_of_map_to_list in Hkv. simpl in *.
    destruct (proj1 Hdom (ex_intro _ v Hkv)) as [H | H]; [|exact H].
    by apply is_Some_None in H.
  - intros H. destruct (proj2 Hdom (or_intror H)) as [v Hv].
    exists (d, v). split; [reflexivity|]. by apply elem_of_map_to_list.
Qed.

Lemma datesOf_Sorted (entries : list TimeEntry) : Sorted String.le (datesOf entries).
Proof. apply (Sorted_merge_sort String.le). Qed.

Lemma datesOf_NoDup (entries : list TimeEntry) : NoDup (datesOf entries).
Proof.
  unfold datesOf, sortedKeys. rewrite merge_sort_Permutation.
  apply NoDup_fst_map_to_list.
Qed.

(** The tracked dates are fixed by the set of dates of the entries. *)
Lemma datesOf_unique (entries : list TimeEntry) (ds : list string) :
  Sorted String.le ds -> NoDup ds ->
  (forall d, d ∈ ds <-> d <> "__proto__" /\ d ∈ date <$> entries) ->
  datesOf entries = ds.
Proof.
  intros Hs Hn Hel. apply (Sorted_unique String.le).
  - apply datesOf_Sorted.
  - exact Hs.
  - apply NoDup_Permutation; [apply datesOf_NoDup | exact Hn |].
    intros d. rewrite datesOf_elem, Hel. reflexivity.
Qed.

End TrackedDates.

Section StreakStep.

Import SummaryView.

Variable DateParse : string -> option Z.
Variables today yesterdayStr : string.

Lemma streakStep_temp prev d st :
  tempStreak (streakStep DateParse today yesterdayStr prev d st)
  = if bool_decide (diffDaysOf DateParse prev d = Some 1)
    then S (tempStreak st) else 1%nat.
Proof.
  unfold streakStep.
  destruct (String.eqb d today || String.eqb d yesterdayStr); reflexivity.
Qed.

Lemma streakStep_longest prev d st :
  longestStreak (streakStep DateParse today yesterdayStr prev d st)
  = Nat.max (longestStreak st)
      (tempStreak (streakStep DateParse today yesterdayStr prev d st)).
Proof.
  unfold streakStep.
  destruct (String.eqb d today || String.eqb d yesterdayStr); reflexivity.
Qed.

Lemma streakStep_current prev d st :
  currentStreak (streakStep DateParse today yesterdayStr prev d st)
  = if String.eqb d today || String.eqb d yesterdayStr
    then tempStreak (streakStep DateParse today yesterdayStr prev d st)
    else currentStreak st.
Proof.
  unfold streakStep.
  destruct (String.eqb d today || String.eqb d yesterdayStr); reflexivity.
Qed.

Lemma streakStep_yesterday prev d st :
  yesterdayHasCoding (streakStep DateParse today yesterdayStr prev d st)
  = yesterdayHasCoding st || String.eqb d yesterdayStr.
Proof.
  unfold streakStep.
  destruct (String.eqb d today), (String.eqb d yesterdayStr),
    (yesterdayHasCoding st); reflexivity.
Qed.

End StreakStep.

Section WorkedExample.

Import SummaryView.

Lemma exampleDates_tracked (entries : list TimeEntry) :
  (forall d, d ∈ date <$> entries <-> d ∈ exampleDates) ->
  datesOf entries = exampleDates /\ entries <> [].
Proof.
  intros Hset. split.
  - apply datesOf_unique.
    + unfold exampleDates. repeat constructor.
    + unfold exampleDates. refine (bool_decide_unpack _ _). reflexivity.
    + intros d. rewrite Hset. split; [|tauto].
      intros Hd. split; [|exact Hd]. intros ->.
      revert Hd. refine (bool_decide_unpack _ _). reflexivity.
  - intros ->. specialize (Hset "2024-01-01").
    assert (H : "2024-01-01" ∈ exampleDates)
      by (refine (bool_decide_unpack _ _); reflexivity).
    apply Hset in H. inversion H.
Qed.

Variable DateParse : string -> option Z.
Hypothesis DateParse_ISO : JSDate.parsesISO DateParse.

Lemma example_gap (p d : string) (tp td : Z) (n : Z) :
  JSDate.parseISODate p = Some tp -> JSDate.parseISODate d = Some td ->
  JS.round (inject_Z (td - tp) / inject_Z (1000 * 60 * 60 * 24)) = n ->
  diffDaysOf DateParse (Some p) d = Some n.
Proof.
  intros Hp Hd Hn. unfold diffDaysOf.
  rewrite (DateParse_ISO _ _ Hp), (DateParse_ISO _ _ Hd).
  unfold diffOfDates. rewrite Hn. reflexivity.
Qed.

(** The loop on the four dates of the example, whatever today and
    yesterday are: the running streak goes 1, 2, 3, 1. *)
Lemma example_loop (today y : string) :
  let st := streakLoop DateParse today y None exampleDates
              {| longestStreak := 0; currentStreak := 0; tempStreak := 0;
                 yesterdayHasCoding := false |} in
  longestStreak st = 3%nat /\ tempStreak st = 1%nat
  /\ (today = "2024-01-05" -> currentStreak st = 1%nat).
Proof.
  unfold exampleDates. cbn [streakLoop].
  set (s0 := {| longestStreak := 0; currentStreak := 0; tempStreak := 0;
                yesterdayHasCoding := false |}).
  set (s1 := streakStep DateParse today y None "2024-01-01" s0).
  set (s2 := streakStep DateParse today y (Some "2024-01-01") "2024-01-02" s1).
  set (s3 := streakStep DateParse today y (Some "2024-01-02") "2024-01-03" s2).
  set (s4 := streakStep DateParse today y (Some "2024-01-03") "2024-01-05" s3).
  assert (T1 : tempStreak s1 = 1%nat)
    by (unfold s1; rewrite streakStep_temp; reflexivity).
  assert (T2 : tempStreak s2 = 2%nat).
  { unfold s2. rewrite streakStep_temp, T1.
    rewrite (example_gap "2024-01-01" "2024-01-02" _ _ 1 eq_refl eq_refl)
      by (vm_compute; reflexivity).
    reflexivity. }
  assert (T3 : tempStreak s3 = 3%nat).
  { unfold s3. rewrite streakStep_temp, T2.
    rewrite (example_gap "2024-01-02" "2024-01-03" _ _ 1 eq_refl eq_refl)
      by (vm_compute; reflexivity).
    reflexivity. }
  assert (T4 : tempStreak s4 = 1%nat).
  { unfold s4. rewrite streakStep_temp.
    rewrite (example_gap "2024-01-03" "2024-01-05" _ _ 2 eq_refl eq_refl)
      by (vm_compute; reflexivity).
    reflexivity. }
  split; [|split].
  - unfold s4 at 1. rewrite streakStep_longest. fold s4. rewrite T4.
    unfold s3 at 1. rewrite streakStep_longest. fold s3. rewrite T3.
    unfold s2 at 1. rewrite streakStep_longest. fold s2. rewrite T2.
    unfold s1 at 1. rewrite streakStep_longest. fold s1. rewrite T1.
    reflexivity.
  - exact T4.
  - intros ->. unfold s4 at 1. rewrite streakStep_current. fold s4.
    rewrite String.eqb_refl. exact T4.
Qed.

End WorkedExample.

(** C1. The worked example of the design document: whatever entries
    there are on 2024-01-01, 01-02, 01-03 and 01-05 and on no other
    date, the longest streak is 3, and when today is 2024-01-05 the
    current streak is 1. *)
Theorem calculateStreaks_worked_example
    (LocalTZA : Z -> bool -> Z) (DateParse : string -> option Z)
    (now : Z) (entries : list SummaryView.TimeEntry) :
  JSDate.parsesISO DateParse ->
  (forall d, d ∈ SummaryView.date <$> entries
             <-> d ∈ SummaryView.exampleDates) ->
  SummaryView.longest
    (SummaryView.calculateStreaks LocalTZA DateParse now entries) = 3%nat
  /\ (SummaryView.todayStr now = "2024-01-05" ->
      SummaryView.current
        (SummaryView.calculateStreaks LocalTZA DateParse now entries) = 1%nat).
Proof.
  intros Hparse Hset.
  destruct (exampleDates_tracked entries Hset) as [Hdates Hne].
  unfold SummaryView.calculateStreaks, SummaryView.calculateStreaksAt.
  destruct entries as [|e entries]; [contradiction|].
  cbn [length Nat.eqb]. rewrite Hdates.
  destruct (example_loop DateParse Hparse (SummaryView.todayStr now)
              (SummaryView.yesterdayStrOf LocalTZA now)) as (Hl & _ & Hc).
  split; [exact Hl|].
  intros Htoday. cbn [SummaryView.current].
  rewrite (bool_decide_eq_true_2 (SummaryView.todayStr now ∈ SummaryView.exampleDates)).
  - exact (Hc Htoday).
  - rewrite Htoday. refine (bool_decide_unpack _ _). reflexivity.
Qed.

Lemma calculateStreaks_worked_example_witness :
  SummaryView.calculateStreaks JSDate.UTCZone JSDate.parseISODate
    1704412800000
    [ SummaryView.entryOn "2024-01-03" 45; SummaryView.entryOn "2024-01-01" 30;
      SummaryView.entryOn "2024-01-05" 20; SummaryView.entryOn "2024-01-02" 15;
      SummaryView.entryOn "2024-01-01" 5 ]
  = {| SummaryView.longest := 3; SummaryView.current := 1 |}.
Proof.
  pose proof (calculateStreaks_worked_example JSDate.UTCZone
                JSDate.parseISODate 1704412800000
                [ SummaryView.entryOn "2024-01-03" 45;
                  SummaryView.entryOn "2024-01-01" 30;
                  SummaryView.entryOn "2024-01-05" 20;
                  SummaryView.entryOn "2024-01-02" 15;
                  SummaryView.entryOn "2024-01-01" 5 ]) as H.
  destruct H as [Hl Hc].
  - intros s t Hs. exact Hs.
  - intros d. cbn [fmap list_fmap SummaryView.date SummaryView.entryOn].
    unfold SummaryView.exampleDates. rewrite !elem_of_cons. tauto.
  - specialize (Hc eq_refl).
    destruct (SummaryView.calculateStreaks _ _ _ _) as [l c].
    simpl in Hl, Hc. subst. reflexivity.
Defined.

Section Runs.

Import SummaryView.
Local Open Scope list_scope.

Variable DateParse : string -> option Z.

Abbreviation oneDay := (oneDayApart DateParse).
Abbreviation run := (isRun DateParse).

Lemma isRun_cons_inv (p : string) (l : list string) : run (p :: l) -> run l.
Proof. destruct l as [|d l]; [intros _; exact I | intros [_ H]; exact H]. Qed.

Lemma isRun_app_r (l1 l2 : list string) : run (l1 ++ l2) -> run l2.
Proof.
  induction l1 as [|p l1 IH]; [auto|].
  intros H. apply IH. exact (isRun_cons_inv _ _ H).
Qed.

Lemma isRun_snoc (l : list string) (d : string) :
  run (l ++ [d]) <-> run l /\ (forall p, last l = Some p -> oneDay p d).
Proof.
  induction l as [|p l IH].
  - simpl. split; [intros _; split; [exact I | discriminate] | auto].
  - destruct l as [|q l].
    + simpl. split.
      * intros [H _]. split; [exact I|]. intros p' [= <-]. exact H.
      * intros [_ H]. split; [apply H; reflexivity | exact I].
    + change (run ((p :: q :: l) ++ [d]))
        with (oneDay p q /\ run ((q :: l) ++ [d])).
      change (run (p :: q :: l)) with (oneDay p q /\ run (q :: l)).
      rewrite last_cons_cons. rewrite IH. tauto.
Qed.

Lemma isRun_app_l (l1 l2 : list string) : run (l1 ++ l2) -> run l1.
Proof.
  revert l1. induction l2 as [|d l2 IH] using rev_ind; intros l1.
  - rewrite app_nil_r. auto.
  - rewrite app_assoc. intros H. apply isRun_snoc in H as [H _]. auto.
Qed.

Lemma isRun_suffix (seg l : list string) : seg `suffix_of` l -> run l -> run seg.
Proof. intros [k ->]. apply isRun_app_r. Qed.

Lemma isRun_segment (seg l : list string) : segmentOf seg l -> run l -> run seg.
Proof.
  intros (l1 & l2 & ->) H. apply isRun_app_r in H. exact (isRun_app_l _ _ H).
Qed.

Lemma segmentOf_snoc (seg pre : list string) (d : string) :
  segmentOf seg (pre ++ [d]) ->
  segmentOf seg pre \/ seg `suffix_of` (pre ++ [d]).
Proof.
  intros (l1 & l2 & H).
  destruct l2 as [|x l2 _] using rev_ind.
  - right. exists l1. rewrite app_nil_r in H. exact H.
  - left. exists l1, l2.
    rewrite !app_assoc in H. apply app_inj_tail in H as [H _].
    rewrite H, <- app_assoc. reflexivity.
Qed.

Lemma segmentOf_app_r (seg pre l : list string) :
  segmentOf seg pre -> segmentOf seg (pre ++ l).
Proof.
  intros (l1 & l2 & ->). exists l1, (l2 ++ l). by rewrite <- !app_assoc.
Qed.

Lemma suffix_segmentOf (seg l : list string) : seg `suffix_of` l -> segmentOf seg l.
Proof. intros [k ->]. exists k, []. by rewrite app_nil_r. Qed.

Lemma suffix_snoc_cases (seg pre : list string) (d : string) :
  seg `suffix_of` (pre ++ [d]) ->
  seg = [] \/ exists s, seg = s ++ [d] /\ s `suffix_of` pre.
Proof.
  intros [k H].
  destruct seg as [|x seg _] using rev_ind; [left; reflexivity|].
  right. rewrite app_assoc in H. apply app_inj_tail in H as [-> ->].
  exists seg. split; [reflexivity|]. by exists k.
Qed.

Lemma suffix_last (s pre : list string) (p : string) :
  s `suffix_of` pre -> s <> [] -> last pre = Some p -> last s = Some p.
Proof.
  intros [k ->] Hs Hl. rewrite last_app in Hl.
  destruct (last s) as [x|] eqn:E; [exact Hl|].
  apply last_None in E. contradiction.
Qed.

Variables today yesterdayStr : string.

Lemma LoopInv_initial : LoopInv DateParse today yesterdayStr [] initialLoop.
Proof.
  split; simpl.
  - exists []. split; [apply suffix_nil | split; [exact I | reflexivity]].
  - intros seg H _. apply suffix_nil_inv in H. subst. simpl. lia.
  - congruence.
  - exists []. split; [exists [], []; reflexivity | split; [exact I | reflexivity]].
  - intros seg (l1 & l2 & H) _. symmetry in H.
    apply app_eq_nil in H as [_ H]. apply app_eq_nil in H as [-> _].
    simpl. lia.
  - split; [discriminate | intros H; inversion H].
  - split; [|reflexivity]. intros _ [H | H]; inversion H.
  - congruence.
Qed.

End Runs.

Section StreakLoopInvariant.

Import SummaryView.
Local Open Scope list_scope.

Variable DateParse : string -> option Z.
Variables today yesterdayStr : string.

Abbreviation oneDay := (oneDayApart DateParse).
Abbreviation run := (isRun DateParse).
Abbreviation Inv := (LoopInv DateParse today yesterdayStr).
Abbreviation stepOf := (streakStep DateParse today yesterdayStr).

(** The gap test of the loop is the "one day apart" of the runs. *)
Lemma diffDaysOf_oneDay (pre : list string) (d : string) :
  diffDaysOf DateParse (last pre) d = Some 1
  <-> (forall p, last pre = Some p -> oneDay p d).
Proof.
  unfold diffDaysOf. destruct (last pre) as [p|].
  - split; [intros H p' [= <-]; exact H | intros H; apply H; reflexivity].
  - split; [discriminate | reflexivity].
Qed.

Lemma temp_step_run (pre : list string) (d : string) (st : StreakLoop) :
  Inv pre st ->
  exists seg, seg `suffix_of` (pre ++ [d]) /\ run seg
              /\ length seg = tempStreak (stepOf (last pre) d st)
              /\ last seg = Some d.
Proof.
  intros HI. rewrite streakStep_temp.
  destruct (inv_temp_run _ _ _ _ _ HI) as (seg & Hsuf & Hrun & Hlen).
  case_bool_decide as Hgap.
  - exists (seg ++ [d]). repeat split.
    + by apply suffix_app.
    + apply isRun_snoc. split; [exact Hrun|].
      intros p Hp. rewrite diffDaysOf_oneDay in Hgap. apply Hgap.
      destruct (last pre) as [q|] eqn:Hq.
      * assert (Hne : seg <> []).
        { intros ->. simpl in Hlen.
          assert (pre <> []) by (intros ->; discriminate Hq).
          pose proof (inv_temp_pos _ _ _ _ _ HI ltac:(assumption)). lia. }
        rewrite (suffix_last _ _ _ Hsuf Hne Hq) in Hp. congruence.
      * apply last_None in Hq. subst pre.
        apply suffix_nil_inv in Hsuf. subst seg. discriminate Hp.
    + rewrite length_app. simpl. lia.
    + apply last_snoc.
  - exists [d]. repeat split.
    + by apply suffix_app_r.
Qed.

Lemma temp_step_max (pre : list string) (d : string) (st : StreakLoop)
    (seg : list string) :
  Inv pre st -> seg `suffix_of` (pre ++ [d]) -> run seg ->
  (length seg <= tempStreak (stepOf (last pre) d st))%nat.
Proof.
  intros HI Hsuf Hrun. rewrite streakStep_temp.
  destruct (suffix_snoc_cases _ _ _ Hsuf) as [-> | (s & -> & Hs)].
  { simpl. case_bool_decide; lia. }
  apply isRun_snoc in Hrun as [Hrun Hlast].
  rewrite length_app. simpl.
  case_bool_decide as Hgap.
  - pose proof (inv_temp_max _ _ _ _ _ HI s Hs Hrun). lia.
  - destruct s as [|x s]; [simpl; lia|]. exfalso. apply Hgap.
    apply diffDaysOf_oneDay. intros p Hp. apply Hlast.
    exact (suffix_last _ _ _ Hs ltac:(discriminate) Hp).
Qed.

Lemma eqb_today_or_yesterday (d : string) :
  String.eqb d today || String.eqb d yesterdayStr = true
  <-> d = today \/ d = yesterdayStr.
Proof. rewrite orb_true_iff, !String.eqb_eq. reflexivity. Qed.

Lemma LoopInv_step (pre : list string) (d : string) (st : StreakLoop) :
  Inv pre st -> Inv (pre ++ [d]) (stepOf (last pre) d st).
Proof.
  intros HI.
  destruct (temp_step_run pre d st HI) as (tseg & Htsuf & Htrun & Htlen & Htlast).
  assert (Htpos : (1 <= tempStreak (stepOf (last pre) d st))%nat).
  { rewrite <- Htlen. destruct tseg; [discriminate Htlast | simpl; lia]. }
  split.
  - exists tseg. auto.
  - intros seg. apply temp_step_max. exact HI.
  - intros _. exact Htpos.
  - rewrite streakStep_longest.
    destruct (Nat.max_spec (longestStreak st)
                (tempStreak (stepOf (last pre) d st))) as [[_ ->] | [_ ->]].
    + exists tseg. split; [by apply suffix_segmentOf | auto].
    + destruct (inv_longest_run _ _ _ _ _ HI) as (seg & Hseg & Hrun & Hlen).
      exists seg. split; [by apply segmentOf_app_r | auto].
  - intros seg Hseg Hrun. rewrite streakStep_longest.
    destruct (segmentOf_snoc _ _ _ Hseg) as [Hold | Hsuf].
    + pose proof (inv_longest_max _ _ _ _ _ HI seg Hold Hrun). lia.
    + pose proof (temp_step_max pre d st seg HI Hsuf Hrun). lia.
  - rewrite streakStep_yesterday, orb_true_iff, String.eqb_eq, elem_of_app,
      list_elem_of_singleton, (inv_yesterday _ _ _ _ _ HI).
    split; (intros [H | H]; [left; exact H | right; congruence]).
  - rewrite streakStep_current, !elem_of_app, !list_elem_of_singleton.
    destruct (String.eqb d today || String.eqb d yesterdayStr) eqn:E.
    + apply eqb_today_or_yesterday in E.
      split; [lia|]. intros H. exfalso. apply H.
      destruct E as [-> | ->]; [left | right]; right; reflexivity.
    + assert (Hd : ~ (d = today \/ d = yesterdayStr))
        by (rewrite <- eqb_today_or_yesterday, E; discriminate).
      rewrite (inv_current_zero _ _ _ _ _ HI).
      split.
      * intros H [[H1 | H1] | [H1 | H1]]; try (apply H; tauto);
          apply Hd; (left; congruence) || (right; congruence).
      * intros H [H1 | H1]; apply H; tauto.
  - rewrite streakStep_current.
    destruct (String.eqb d today || String.eqb d yesterdayStr) eqn:E.
    + apply eqb_today_or_yesterday in E. intros _.
      destruct Htsuf as [k Hk].
      exists k, tseg, []. rewrite app_nil_r.
      repeat split; try assumption.
      * rewrite Htlast. destruct E as [-> | ->]; [left | right]; reflexivity.
      * apply not_elem_of_nil.
      * apply not_elem_of_nil.
      * intros seg'. rewrite <- Hk. apply temp_step_max. exact HI.
    + assert (Hd : ~ (d = today \/ d = yesterdayStr))
        by (rewrite <- eqb_today_or_yesterday, E; discriminate).
      intros Hc.
      destruct (inv_current_run _ _ _ _ _ HI Hc)
        as (l1 & seg & l2 & Hpre & Hrun & Hlen & Hlast & Ht & Hy & Hmax).
      exists l1, seg, (l2 ++ [d]).
      repeat split; try assumption.
      * rewrite Hpre, <- !app_assoc. reflexivity.
      * rewrite elem_of_app, list_elem_of_singleton. intros [H | H];
          [exact (Ht H) | apply Hd; left; congruence].
      * rewrite elem_of_app, list_elem_of_singleton. intros [H | H];
          [exact (Hy H) | apply Hd; right; congruence].
Qed.

Lemma LoopInv_loop (rest pre : list string) (st : StreakLoop) :
  Inv pre st ->
  Inv (pre ++ rest) (streakLoop DateParse today yesterdayStr (last pre) rest st).
Proof.
  revert pre st. induction rest as [|d rest IH]; intros pre st HI.
  - rewrite app_nil_r. exact HI.
  - cbn [streakLoop].
    replace (pre ++ d :: rest) with ((pre ++ [d]) ++ rest)
      by (rewrite <- app_assoc; reflexivity).
    replace (Some d) with (last (pre ++ [d])) by apply last_snoc.
    apply IH. apply LoopInv_step. exact HI.
Qed.

(** The loop of [calculateStreaks] over all the dates. *)
Lemma LoopInv_dates (dates : list string) :
  Inv dates (streakLoop DateParse today yesterdayStr None dates
               (initialLoop)).
Proof.
  exact (LoopInv_loop dates [] initialLoop
           (LoopInv_initial DateParse today yesterdayStr)).
Qed.

End StreakLoopInvariant.

Section StreaksOfDates.

Import SummaryView JSDate.
Local Open Scope list_scope.

Variable LocalTZA : Z -> bool -> Z.
Variable DateParse : string -> option Z.

(** The result of [calculateStreaks] is read off the loop; the last
    test of the function changes nothing the loop has not settled. *)
Lemma calculateStreaksAt_loop (today yesterdayStr : string)
    (entries : list TimeEntry) :
  let st := streakLoop DateParse today yesterdayStr None (datesOf entries)
              initialLoop in
  calculateStreaksAt DateParse today yesterdayStr entries
  = {| longest := longestStreak st; current := currentStreak st |}.
Proof.
  intros st. unfold calculateStreaksAt.
  destruct entries as [|e entries]; [reflexivity|].
  cbn [length Nat.eqb]. fold st. f_equal.
  pose proof (LoopInv_dates DateParse today yesterdayStr
                (datesOf (e :: entries))) as HI.
  fold st in HI.
  destruct (negb (bool_decide (today ∈ datesOf (e :: entries)))
            && negb (yesterdayHasCoding st)) eqn:E; [|reflexivity].
  symmetry. apply (inv_current_zero _ _ _ _ _ HI).
  apply andb_prop in E as [E1 E2].
  apply negb_true_iff in E1, E2. apply bool_decide_eq_false in E1.
  intros [H | H]; [exact (E1 H)|].
  apply (inv_yesterday _ _ _ _ _ HI) in H. congruence.
Qed.


Lemma round_of_multiple (k m : Z) :
  0 < m -> JS.round (inject_Z (k * m) / inject_Z m) = k.
Proof.
  intros Hm. unfold JS.round.
  assert (Hq : (inject_Z (k * m) / inject_Z m == inject_Z k)%Q).
  { rewrite inject_Z_mult. field. intros H.
    unfold Qeq in H. simpl in H. lia. }
  rewrite Hq. apply floor_between.
  - lra.
  - rewrite inject_Z_plus. change (inject_Z 1) with 1%Q. lra.
Qed.

Lemma parseISODate_midnight (s : string) (t : Z) :
  parseISODate s = Some t -> t = MakeDate (Day t) 0.
Proof.
  unfold parseISODate.
  destruct (_ && _ && _)%bool; [|discriminate].
  destruct (digits 0 (substring 0 4 s)); [|discriminate].
  destruct (digits 0 (substring 5 2 s)); [|discriminate].
  destruct (digits 0 (substring 8 2 s)); [|discriminate].
  destruct (_ && _ && _ && _)%bool; [|discriminate].
  intros [= <-]. rewrite Day_MakeDate. reflexivity.
Qed.

(** On ISO dates, one day apart is one calendar day apart. *)
Lemma oneDayApart_calendar (p d : string) (tp td : Z) :
  parsesISO DateParse ->
  parseISODate p = Some tp -> parseISODate d = Some td ->
  (oneDayApart DateParse p d <-> Day td = Day tp + 1).
Proof.
  intros HISO Hp Hd. unfold oneDayApart.
  rewrite (HISO _ _ Hp), (HISO _ _ Hd). unfold diffOfDates.
  rewrite (parseISODate_midnight _ _ Hp), (parseISODate_midnight _ _ Hd).
  rewrite !Day_MakeDate. unfold MakeDate.
  replace (Day td * msPerDay + 0 - (Day tp * msPerDay + 0))
    with ((Day td - Day tp) * msPerDay) by lia.
  change (1000 * 60 * 60 * 24) with msPerDay.
  rewrite round_of_multiple by reflexivity.
  split; [intros [= H]; lia | intros ->; f_equal; lia].
Qed.


End StreaksOfDates.


(** ** calculateDayOfWeekStats *)

Section DayOfWeek.

Import SummaryView.
Local Open Scope list_scope.





Variable LocalTZA : Z -> bool -> Z.
Variable DateParse : string -> option Z.

Abbreviation dow := (dayOfWeekOf LocalTZA DateParse).



End DayOfWeek.


Section WeekdayOfEntry.

Import SummaryView JSDate.

Variable LocalTZA : Z -> bool -> Z.
Variable DateParse : string -> option Z.

(** Where local time is UTC or ahead of it by less than a day, an
    entry is filed under the weekday of its own date. *)
Lemma dayOfWeekOf_calendar (entry : TimeEntry) (t : Z) :
  parsesISO DateParse -> parseISODate (date entry) = Some t ->
  0 <= LocalTZA t true < msPerDay ->
  dayOfWeekOf LocalTZA DateParse entry = Some (Z.to_nat (WeekDay t)).
Proof.
  intros HISO Ht Hzone. unfold dayOfWeekOf. rewrite (HISO _ _ Ht).
  cbn [fmap option_fmap option_map]. do 2 f_equal.
  unfold getDay, WeekDay, LocalTime. do 2 f_equal.
  rewrite (parseISODate_midnight _ _ Ht) at 1. unfold MakeDate, Day.
  rewrite Z.add_0_r, Z.add_comm, Z.div_add by discriminate.
  rewrite (Z.div_small (LocalTZA t true)) by exact Hzone. reflexivity.
Qed.

End WeekdayOfEntry.

(** C5 on a host west of Greenwich.  2024-01-07 is a Sunday; parsed,
    it is midnight UTC, which in a zone five hours behind is still
    Saturday evening, and [getDay] answers 6.  With 60 minutes on that
    Sunday and nothing else, the average of Sunday is 0, that of
    Saturday 60, and Saturday is reported as the most productive day. *)
Theorem calculateDayOfWeekStats_west_of_Greenwich :
  let zone := JSDate.fixedZone (-300) in
  let entries := [SummaryView.entryOn "2024-01-07" 60] in
  let stats :=
    SummaryView.calculateDayOfWeekStats zone JSDate.parseISODate entries in
  JSDate.WeekDay <$> JSDate.parseISODate "2024-01-07" = Some 0
  /\ SummaryView.dayOfWeekOf zone JSDate.parseISODate
       (SummaryView.entryOn "2024-01-07" 60) = Some 6%nat
  /\ SummaryView.days stats = [0; 0; 0; 0; 0; 0; 60]%Q
  /\ SummaryView.index (SummaryView.mostProductive stats) = Some 6%nat
  /\ SummaryView.name (SummaryView.mostProductive stats) = Some "Saturday"
  /\ SummaryView.avgTime (SummaryView.mostProductive stats) = Some 60%Q.
Proof. repeat split; vm_compute; reflexivity. Qed.

(** ** The persisted store *)

Section Store.

Import SummaryView Database.
Local Open Scope list_scope.
Local Open Scope Q_scope.

Lemma foldl_timeSpent (acc : Q) (entries : list TimeEntry) :
  foldl (fun sum entry => sum + timeSpent entry) acc entries
  == acc + sumTimeSpent entries.
Proof.
  unfold sumTimeSpent. revert acc.
  induction entries as [|e entries IH]; intros acc; simpl.
  - ring.
  - rewrite IH, (IH (0 + timeSpent e)). ring.
Qed.

Lemma sumTimeSpent_cons (e : TimeEntry) (entries : list TimeEntry) :
  sumTimeSpent (e :: entries) == timeSpent e + sumTimeSpent entries.
Proof. unfold sumTimeSpent at 1. simpl. rewrite foldl_timeSpent. ring. Qed.

Lemma dateTotal_cons (d : string) (e : TimeEntry) (store : list TimeEntry) :
  dateTotal d (e :: store)
  == (if decide (date e = d) then timeSpent e else 0) + dateTotal d store.
Proof.
  unfold dateTotal. rewrite filter_cons.
  destruct (decide (date e = d)); [apply sumTimeSpent_cons | ring].
Qed.

Lemma sameKey_date (k : EntryKey) (e : TimeEntry) :
  sameKey k e = true -> date e = keyDate k.
Proof.
  unfold sameKey. intros H.
  repeat (apply andb_prop in H as [H _]).
  apply String.eqb_eq in H. congruence.
Qed.

(** A merge adds the delta to the total of its date and to no other. *)
Lemma dateTotal_mergeEntry (d : string) (k : EntryKey) (delta : Q)
    (store : list TimeEntry) :
  dateTotal d (mergeEntry k delta store)
  == dateTotal d store + (if decide (keyDate k = d) then delta else 0).
Proof.
  induction store as [|e store IH].
  - cbn [mergeEntry]. rewrite dateTotal_cons. cbn [date timeSpent].
    unfold dateTotal. rewrite filter_nil. unfold sumTimeSpent. simpl.
    destruct (decide (keyDate k = d)); ring.
  - cbn [mergeEntry]. destruct (sameKey k e) eqn:E.
    + rewrite !dateTotal_cons. cbn [date timeSpent].
      rewrite (sameKey_date _ _ E).
      destruct (decide (keyDate k = d)); ring.
    + rewrite !dateTotal_cons, IH. ring.
Qed.

Lemma inRange_bounds (delta : Q) :
  inRange delta = true <-> 0 <= delta /\ delta <= 1440.
Proof. unfold inRange. rewrite andb_true_iff, !Qle_bool_iff. reflexivity. Qed.

Lemma commit_rejected (k : EntryKey) (delta : Q) (store : list TimeEntry) :
  ~ (0 <= delta /\ delta <= 1440) -> commit k delta store = (store, Rejected).
Proof.
  intros H. unfold commit.
  destruct (inRange delta) eqn:E; [|reflexivity].
  apply inRange_bounds in E. contradiction.
Qed.

Lemma commit_accepted (k : EntryKey) (delta : Q) (store : list TimeEntry) :
  0 <= delta -> delta <= 1440 ->
  dateTotal (keyDate k) store + delta <= 1440 ->
  commit k delta store = (mergeEntry k delta store, Committed).
Proof.
  intros H0 H1 H2. unfold commit.
  rewrite (proj2 (inRange_bounds delta) (conj H0 H1)).
  rewrite (proj2 (Qle_bool_iff _ _) H2). reflexivity.
Qed.

(** A commit keeps every date within the 1440 minutes of a day. *)
Lemma commit_keeps_bound (k : EntryKey) (delta : Q) (store : list TimeEntry) :
  (forall d, dateTotal d store <= 1440) ->
  forall d, dateTotal d (commit k delta store).1 <= 1440.
Proof.
  intros Hinv d. unfold commit.
  destruct (inRange delta && Qle_bool (dateTotal (keyDate k) store + delta) 1440)
    eqn:E; cbn [fst]; [|apply Hinv].
  apply andb_prop in E as [_ E]. apply Qle_bool_iff in E.
  rewrite dateTotal_mergeEntry.
  destruct (decide (keyDate k = d)) as [<- | _]; [exact E|].
  specialize (Hinv d). lra.
Qed.

Lemma commitAll_keeps_bound (attempts : list (EntryKey * Q))
    (store : list TimeEntry) :
  (forall d, dateTotal d store <= 1440) ->
  forall d, dateTotal d (commitAll attempts store) <= 1440.
Proof.
  revert store. induction attempts as [|[k delta] attempts IH]; intros store Hinv.
  - exact Hinv.
  - unfold commitAll. cbn [foldl]. apply IH. apply commit_keeps_bound, Hinv.
Qed.

Lemma entriesOf_mergeEntry_new (k : EntryKey) (delta : Q) (store : list TimeEntry) :
  entriesOf k store = [] ->
  entriesOf k (mergeEntry k delta store)
  = [ {| date := keyDate k; project := keyProject k; timeSpent := delta;
         branch := keyBranch k; language := keyLanguage k |} ].
Proof.
  unfold entriesOf. induction store as [|e store IH]; intros H.
  - cbn [mergeEntry]. rewrite filter_cons, filter_nil.
    rewrite decide_True; [reflexivity|].
    unfold sameKey. cbn. rewrite !String.eqb_refl. exact I.
  - cbn [mergeEntry]. rewrite filter_cons in H.
    destruct (sameKey k e) eqn:E.
    + rewrite decide_True in H by exact I. discriminate H.
    + rewrite decide_False in H by (intros []).
      rewrite filter_cons, E, decide_False by (intros []). exact (IH H).
Qed.

Lemma entriesOf_mergeEntry_merged (k : EntryKey) (delta : Q)
    (store : list TimeEntry) (e : TimeEntry) :
  entriesOf k store = [e] ->
  entriesOf k (mergeEntry k delta store)
  = [ {| date := date e; project := project e;
         timeSpent := timeSpent e + delta;
         branch := branch e; language := language e |} ].
Proof.
  unfold entriesOf. induction store as [|e0 store IH]; intros H.
  - discriminate H.
  - cbn [mergeEntry]. rewrite filter_cons in H.
    destruct (sameKey k e0) eqn:E.
    + rewrite decide_True in H by exact I. injection H as -> H.
      rewrite filter_cons, decide_True, H; [reflexivity|].
      unfold sameKey in *. cbn. rewrite E. exact I.
    + rewrite decide_False in H by (intros []).
      rewrite filter_cons, E, decide_False by (intros []). exact (IH H).
Qed.

Lemma sumDeltas_from (acc : Q) (deltas : list Q) :
  foldl Qplus acc deltas == acc + sumDeltas deltas.
Proof.
  unfold sumDeltas. revert acc.
  induction deltas as [|x deltas IH]; intros acc; simpl.
  - ring.
  - rewrite IH, (IH (0 + x)). ring.
Qed.

Lemma sumDeltas_cons (x : Q) (deltas : list Q) :
  sumDeltas (x :: deltas) == x + sumDeltas deltas.
Proof. unfold sumDeltas at 1. simpl. rewrite sumDeltas_from. ring. Qed.

Lemma sumDeltas_nonneg (deltas : list Q) :
  Forall (fun x => 0 <= x /\ x <= 1440) deltas -> 0 <= sumDeltas deltas.
Proof.
  induction 1 as [|x deltas [Hx _] _ IH]; [discriminate|].
  rewrite sumDeltas_cons. lra.
Qed.

(** Flushes onto a key that has its entry: the entry stays the only
    one and takes every delta. *)
Lemma flushAll_merged (k : EntryKey) (deltas : list Q)
    (store : list TimeEntry) (e : TimeEntry) :
  Forall (fun x => 0 <= x /\ x <= 1440) deltas ->
  dateTotal (keyDate k) store + sumDeltas deltas <= 1440 ->
  entriesOf k store = [e] ->
  exists e', entriesOf k (flushAll k deltas store) = [e']
             /\ timeSpent e' == timeSpent e + sumDeltas deltas
             /\ keyOf e' = keyOf e.
Proof.
  revert store e. induction deltas as [|x deltas IH]; intros store e Hall Hfit He.
  - exists e. split; [exact He|]. split; [unfold sumDeltas; simpl; ring | reflexivity].
  - apply Forall_cons in Hall as [[Hx0 Hx1] Hall].
    rewrite sumDeltas_cons in Hfit.
    pose proof (sumDeltas_nonneg _ Hall) as Hpos.
    unfold flushAll, commitAll. cbn [map foldl].
    rewrite commit_accepted by (try assumption; lra). cbn [fst].
    destruct (IH (mergeEntry k x store)
                 {| date := date e; project := project e;
                    timeSpent := timeSpent e + x;
                    branch := branch e; language := language e |} Hall)
      as (e' & He' & Ht & Hk).
    + rewrite dateTotal_mergeEntry, decide_True by reflexivity. lra.
    + apply entriesOf_mergeEntry_merged, He.
    + exists e'. split; [exact He'|]. split; [|exact Hk].
      rewrite Ht, sumDeltas_cons. cbn [timeSpent]. ring.
Qed.

End Store.

(** C6. A delta outside [0, 1440] is rejected and leaves the store as
    it was, an accepted one adds exactly its minutes to its date, and
    whatever commits are attempted on the empty store, the minutes
    persisted for any date never exceed 1440. *)
Theorem commit_rejects_and_keeps_each_date_within_a_day :
  (forall (k : Database.EntryKey) (delta : Q)
          (store : list SummaryView.TimeEntry),
      ~ (0 <= delta /\ delta <= 1440)%Q ->
      Database.commit k delta store = (store, Database.Rejected))
  /\ (forall (k : Database.EntryKey) (delta : Q)
             (store : list SummaryView.TimeEntry),
        (Database.commit k delta store).2 = Database.Committed ->
        (Database.dateTotal (Database.keyDate k)
           (Database.commit k delta store).1
         == Database.dateTotal (Database.keyDate k) store + delta)%Q)
  /\ (forall (attempts : list (Database.EntryKey * Q)) (d : string),
        (Database.dateTotal d (Database.commitAll attempts []) <= 1440)%Q).
Proof.
  split; [|split].
  - exact commit_rejected.
  - intros k delta store. unfold Database.commit.
    destruct (_ && _)%bool; [|discriminate]. intros _. cbn [fst].
    rewrite dateTotal_mergeEntry, decide_True by reflexivity. reflexivity.
  - intros attempts. apply commitAll_keeps_bound. intros d. discriminate.
Qed.

Lemma commit_rejects_and_keeps_each_date_within_a_day_witness :
  Database.commit Database.exampleKey 1441 [SummaryView.entryOn "2024-01-05" 30]
  = ([SummaryView.entryOn "2024-01-05" 30], Database.Rejected)
  /\ Database.commit Database.exampleKey (-1) [] = ([], Database.Rejected)
  /\ (Database.dateTotal "2024-01-05"
        (Database.commit Database.exampleKey 45
           [SummaryView.entryOn "2024-01-05" 30]).1
      == Database.dateTotal "2024-01-05" [SummaryView.entryOn "2024-01-05" 30]
         + 45)%Q.
Proof.
  destruct commit_rejects_and_keeps_each_date_within_a_day as (Hrej & Hadd & _).
  split; [|split].
  - apply Hrej. intros [_ H]. vm_compute in H. apply H. reflexivity.
  - apply Hrej. intros [H _]. vm_compute in H. apply H. reflexivity.
  - apply (Hadd Database.exampleKey). reflexivity.
Defined.

(** C7, as the store allows it.  One or more deltas flushed under one
    key that had no entry, each within [0, 1440] and together fitting
    into what the date has left of its 1440 minutes, leave exactly one
    entry under the key, and its minutes are the sum of the deltas. *)
Theorem flushAll_merges_into_one_entry
    (k : Database.EntryKey) (deltas : list Q)
    (store : list SummaryView.TimeEntry) :
  deltas <> [] ->
  Forall (fun x => 0 <= x /\ x <= 1440)%Q deltas ->
  (Database.dateTotal (Database.keyDate k) store + Database.sumDeltas deltas
   <= 1440)%Q ->
  Database.entriesOf k store = [] ->
  exists e,
    Database.entriesOf k (Database.flushAll k deltas store) = [e]
    /\ (SummaryView.timeSpent e == Database.sumDeltas deltas)%Q
    /\ Database.keyOf e = k.
Proof.
  intros Hne Hall Hfit Hnew.
  destruct deltas as [|x deltas]; [contradiction|].
  apply Forall_cons in Hall as [[Hx0 Hx1] Hall].
  rewrite sumDeltas_cons in Hfit.
  pose proof (sumDeltas_nonneg _ Hall) as Hpos.
  unfold Database.flushAll, Database.commitAll. cbn [map foldl].
  rewrite commit_accepted by (try assumption; lra). cbn [fst].
  destruct (flushAll_merged k deltas (Database.mergeEntry k x store)
              {| SummaryView.date := Database.keyDate k;
                 SummaryView.project := Database.keyProject k;
                 SummaryView.timeSpent := x;
                 SummaryView.branch := Database.keyBranch k;
                 SummaryView.language := Database.keyLanguage k |} Hall)
    as (e & He & Ht & Hk).
  - rewrite dateTotal_mergeEntry, decide_True by reflexivity. lra.
  - apply entriesOf_mergeEntry_new, Hnew.
  - exists e. split; [exact He|]. split.
    + rewrite Ht, sumDeltas_cons. cbn [SummaryView.timeSpent]. reflexivity.
    + rewrite Hk. destruct k. reflexivity.
Qed.

Lemma flushAll_merges_into_one_entry_witness :
  exists e,
    Database.entriesOf Database.exampleKey
      (Database.flushAll Database.exampleKey [5%Q; 10%Q; 15%Q]
         [SummaryView.entryOn "2024-01-04" 600]) = [e]
    /\ (SummaryView.timeSpent e == Database.sumDeltas [5%Q; 10%Q; 15%Q])%Q
    /\ Database.keyOf e = Database.exampleKey.
Proof.
  apply (flushAll_merges_into_one_entry Database.exampleKey [5%Q; 10%Q; 15%Q]
           [SummaryView.entryOn "2024-01-04" 600]).
  - discriminate.
  - repeat constructor; discriminate.
  - discriminate.
  - reflexivity.
Defined.

(** C7 as the design document words it fails on this store: no delta
    flushed leaves no entry under the key, not one; and of two deltas
    of 1000 minutes the second would take the date past 1440 minutes
    and is rejected, so that the one entry holds 1000 and not 2000. *)
Lemma flushAll_is_not_always_the_sum :
  Database.entriesOf Database.exampleKey
    (Database.flushAll Database.exampleKey [] []) = []
  /\ (SummaryView.timeSpent
        <$> Database.entriesOf Database.exampleKey
              (Database.flushAll Database.exampleKey [1000%Q; 1000%Q] []))
     = [1000%Q]
  /\ (Database.sumDeltas [1000%Q; 1000%Q] == 2000)%Q
  /\ ~ (1000 == Database.sumDeltas [1000%Q; 1000%Q])%Q.
Proof.
  split; [reflexivity|]. split; [reflexivity|]. split; [reflexivity|].
  intros H. vm_compute in H. discriminate H.
Qed.

(** ** The session state machine *)

Section SessionMachine.

Import TimeTracker.
Local Open Scope list_scope.

Variable cfg : Config.

Lemma last_activity_has_time (trace : list Event) :
  isActivity <$> last trace = Some true ->
  exists b bs, activityTimes trace = b :: bs /\ b ∈ timeOf <$> trace.
Proof.
  induction trace as [|ev rest IH]; [discriminate|].
  intros Hlast.
  destruct (isActivity ev) eqn:Eact.
  - destruct ev as [signal | now]; [|discriminate Eact].
    cbn [isActivity] in Eact. cbn [activityTimes]. rewrite Eact.
    exists (timestamp signal), (activityTimes rest).
    split; [reflexivity | left].
  - assert (Hrest : isActivity <$> last rest = Some true).
    { destruct rest as [|ev' rest']; [|rewrite last_cons_cons in Hlast; exact Hlast].
      cbn in Hlast. congruence. }
    destruct (IH Hrest) as (b & bs & Hb & Hin).
    exists b, bs. split; [|right; exact Hin].
    destruct ev as [signal | now]; cbn [activityTimes]; [|exact Hb].
    cbn [isActivity] in Eact. rewrite Eact. exact Hb.
Qed.

Lemma last_of_tail (ev : Event) (rest : list Event) :
  isActivity ev = false ->
  isActivity <$> last (ev :: rest) = Some true ->
  isActivity <$> last rest = Some true.
Proof.
  intros Hev Hlast.
  destruct rest as [|ev' rest']; [|rewrite last_cons_cons in Hlast; exact Hlast].
  cbn in Hlast. congruence.
Qed.

(** From an Active, focused session on: while the trace runs on to a
    next activity signal less than the timeout after the last one, no
    look at the timers finds the session idle. *)
Lemma run_stays_active (trace : list Event) (s : Session) :
  state s = Active -> lastFocusLostAt s = None ->
  focusedThroughout trace ->
  StronglySorted Z.le (lastActivityAt s :: (timeOf <$> trace)) ->
  spacedBelow (inactivityTimeout cfg) (lastActivityAt s :: activityTimes trace) ->
  trace = [] \/ isActivity <$> last trace = Some true ->
  Forall (fun s' => state s' = Active) (run cfg s trace).
Proof.
  revert s. induction trace as [|ev rest IH];
    intros s Hact Hfocus Hfoc Hsort Hspaced Hlast; [constructor|].
  destruct Hlast as [Hlast | Hlast]; [discriminate Hlast|].
  apply Forall_cons in Hfoc as [Hev Hfoc].
  cbn [fmap list_fmap] in Hsort.
  apply StronglySorted_inv in Hsort as [Hsort Hall].
  apply Forall_cons in Hall as [Hle Hall].
  apply StronglySorted_inv in Hsort as [Hsort Hall'].
  cbn [run]. destruct ev as [signal | now].
  - cbn [step timeOf] in *. unfold recordActivity.
    cbn [activityTimes] in Hspaced.
    destruct (kind signal) eqn:Ek; cbn [stampsActivity] in Hspaced;
      try contradiction; (constructor; [first [reflexivity | exact Hact]|]).
    + apply IH; cbn; auto.
      * constructor; assumption.
      * apply Hspaced.
      * destruct rest; [left; reflexivity | right].
        rewrite last_cons_cons in Hlast. exact Hlast.
    + apply IH; cbn; auto.
      * constructor; assumption.
      * apply Hspaced.
      * destruct rest; [left; reflexivity | right].
        rewrite last_cons_cons in Hlast. exact Hlast.
    + apply IH; cbn; auto.
      * constructor; assumption.
      * right. apply (last_of_tail (Signal signal)); [|exact Hlast].
        cbn. rewrite Ek. reflexivity.
  - cbn [step timeOf activityTimes] in *.
    assert (Hrest : isActivity <$> last rest = Some true)
      by (apply (last_of_tail (Tick now)); [reflexivity | exact Hlast]).
    destruct (last_activity_has_time rest Hrest) as (b & bs & Hb & Hin).
    assert (Hgap : b - lastActivityAt s < inactivityTimeout cfg)
      by (rewrite Hb in Hspaced; apply Hspaced).
    rewrite Forall_forall in Hall'. specialize (Hall' b Hin).
    assert (Hidle : checkTimeouts cfg now s = s).
    { unfold checkTimeouts. rewrite Hact, Hfocus.
      destruct (Z.ltb_spec (inactivityTimeout cfg) (now - lastActivityAt s));
        [lia | reflexivity]. }
    rewrite Hidle. constructor; [exact Hact|].
    apply IH; auto. constructor; assumption.
Qed.

End SessionMachine.

(** C8. Let a session with the editor focused receive a sequence of
    activity signals, each less than [inactivityTimeout] after the one
    before, the timers being looked at whenever one likes in between.
    Then from the first signal to the last the session is Active.  And
    a look at the timers pauses an Active, focused session only when
    more than [inactivityTimeout] has passed since the last activity. *)
Theorem session_stays_active_under_spaced_activity
    (cfg : TimeTracker.Config) (s : TimeTracker.Session)
    (trace : list TimeTracker.Event) :
  (TimeTracker.lastFocusLostAt s = None ->
   TimeTracker.focusedThroughout trace ->
   TimeTracker.activitySequence trace ->
   TimeTracker.spacedBelow (TimeTracker.inactivityTimeout cfg)
     (TimeTracker.activityTimes trace) ->
   Forall (fun s' => TimeTracker.state s' = TimeTracker.Active)
          (TimeTracker.run cfg s trace))
  /\ (forall now : Z,
        TimeTracker.state s = TimeTracker.Active ->
        TimeTracker.lastFocusLostAt s = None ->
        (TimeTracker.state (TimeTracker.checkTimeouts cfg now s)
         = TimeTracker.Paused
         <-> TimeTracker.inactivityTimeout cfg
             < now - TimeTracker.lastActivityAt s)).
Proof.
  split.
  - intros Hfocus Hfoc (Hsorted & Hhead & Hlast) Hspaced.
    destruct trace as [|ev rest]; [constructor|].
    destruct ev as [signal | now]; [|discriminate Hhead].
    cbn in Hhead. injection Hhead as Hstamp.
    cbn [TimeTracker.activityTimes] in Hspaced. rewrite Hstamp in Hspaced.
    apply Forall_cons in Hfoc as [_ Hfoc].
    cbn [TimeTracker.run TimeTracker.step].
    assert (Hs1 : TimeTracker.recordActivity signal s
                  = {| TimeTracker.state := TimeTracker.Active;
                       TimeTracker.lastActivityAt := TimeTracker.timestamp signal;
                       TimeTracker.lastFocusLostAt := None |}).
    { unfold TimeTracker.recordActivity. rewrite Hfocus.
      destruct (TimeTracker.kind signal); try discriminate Hstamp; reflexivity. }
    rewrite Hs1. constructor; [reflexivity|].
    apply run_stays_active; cbn; auto.
    + apply (Sorted_StronglySorted Z.le). exact Hsorted.
    + destruct rest; [left; reflexivity | right].
      rewrite last_cons_cons in Hlast. exact Hlast.
  - intros now Hact Hfocus. unfold TimeTracker.checkTimeouts.
    rewrite Hact, Hfocus.
    destruct (Z.ltb_spec (TimeTracker.inactivityTimeout cfg)
                (now - TimeTracker.lastActivityAt s)) as [H | H]; cbn.
    + split; [intros _; exact H | reflexivity].
    + rewrite Hact. split; [discriminate | lia].
Qed.

Lemma session_stays_active_under_spaced_activity_witness :
  Forall (fun s' => TimeTracker.state s' = TimeTracker.Active)
         (TimeTracker.run TimeTracker.exampleConfig
            {| TimeTracker.state := TimeTracker.Paused;
               TimeTracker.lastActivityAt := -1000000;
               TimeTracker.lastFocusLostAt := None |}
            TimeTracker.exampleTrace).
Proof.
  apply (proj1 (session_stays_active_under_spaced_activity _ _ _)).
  - reflexivity.
  - repeat constructor; discriminate.
  - split; [|split; reflexivity].
    repeat constructor; discriminate.
  - cbn. lia.
Defined.

Section Clock.

(** The whole part of a number in integers: [floor x] is the one integer
    [n] with [n <= x < n + 1]. *)
Lemma floor_spec (x : Q) :
  (inject_Z (JS.floor x) <= x)%Q /\ (x < inject_Z (JS.floor x + 1))%Q.
Proof.
  unfold JS.floor. split; [apply Qfloor_le|]. apply Qlt_floor.
Qed.

Lemma floor_shift (x : Q) (n : Z) :
  JS.floor (x - inject_Z n) = JS.floor x - n.
Proof.
  destruct (floor_spec x) as [Hlo Hhi].
  apply floor_between.
  - unfold Zminus. rewrite inject_Z_plus, inject_Z_opp. lra.
  - replace (JS.floor x - n + 1) with (JS.floor x + 1 - n) by lia.
    unfold Zminus. rewrite inject_Z_plus, inject_Z_opp. lra.
Qed.

(** The floor of a multiple: [floor (x / k)] is [floor x / k]. *)
Lemma floor_div (x : Q) (k : Z) :
  0 < k -> JS.floor (x / inject_Z k) = JS.floor x / k.
Proof.
  intros Hk.
  assert (Hk' : (0 < inject_Z k)%Q)
    by (change 0%Q with (inject_Z 0); rewrite <- Zlt_Qlt; exact Hk).
  destruct (floor_spec x) as [Hlo Hhi].
  apply floor_between.
  - apply Qle_shift_div_l; [exact Hk'|].
    rewrite <- inject_Z_mult.
    eapply Qle_trans; [|exact Hlo].
    rewrite <- Zle_Qle. Z.to_euclidean_division_equations; nia.
  - apply Qlt_shift_div_r; [exact Hk'|].
    rewrite <- inject_Z_mult.
    eapply Qlt_le_trans; [exact Hhi|].
    rewrite <- Zle_Qle. Z.to_euclidean_division_equations; nia.
Qed.

Lemma rem_nonneg (x : Q) (k : Z) :
  (0 <= x)%Q -> 0 < k ->
  (JS.rem x (inject_Z k) == x - inject_Z (k * (JS.floor x / k)))%Q.
Proof.
  intros Hx Hk.
  assert (Hk' : (0 < inject_Z k)%Q)
    by (change 0%Q with (inject_Z 0); rewrite <- Zlt_Qlt; exact Hk).
  unfold JS.rem. rewrite trunc_nonneg.
  - rewrite floor_div by exact Hk. rewrite inject_Z_mult. reflexivity.
  - apply Qle_shift_div_l; [exact Hk'|]. lra.
Qed.

Lemma floor_proper (x y : Q) : (x == y)%Q -> JS.floor x = JS.floor y.
Proof. intros H. unfold JS.floor. rewrite H. reflexivity. Qed.

Lemma floor_rem (x : Q) (k : Z) :
  (0 <= x)%Q -> 0 < k -> JS.floor (JS.rem x (inject_Z k)) = JS.floor x mod k.
Proof.
  intros Hx Hk.
  rewrite (floor_proper _ _ (rem_nonneg x k Hx Hk)), floor_shift.
  rewrite Z.mod_eq by lia. reflexivity.
Qed.

Lemma floor_nonneg (x : Q) : (0 <= x)%Q -> 0 <= JS.floor x.
Proof.
  intros H. unfold JS.floor. change 0 with (Qfloor 0).
  apply Qfloor_resp_le. exact H.
Qed.

Lemma length_append (s1 s2 : string) :
  String.length (s1 ++ s2) = (String.length s1 + String.length s2)%nat.
Proof. induction s1 as [|c s1 IH]; simpl; [reflexivity|]. rewrite IH. reflexivity. Qed.

End Clock.

Section Doubles.

Lemma pow2_pos (e : Z) : (0 < JS.pow2 e)%Q.
Proof.
  unfold JS.pow2. destruct (0 <=? e) eqn:E.
  - change 0%Q with (inject_Z 0). rewrite <- Zlt_Qlt.
    apply Z.pow_pos_nonneg; lia.
  - apply Z.leb_gt in E.
    assert (H : (0 < inject_Z (2 ^ (- e)))%Q).
    { change 0%Q with (inject_Z 0). rewrite <- Zlt_Qlt.
      apply Z.pow_pos_nonneg; lia. }
    apply Qlt_shift_div_l; [exact H | lra].
Qed.

Lemma roundHalfEven_nonneg (q : Q) : (0 <= q)%Q -> 0 <= JS.roundHalfEven q.
Proof.
  intros H. pose proof (floor_nonneg q H) as Hf. unfold JS.floor in Hf.
  unfold JS.roundHalfEven.
  destruct (_ ?= _)%Q; [destruct (Z.even _)| |]; lia.
Qed.

(** Rounding keeps the sign: the double of a number that is not
    negative is not negative. *)
Lemma double_nonneg (x : Q) : (0 <= x)%Q -> (0 <= JS.double x)%Q.
Proof.
  intros H. unfold JS.double.
  destruct (Qeq_bool x 0); [apply Qle_refl|].
  assert (E : Qle_bool 0 x = true) by (apply Qle_bool_iff; exact H).
  rewrite E.
  set (quantum := JS.pow2 _).
  pose proof (pow2_pos (Z.max (JS.binade x) (-1022) - 52)) as Hq.
  fold quantum in Hq.
  assert (Hn : 0 <= JS.roundHalfEven (x / quantum)).
  { apply roundHalfEven_nonneg. apply Qle_shift_div_l; [exact Hq | lra]. }
  rewrite Zle_Qle in Hn. change (inject_Z 0) with 0%Q in Hn.
  rewrite Qmult_1_l. apply Qmult_le_0_compat; [exact Hn | lra].
Qed.

End Doubles.

Section StatusBarClock.

Import StatusBar.

Lemma twoDigits_length (n : Z) :
  0 <= n < 100 -> String.length (twoDigits n) = 2%nat.
Proof.
  intros Hn.
  assert (Hall : forallb (fun k => (String.length (twoDigits (Z.of_nat k))
                                    =? 2)%nat) (seq 0 100) = true)
    by (vm_compute; reflexivity).
  rewrite forallb_forall in Hall.
  specialize (Hall (Z.to_nat n)).
  rewrite Z2Nat.id in Hall by lia.
  apply Nat.eqb_eq, Hall, in_seq. lia.
Qed.

Lemma formatTime_fields (minutes : Q) :
  (0 <= minutes)%Q ->
  JS.floor (JS.rem minutes 60) = JS.floor minutes mod 60
  /\ JS.floor (JS.rem (JS.double (minutes * 60)) 60)
     = JS.floor (JS.double (minutes * 60)) mod 60
  /\ 0 <= JS.floor (JS.double (minutes / 60)).
Proof.
  intros Hm. split; [|split].
  - change 60%Q with (inject_Z 60). apply floor_rem; [exact Hm | lia].
  - change 60%Q with (inject_Z 60) at 2. apply floor_rem; [|lia].
    apply double_nonneg. change (inject_Z 60) with 60%Q. lra.
  - apply floor_nonneg, double_nonneg.
    apply Qle_shift_div_l; [reflexivity | lra].
Qed.

End StatusBarClock.

(** X3. The status bar shows a duration as a clock, for minutes from 0
    to [2^53 - 1]: the hours, then the minutes and the seconds, which
    are the whole minutes modulo 60 and the whole seconds modulo 60,
    the seconds being counted on the product [minutes * 60] as the
    double it is rounded to.  Both stay between 0 and 59 and are
    written on two digits; below 100 hours the text is eight characters
    long, five without the seconds.  The rounding shows: for the double
    nearest to 0.7 the product is 42 and the clock reads 42 seconds,
    where the exact product has 41 whole seconds. *)
Theorem statusBar_formatTime_is_a_clock (minutes : Q) :
  (0 <= minutes)%Q -> (minutes <= 9007199254740991)%Q ->
  let hours := JS.floor (JS.double (minutes / 60)) in
  let mins := JS.floor minutes mod 60 in
  let secs := JS.floor (JS.double (minutes * 60)) mod 60 in
  StatusBar.formatTime minutes true
  = StatusBar.twoDigits hours ++ ":" ++ StatusBar.twoDigits mins ++ ":"
    ++ StatusBar.twoDigits secs
  /\ StatusBar.formatTime minutes false
     = StatusBar.twoDigits hours ++ ":" ++ StatusBar.twoDigits mins
  /\ 0 <= hours /\ 0 <= mins < 60 /\ 0 <= secs < 60
  /\ String.length (StatusBar.twoDigits mins) = 2%nat
  /\ String.length (StatusBar.twoDigits secs) = 2%nat
  /\ (hours < 100 ->
      String.length (StatusBar.formatTime minutes true) = 8%nat
      /\ String.length (StatusBar.formatTime minutes false) = 5%nat)
  /\ StatusBar.formatTime (JS.double (7 # 10)) true = "00:00:42"
  /\ JS.floor (JS.double (7 # 10) * 60) = 41.
Proof.
  intros Hm _ hours mins secs.
  destruct (formatTime_fields minutes Hm) as (Hmin & Hs & Hh).
  fold hours in Hh. fold mins in Hmin. fold secs in Hs.
  assert (Hmr : 0 <= mins < 60) by (unfold mins; apply Z.mod_pos_bound; lia).
  assert (Hsr : 0 <= secs < 60) by (unfold secs; apply Z.mod_pos_bound; lia).
  assert (E1 : StatusBar.formatTime minutes true
               = StatusBar.twoDigits hours ++ ":" ++ StatusBar.twoDigits mins
                 ++ ":" ++ StatusBar.twoDigits secs).
  { unfold StatusBar.formatTime. cbv zeta. fold hours. rewrite Hmin, Hs.
    reflexivity. }
  assert (E2 : StatusBar.formatTime minutes false
               = StatusBar.twoDigits hours ++ ":" ++ StatusBar.twoDigits mins).
  { unfold StatusBar.formatTime. cbv zeta. fold hours. rewrite Hmin.
    reflexivity. }
  split; [exact E1|]. split; [exact E2|]. split; [exact Hh|].
  split; [exact Hmr|]. split; [exact Hsr|].
  split; [apply twoDigits_length; lia|].
  split; [apply twoDigits_length; lia|].
  split.
  - intros Hlt. rewrite E1, E2, !length_append.
    rewrite !twoDigits_length by lia. split; reflexivity.
  - split; vm_compute; reflexivity.
Qed.

Lemma statusBar_formatTime_is_a_clock_witness :
  StatusBar.formatTime (3725 # 60) true = "01:02:05"
  /\ StatusBar.formatTime (3725 # 60) false = "01:02"
  /\ String.length (StatusBar.formatTime (3725 # 60) true) = 8%nat.
Proof.
  destruct (statusBar_formatTime_is_a_clock (3725 # 60))
    as (H1 & H2 & _ & _ & _ & _ & _ & Hlen & _).
  - discriminate.
  - discriminate.
  - split; [exact H1|]. split; [exact H2|].
    apply Hlen. vm_compute. reflexivity.
Defined.

Section Strings.

Lemma append_empty_r (s : string) : s ++ "" = s.
Proof.
  induction s as [|c s IH]; [reflexivity|].
  change (String c s ++ "") with (String c (s ++ "")). rewrite IH. reflexivity.
Qed.

Lemma append_assoc (s1 s2 s3 : string) : (s1 ++ s2) ++ s3 = s1 ++ (s2 ++ s3).
Proof.
  induction s1 as [|c s1 IH]; [reflexivity|].
  change ((String c s1 ++ s2) ++ s3) with (String c ((s1 ++ s2) ++ s3)).
  rewrite IH. reflexivity.
Qed.

End Strings.

Section CookedRegex.

Import SummaryView.

(** A text in which the letter [d] does not occur. *)
Local Abbreviation withoutD s :=
  (forallb (fun c => negb (Ascii.eqb c "d")) (list_ascii_of_string s) = true).

Lemma withoutD_append (s1 s2 : string) :
  withoutD s1 -> withoutD s2 -> withoutD (s1 ++ s2).
Proof.
  intros H1 H2. induction s1 as [|c s1 IH]; [exact H2|].
  change (String c s1 ++ s2) with (String c (s1 ++ s2)).
  cbn [list_ascii_of_string forallb] in *.
  apply andb_prop in H1 as [Hc H1]. rewrite Hc, (IH H1). reflexivity.
Qed.

Lemma withoutD_uint (d : Decimal.uint) :
  withoutD (NilEmpty.string_of_uint d).
Proof. induction d; cbn; auto. Qed.

(** [String(n)] writes digits and a sign, never a letter. *)
Lemma withoutD_toString (n : Z) : withoutD (JS.toString n).
Proof.
  unfold JS.toString, NilZero.string_of_int.
  destruct (Z.to_int n) as [d | d]; unfold NilZero.string_of_uint.
  - destruct d; try reflexivity; apply withoutD_uint.
  - change (String "-" ?s) with ("-" ++ s).
    apply withoutD_append; [reflexivity|].
    destruct d; try reflexivity; apply withoutD_uint.
Qed.

Lemma withoutD_formatTime (minutes : Q) : withoutD (Utils.formatTime minutes).
Proof.
  unfold Utils.formatTime. cbv zeta.
  repeat apply withoutD_append;
    first [apply withoutD_toString | reflexivity].
Qed.

(** Without a [d] there is no match. *)
Lemma matchHoursMinutes_withoutD (s : string) :
  withoutD s -> matchHoursMinutes s = None.
Proof.
  induction s as [|c s IH]; intros H; [reflexivity|].
  cbn [list_ascii_of_string forallb] in H.
  apply andb_prop in H as [Hc H]. apply negb_true_iff in Hc.
  cbn [matchHoursMinutes].
  assert (Hat : matchHoursMinutesAt (String c s) = None).
  { unfold matchHoursMinutesAt. cbn [spanOf]. rewrite Hc. reflexivity. }
  rewrite Hat. apply IH. exact H.
Qed.

(** The run that [spanOf] takes is empty or begins with the letter. *)
Lemma spanOf_head (c : ascii) (s : string) :
  (spanOf c s).1 = "" \/ exists run, (spanOf c s).1 = String c run.
Proof.
  destruct s as [|c' s]; [left; reflexivity|].
  cbn [spanOf]. destruct (Ascii.eqb_spec c' c) as [-> |]; [|left; reflexivity].
  right. destruct (spanOf c s) as [run rest]. exists run. reflexivity.
Qed.

(** A run of the letter [d] is no number: [parseInt] gives [NaN]. *)
Lemma parseInt_d (run : string) : parseInt (String "d" run) = None.
Proof. reflexivity. Qed.

Lemma matchHoursMinutesAt_groups (s hours mins : string) :
  matchHoursMinutesAt s = Some (hours, mins) ->
  exists run, hours = String "d" run.
Proof.
  unfold matchHoursMinutesAt.
  pose proof (spanOf_head "d" s) as Hhead.
  destruct (spanOf "d" s) as [h afterHours]. cbn [fst] in Hhead.
  destruct Hhead as [-> | [run ->]]; [discriminate|].
  change (String.eqb (String "d" run) "") with false. cbv iota.
  destruct afterHours as [|c afterH]; [discriminate|].
  destruct (Ascii.eqb_spec c "h") as [-> | Hc].
  - destruct (spanOf "s" afterH) as [spaces afterSpace].
    destruct (spanOf "d" afterSpace) as [m afterMins].
    destruct (String.eqb m ""); [discriminate|].
    destruct afterMins as [|c' ?]; [discriminate|].
    destruct (Ascii.eqb_spec c' "m") as [-> | Hc'].
    + intros [= <- _]. exists run. reflexivity.
    + destruct c' as [[] [] [] [] [] [] [] []];
        first [discriminate | contradiction].
  - destruct c as [[] [] [] [] [] [] [] []];
      first [discriminate | contradiction].
Qed.

Lemma matchHoursMinutes_groups (s hours mins : string) :
  matchHoursMinutes s = Some (hours, mins) ->
  exists run, hours = String "d" run.
Proof.
  induction s as [|c s IH]; cbn [matchHoursMinutes].
  - destruct (matchHoursMinutesAt "") as [[h m]|] eqn:E; [|discriminate].
    intros [= <- <-]. exact (matchHoursMinutesAt_groups _ _ _ E).
  - destruct (matchHoursMinutesAt (String c s)) as [[h m]|] eqn:E;
      [|exact IH].
    intros [= <- <-]. exact (matchHoursMinutesAt_groups _ _ _ E).
Qed.

Lemma parseTimeToMinutes_formatTime (minutes : Q) :
  parseTimeToMinutes (Utils.formatTime minutes) = Some 0.
Proof.
  unfold parseTimeToMinutes.
  rewrite (matchHoursMinutes_withoutD _ (withoutD_formatTime minutes)).
  destruct (_ || _ || _); reflexivity.
Qed.

End CookedRegex.

(** X4. What [parseTimeToMinutes] reads in the webview.  The script is
    part of a template literal, so the regular expression that runs is
    [/(d+)hs*(d+)m/] and asks for the letter [d] where digits were
    meant.  A text that [formatTime] writes has no such letter: it is
    read as 0, whatever the minutes.  On any text at all the answer is
    0 or [NaN], never a number of minutes: thus 0 for the text 2h 30m,
    and [NaN] for the text ddhsdm. *)
Theorem parseTimeToMinutes_reads_no_minutes :
  (forall minutes : Q,
      SummaryView.parseTimeToMinutes (Utils.formatTime minutes) = Some 0)
  /\ (forall timeStr : string,
        SummaryView.parseTimeToMinutes timeStr = Some 0
        \/ SummaryView.parseTimeToMinutes timeStr = None)
  /\ SummaryView.parseTimeToMinutes "2h 30m" = Some 0
  /\ SummaryView.parseTimeToMinutes "ddhsdm" = None.
Proof.
  split; [exact parseTimeToMinutes_formatTime|].
  split; [|split; reflexivity].
  intros timeStr. unfold SummaryView.parseTimeToMinutes.
  destruct (_ || _ || _); [left; reflexivity|].
  destruct (SummaryView.matchHoursMinutes timeStr) as [[hours mins]|] eqn:E;
    [|left; reflexivity].
  right. destruct (matchHoursMinutes_groups _ _ _ E) as [run ->].
  rewrite parseInt_d. reflexivity.
Qed.


Section Segments.

Import Utils.

Lemma split_go_nonempty (sep : ascii -> bool) (cur s : string) :
  JS.split_go sep cur s <> [].
Proof.
  revert cur. induction s as [|c s IH]; intros cur; simpl; [discriminate|].
  destruct (sep c); [discriminate | apply IH].
Qed.

(** What follows the last separator is the last segment. *)
Lemma split_go_last_after (sep : ascii -> bool) (cur a : string) (c : ascii)
    (b : string) :
  sep c = true ->
  last (JS.split_go sep cur (a ++ String c b)) = last (JS.split sep b).
Proof.
  intros Hc. revert cur. induction a as [|x a IH]; intros cur.
  - change ("" ++ String c b) with (String c b). simpl. rewrite Hc.
    unfold JS.split.
    destruct (JS.split_go sep "" b) eqn:E;
      [exfalso; exact (split_go_nonempty _ _ _ E) | reflexivity].
  - change (String x a ++ String c b) with (String x (a ++ String c b)).
    simpl. destruct (sep x).
    + destruct (JS.split_go sep "" (a ++ String c b)) eqn:E;
        [exfalso; exact (split_go_nonempty _ _ _ E)|].
      rewrite <- (IH ""), E. reflexivity.
    + apply IH.
Qed.

Lemma split_last_after (sep : ascii -> bool) (a : string) (c : ascii)
    (b : string) :
  sep c = true ->
  JS.pop (JS.split sep (a ++ String c b)) = JS.pop (JS.split sep b).
Proof. intros Hc. unfold JS.pop, JS.split at 1. apply split_go_last_after, Hc. Qed.

Lemma rev_app_toLowerCase (s acc : string) :
  String.rev_app (JS.toLowerCase s) (JS.toLowerCase acc)
  = JS.toLowerCase (String.rev_app s acc).
Proof.
  revert acc. induction s as [|c s IH]; intros acc; simpl; [reflexivity|].
  apply (IH (String c acc)).
Qed.

Lemma rev_toLowerCase (s : string) :
  String.rev (JS.toLowerCase s) = JS.toLowerCase (String.rev s).
Proof. unfold String.rev. apply (rev_app_toLowerCase s ""). Qed.

Lemma split_go_toLowerCase (sep : ascii -> bool) (cur s : string) :
  (forall c, sep (JS.lowerUnit c) = sep c) ->
  JS.split_go sep (JS.toLowerCase cur) (JS.toLowerCase s)
  = JS.toLowerCase <$> JS.split_go sep cur s.
Proof.
  intros Hsep. revert cur.
  induction s as [|c s IH]; intros cur;
    cbn [JS.split_go JS.toLowerCase fmap list_fmap].
  - rewrite rev_toLowerCase. reflexivity.
  - rewrite Hsep. destruct (sep c).
    + rewrite rev_toLowerCase, fmap_cons. f_equal. apply (IH "").
    + apply (IH (String c cur)).
Qed.

Lemma split_toLowerCase (sep : ascii -> bool) (s : string) :
  (forall c, sep (JS.lowerUnit c) = sep c) ->
  JS.split sep (JS.toLowerCase s) = JS.toLowerCase <$> JS.split sep s.
Proof. intros Hsep. exact (split_go_toLowerCase sep "" s Hsep). Qed.

Lemma isDot_lowerUnit (c : ascii) : isDot (JS.lowerUnit c) = isDot c.
Proof. destruct c as [[] [] [] [] [] [] [] []]; reflexivity. Qed.

Lemma isSlash_lowerUnit (c : ascii) : isSlash (JS.lowerUnit c) = isSlash c.
Proof. destruct c as [[] [] [] [] [] [] [] []]; reflexivity. Qed.

Lemma last_fmap_string (f : string -> string) (l : list string) :
  last (f <$> l) = f <$> last l.
Proof. apply fmap_last. Qed.

Lemma extensionOf_toLowerCase (p : string) :
  extensionOf (JS.toLowerCase p) = extensionOf p.
Proof.
  unfold extensionOf, JS.pop.
  rewrite (split_toLowerCase isDot p isDot_lowerUnit), fmap_last.
  destruct (last (JS.split isDot p)) as [s|]; [|reflexivity].
  cbn [fmap option_fmap option_map]. rewrite toLowerCase_idem. reflexivity.
Qed.

Lemma filenameOf_toLowerCase (p : string) :
  filenameOf (JS.toLowerCase p) = filenameOf p.
Proof.
  unfold filenameOf, JS.pop.
  rewrite (split_toLowerCase isSlash p isSlash_lowerUnit), fmap_last.
  destruct (last (JS.split isSlash p)) as [s|]; [|reflexivity].
  cbn [fmap option_fmap option_map]. rewrite toLowerCase_idem. reflexivity.
Qed.

Lemma truthy_toLowerCase (p : string) :
  JS.truthy (JS.toLowerCase p) = JS.truthy p.
Proof. destruct p; reflexivity. Qed.

(** The result is read off three things: whether the path is empty,
    its extension and its file name. *)
Lemma detectLanguageFromFile_reads (p q : string) :
  JS.truthy p = JS.truthy q -> extensionOf p = extensionOf q ->
  filenameOf p = filenameOf q ->
  detectLanguageFromFile p = detectLanguageFromFile q.
Proof.
  intros Ht He Hf. unfold detectLanguageFromFile.
  rewrite Ht, He, Hf. reflexivity.
Qed.

Lemma truthy_append (a : string) (c : ascii) (b : string) :
  JS.truthy (a ++ String c b) = true.
Proof. destruct a; reflexivity. Qed.

End Segments.

(** X6. [detectLanguageFromFile] does not look at the case of a path:
    two paths that agree up to case get the same answer. *)
Theorem detectLanguageFromFile_ignores_case (p q : string) :
  JS.toLowerCase p = JS.toLowerCase q ->
  Utils.detectLanguageFromFile p = Utils.detectLanguageFromFile q.
Proof.
  intros H.
  transitivity (Utils.detectLanguageFromFile (JS.toLowerCase p)).
  - symmetry. apply detectLanguageFromFile_reads;
      [apply truthy_toLowerCase | apply extensionOf_toLowerCase
      | apply filenameOf_toLowerCase].
  - rewrite H. apply detectLanguageFromFile_reads;
      [apply truthy_toLowerCase | apply extensionOf_toLowerCase
      | apply filenameOf_toLowerCase].
Qed.

Lemma detectLanguageFromFile_ignores_case_witness :
  Utils.detectLanguageFromFile "SRC/Main.PY"
  = Utils.detectLanguageFromFile "src/main.py".
Proof.
  apply (detectLanguageFromFile_ignores_case "SRC/Main.PY" "src/main.py").
  reflexivity.
Defined.

(** X7. The directory of a file does not matter once its name has a
    dot: whatever precedes a slash or a backslash can be dropped when
    a dot follows it.  A name without a dot is different, the whole
    path being then read as the extension: [go] is Go and [src/go] is
    not. *)
Theorem detectLanguageFromFile_ignores_directory :
  (forall dir stem ext : string,
      Utils.detectLanguageFromFile (dir ++ "/" ++ stem ++ "." ++ ext)
      = Utils.detectLanguageFromFile (stem ++ "." ++ ext))
  /\ (forall dir stem ext : string,
        Utils.detectLanguageFromFile (dir ++ "\" ++ stem ++ "." ++ ext)
        = Utils.detectLanguageFromFile (stem ++ "." ++ ext))
  /\ Utils.detectLanguageFromFile "go" = JS.VString "Go"
  /\ Utils.detectLanguageFromFile "src/go" = JS.VString "Other".
Proof.
  assert (H : forall (dir : string) (sep : ascii) (stem ext : string),
             Utils.isSlash sep = true ->
             Utils.detectLanguageFromFile
               (dir ++ String sep (stem ++ String "." ext))
             = Utils.detectLanguageFromFile (stem ++ String "." ext)).
  { intros dir sep stem ext Hsep.
    apply detectLanguageFromFile_reads.
    - rewrite !truthy_append. reflexivity.
    - unfold Utils.extensionOf.
      replace (dir ++ String sep (stem ++ String "." ext))
        with ((dir ++ String sep stem) ++ String "." ext)
        by (rewrite append_assoc; reflexivity).
      rewrite !split_last_after by reflexivity. reflexivity.
    - unfold Utils.filenameOf.
      rewrite split_last_after by exact Hsep. reflexivity. }
  split; [|split; [|split; reflexivity]].
  - intros dir stem ext. apply (H dir "/"%char stem ext). reflexivity.
  - intros dir stem ext. apply (H dir "\"%char stem ext). reflexivity.
Qed.

Section MappedExtension.

Import Utils.

Lemma includes_dot_cons (c : ascii) (s : string) :
  JS.includes "." (String c s) = isDot c || JS.includes "." s.
Proof.
  cbn [JS.includes String.prefix]. unfold isDot.
  destruct (ascii_dec "." c) as [<-|Hne]; [destruct s; reflexivity|].
  destruct (Ascii.eqb_spec c "."); [congruence|]. reflexivity.
Qed.

Lemma split_go_no_separator (cur s : string) :
  JS.includes "." s = false ->
  JS.split_go isDot cur s = [String.rev_app cur s].
Proof.
  revert cur. induction s as [|c s IH]; intros cur H; [reflexivity|].
  rewrite includes_dot_cons in H. apply orb_false_iff in H as [Hc Hs].
  cbn [JS.split_go]. rewrite Hc. rewrite (IH (String c cur) Hs). reflexivity.
Qed.

Lemma extensionOf_suffix (stem ext : string) :
  JS.includes "." ext = false ->
  extensionOf (stem ++ "." ++ ext) = Some (JS.toLowerCase ext).
Proof.
  intros H. unfold extensionOf.
  change (stem ++ "." ++ ext) with (stem ++ String "." ext).
  rewrite split_last_after by reflexivity.
  unfold JS.split. rewrite split_go_no_separator by exact H. reflexivity.
Qed.

Lemma languageMap_keys_nonempty (k v : string) :
  languageMap !! k = Some v -> JS.truthy k = true.
Proof.
  intros H. unfold languageMap in H. apply elem_of_list_to_map_2 in H.
  assert (Hall : Forall (fun kv => JS.truthy kv.1 = true) languageMapEntries)
    by (repeat constructor).
  rewrite Forall_forall in Hall. exact (Hall _ H).
Qed.

(** A mapped extension decides, whatever the rest of the path. *)
Lemma detectLanguageFromFile_extension (stem ext lang : string) :
  JS.includes "." ext = false ->
  languageMap !! JS.toLowerCase ext = Some lang ->
  detectLanguageFromFile (stem ++ "." ++ ext) = JS.VString lang.
Proof.
  intros Hdot Hlk. unfold detectLanguageFromFile.
  change (stem ++ "." ++ ext) with (stem ++ String "." ext) at 1.
  rewrite truthy_append. cbv [negb].
  rewrite extensionOf_suffix by exact Hdot.
  rewrite (languageMap_keys_nonempty _ _ Hlk).
  unfold JS.get. rewrite Hlk. cbv [JS.truthyValue].
  rewrite (languageMap_values_nonempty _ _ Hlk). reflexivity.
Qed.

(** Every name of [languageIdMap] is one that a file can get. *)
Lemma languageIdMap_names (k v : string) :
  languageIdMap !! k = Some v ->
  exists path, detectLanguageFromFile path = JS.VString v.
Proof.
  intros H. unfold languageIdMap in H. apply elem_of_list_to_map_2 in H.
  assert (Hall :
    forallb (fun kv : string * string =>
               String.eqb kv.2 "Text"
               || existsb (fun ev : string * string =>
                             match languageMap !! ev.1 with
                             | Some l => String.eqb l kv.2
                             | None => false
                             end
                             && negb (JS.includes "." ev.1)
                             && String.eqb (JS.toLowerCase ev.1) ev.1)
                          languageMapEntries)
            languageIdMapEntries = true) by (vm_compute; reflexivity).
  rewrite forallb_forall in Hall.
  apply list_elem_of_In in H. specialize (Hall _ H). cbn [snd] in Hall.
  apply orb_true_iff in Hall as [Ht|He].
  - apply String.eqb_eq in Ht. subst v. exists "requirements.txt". reflexivity.
  - apply existsb_exists in He as ([ext l] & _ & He). cbn [fst snd] in He.
    apply andb_true_iff in He as [He Hlow].
    apply andb_true_iff in He as [He Hdot].
    apply negb_true_iff in Hdot. apply String.eqb_eq in Hlow.
    destruct (languageMap !! ext) as [l'|] eqn:Hlk; [|discriminate].
    apply String.eqb_eq in He. subst l'.
    exists ("a" ++ "." ++ ext).
    apply detectLanguageFromFile_extension; [exact Hdot|].
    rewrite Hlow. exact Hlk.
Qed.

Lemma languageIdMap_values_nonempty (k v : string) :
  languageIdMap !! k = Some v -> JS.truthy v = true.
Proof.
  intros H. unfold languageIdMap in H. apply elem_of_list_to_map_2 in H.
  assert (Hall : Forall (fun kv => JS.truthy kv.2 = true) languageIdMapEntries)
    by (repeat constructor).
  rewrite Forall_forall in Hall. exact (Hall _ H).
Qed.

End MappedExtension.

(** X8. A path that ends in a dot and a mapped extension, in any case,
    is of the language of that extension, whatever comes before the
    dot: a directory, other dots, or the name of a special file. *)
Theorem detectLanguageFromFile_mapped_extension (stem ext lang : string) :
  JS.includes "." ext = false ->
  Utils.languageMap !! JS.toLowerCase ext = Some lang ->
  Utils.detectLanguageFromFile (stem ++ "." ++ ext) = JS.VString lang.
Proof. apply detectLanguageFromFile_extension. Qed.

Lemma detectLanguageFromFile_mapped_extension_witness :
  Utils.detectLanguageFromFile ("src/.env.local" ++ "." ++ "TS")
  = JS.VString "TypeScript".
Proof.
  apply (detectLanguageFromFile_mapped_extension "src/.env.local" "TS");
    reflexivity.
Defined.

(** X9. [detectLanguageFromLanguageId] does not look at the case of
    the identifier. *)
Theorem detectLanguageFromLanguageId_ignores_case (a b : string) :
  JS.toLowerCase a = JS.toLowerCase b ->
  Utils.detectLanguageFromLanguageId a = Utils.detectLanguageFromLanguageId b.
Proof.
  intros H. unfold Utils.detectLanguageFromLanguageId.
  rewrite <- (truthy_toLowerCase a), <- (truthy_toLowerCase b), H.
  reflexivity.
Qed.

Lemma detectLanguageFromLanguageId_ignores_case_witness :
  Utils.detectLanguageFromLanguageId "TypeScriptReact"
  = Utils.detectLanguageFromLanguageId "typescriptreact".
Proof.
  apply (detectLanguageFromLanguageId_ignores_case
           "TypeScriptReact" "typescriptreact").
  reflexivity.
Defined.

(** X10. What [detectLanguageFromLanguageId] returns: ["unknown"] for
    the empty identifier and for it only a string that is not a
    language; otherwise a string that is never empty, except for the
    identifiers that are [constructor] or [__proto__] up to case, for
    which it returns what every object inherits under that name, which
    is not a string. *)
Theorem detectLanguageFromLanguageId_cases (languageId : string) :
  match Utils.detectLanguageFromLanguageId languageId with
  | JS.VString lang =>
      lang <> ""
      /\ (languageId = "" <-> lang = "unknown")
      /\ JS.toLowerCase languageId <> "constructor"
      /\ JS.toLowerCase languageId <> "__proto__"
  | JS.VInherited name =>
      JS.toLowerCase languageId = name
      /\ (name = "constructor" \/ name = "__proto__")
  end.
Proof.
  unfold Utils.detectLanguageFromLanguageId.
  destruct languageId as [|c s].
  { cbn. repeat split; (discriminate || reflexivity || auto). }
  change (negb (JS.truthy (String c s))) with false. cbv iota.
  set (key := JS.toLowerCase (String c s)).
  assert (Hne : String c s = "" <-> False) by (split; [discriminate | tauto]).
  unfold JS.get.
  destruct (Utils.languageIdMap !! key) as [v|] eqn:Hlk.
  - pose proof (languageIdMap_values_nonempty _ _ Hlk) as Hv.
    cbv [JS.truthyValue]. rewrite Hv.
    repeat split.
    + intros ->. discriminate Hv.
    + discriminate.
    + intros ->. unfold Utils.languageIdMap in Hlk.
      apply elem_of_list_to_map_2 in Hlk.
      assert (Hall : Forall (fun kv : string * string => kv.2 <> "unknown")
                            Utils.languageIdMapEntries)
        by (repeat constructor; discriminate).
      rewrite Forall_forall in Hall. exfalso. exact (Hall _ Hlk eq_refl).
    + intros E. rewrite E in Hlk. vm_compute in Hlk. discriminate Hlk.
    + intros E. rewrite E in Hlk. vm_compute in Hlk. discriminate Hlk.
  - destruct (bool_decide (key ∈ JS.objectPrototypeProps)) eqn:Hin.
    + apply bool_decide_eq_true in Hin. cbv [JS.truthyValue].
      split; [reflexivity|]. apply inherited_lowercase. exact Hin.
    + apply bool_decide_eq_false in Hin.
      repeat split; try discriminate.
      * intros E. apply Hin. rewrite E. unfold JS.objectPrototypeProps.
        repeat first [apply list_elem_of_here | apply list_elem_of_further].
      * intros E. apply Hin. rewrite E. unfold JS.objectPrototypeProps.
        repeat first [apply list_elem_of_here | apply list_elem_of_further].
Qed.

(** X11. The two detectors speak one vocabulary: every string that
    [detectLanguageFromLanguageId] returns is one that
    [detectLanguageFromFile] returns for some path. *)
Theorem detectLanguageFromLanguageId_names_are_file_names
    (languageId lang : string) :
  Utils.detectLanguageFromLanguageId languageId = JS.VString lang ->
  exists path, Utils.detectLanguageFromFile path = JS.VString lang.
Proof.
  unfold Utils.detectLanguageFromLanguageId.
  destruct (negb (JS.truthy languageId)).
  { intros [= <-]. exists "". reflexivity. }
  unfold JS.get.
  destruct (Utils.languageIdMap !! JS.toLowerCase languageId) as [v|] eqn:Hlk.
  - cbv [JS.truthyValue].
    rewrite (languageIdMap_values_nonempty _ _ Hlk).
    intros [= <-]. eapply languageIdMap_names. exact Hlk.
  - destruct (bool_decide _).
    + cbv [JS.truthyValue]. discriminate.
    + intros [= <-]. exists "x". reflexivity.
Qed.

Lemma detectLanguageFromLanguageId_names_are_file_names_witness :
  exists path, Utils.detectLanguageFromFile path = JS.VString "C#".
Proof.
  apply (detectLanguageFromLanguageId_names_are_file_names "csharp" "C#").
  reflexivity.
Defined.

Section Hourly.

Import SummaryView.
Local Open Scope list_scope.
Local Open Scope Q_scope.






End Hourly.


(** ** ISO dates as strings *)

Section IsoDates.

Import JSDate.

(** Two decimal digits, as [padStart(2, '0')] writes a number below 100. *)
Lemma twoDigits_chars (n : Z) :
  0 <= n <= 99 ->
  JS.padStart0 2 (JS.toString n)
  = String (ascii_of_N (Z.to_N (48 + n / 10)))
      (String (ascii_of_N (Z.to_N (48 + n mod 10))) "").
Proof.
  intros Hn.
  assert (Hall :
    forallb (fun k =>
               String.eqb
                 (JS.padStart0 2 (JS.toString (Z.of_nat k)))
                 (String (ascii_of_N (Z.to_N (48 + Z.of_nat k / 10)))
                    (String (ascii_of_N (Z.to_N (48 + Z.of_nat k mod 10))) "")))
            (seq 0 100) = true) by (vm_compute; reflexivity).
  rewrite forallb_forall in Hall. specialize (Hall (Z.to_nat n)).
  rewrite Z2Nat.id in Hall by lia.
  apply String.eqb_eq, Hall, in_seq. lia.
Qed.

(** The four digits of a year from 0 to 9999 are two pairs of digits. *)
Lemma isoYear_pairs (y : Z) :
  0 <= y <= 9999 ->
  isoYear y
  = JS.padStart0 2 (JS.toString (y / 100))
    ++ JS.padStart0 2 (JS.toString (y mod 100)).
Proof.
  intros Hy.
  assert (Hall :
    forallb (fun k =>
               String.eqb
                 (isoYear (Z.of_nat k))
                 (JS.padStart0 2 (JS.toString (Z.of_nat k / 100))
                  ++ JS.padStart0 2 (JS.toString (Z.of_nat k mod 100))))
            (seq 0 (Z.to_nat 10000)) = true) by (vm_compute; reflexivity).
  rewrite forallb_forall in Hall. specialize (Hall (Z.to_nat y)).
  rewrite Z2Nat.id in Hall by lia.
  apply String.eqb_eq, Hall, in_seq. lia.
Qed.

Lemma digit_inv (c : ascii) (v : Z) :
  digit c = Some v -> 0 <= v <= 9 /\ c = ascii_of_N (Z.to_N (48 + v)).
Proof.
  destruct c as [[] [] [] [] [] [] [] []]; vm_compute; intros [= <-];
    repeat split; discriminate.
Qed.

Lemma digit_chr (v : Z) :
  0 <= v <= 9 -> digit (ascii_of_N (Z.to_N (48 + v))) = Some v.
Proof.
  intros Hv.
  assert (Hc : v = 0 \/ v = 1 \/ v = 2 \/ v = 3 \/ v = 4 \/ v = 5 \/ v = 6
               \/ v = 7 \/ v = 8 \/ v = 9) by lia.
  repeat destruct Hc as [->|Hc]; try subst v; reflexivity.
Qed.

(** Two digits read back. *)
Lemma digits_two (c0 c1 : ascii) (n : Z) :
  digits 0 (String c0 (String c1 "")) = Some n ->
  0 <= n <= 99 /\ JS.padStart0 2 (JS.toString n) = String c0 (String c1 "").
Proof.
  cbn [digits].
  destruct (digit c0) as [v0|] eqn:E0; [|discriminate].
  destruct (digit c1) as [v1|] eqn:E1; [|discriminate].
  intros [= <-].
  apply digit_inv in E0 as [H0 ->], E1 as [H1 ->].
  split; [lia|].
  rewrite twoDigits_chars by lia.
  replace ((10 * (10 * 0 + v0) + v1) / 10) with v0
    by (Z.to_euclidean_division_equations; lia).
  replace ((10 * (10 * 0 + v0) + v1) mod 10) with v1
    by (Z.to_euclidean_division_equations; lia).
  reflexivity.
Qed.

Lemma digits_twoDigits (n : Z) :
  0 <= n <= 99 -> digits 0 (JS.padStart0 2 (JS.toString n)) = Some n.
Proof.
  intros Hn. rewrite twoDigits_chars by exact Hn. cbn [digits].
  rewrite !digit_chr by (Z.to_euclidean_division_equations; lia).
  f_equal. Z.to_euclidean_division_equations; lia.
Qed.

(** Four digits read back. *)
Lemma digits_four (c0 c1 c2 c3 : ascii) (y : Z) :
  digits 0 (String c0 (String c1 (String c2 (String c3 "")))) = Some y ->
  0 <= y <= 9999
  /\ isoYear y = String c0 (String c1 (String c2 (String c3 ""))).
Proof.
  cbn [digits].
  destruct (digit c0) as [v0|] eqn:E0; [|discriminate].
  destruct (digit c1) as [v1|] eqn:E1; [|discriminate].
  destruct (digit c2) as [v2|] eqn:E2; [|discriminate].
  destruct (digit c3) as [v3|] eqn:E3; [|discriminate].
  intros [= <-].
  pose proof (digit_inv _ _ E0) as [H0 _].
  pose proof (digit_inv _ _ E1) as [H1 _].
  pose proof (digit_inv _ _ E2) as [H2 _].
  pose proof (digit_inv _ _ E3) as [H3 _].
  split; [lia|].
  rewrite isoYear_pairs by lia.
  replace ((10 * (10 * (10 * (10 * 0 + v0) + v1) + v2) + v3) / 100)
    with (10 * (10 * 0 + v0) + v1)
    by (Z.to_euclidean_division_equations; lia).
  replace ((10 * (10 * (10 * (10 * 0 + v0) + v1) + v2) + v3) mod 100)
    with (10 * (10 * 0 + v2) + v3)
    by (Z.to_euclidean_division_equations; lia).
  assert (Ha : digits 0 (String c0 (String c1 ""))
               = Some (10 * (10 * 0 + v0) + v1))
    by (cbn [digits]; rewrite E0, E1; reflexivity).
  assert (Hb : digits 0 (String c2 (String c3 ""))
               = Some (10 * (10 * 0 + v2) + v3))
    by (cbn [digits]; rewrite E2, E3; reflexivity).
  apply digits_two in Ha as [_ ->], Hb as [_ ->]. reflexivity.
Qed.

Lemma isoYear_chars (y : Z) :
  0 <= y <= 9999 ->
  exists c0 c1 c2 c3,
    isoYear y = String c0 (String c1 (String c2 (String c3 "")))
    /\ digits 0 (String c0 (String c1 (String c2 (String c3 "")))) = Some y.
Proof.
  intros Hy. rewrite isoYear_pairs by exact Hy.
  rewrite !twoDigits_chars by (Z.to_euclidean_division_equations; lia).
  do 4 eexists. split; [reflexivity|].
  cbn [digits].
  rewrite !digit_chr by (Z.to_euclidean_division_equations; lia).
  f_equal. Z.to_euclidean_division_equations; lia.
Qed.

End IsoDates.

Section IsoOrder.

Import JSDate.

(** Strings of one length compare piece by piece. *)
Lemma compare_append (a a' b b' : string) :
  String.length a = String.length a' ->
  String.compare (a ++ b) (a' ++ b')
  = match String.compare a a' with
    | Eq => String.compare b b'
    | c => c
    end.
Proof.
  revert a'. induction a as [|c a IH]; intros [|c' a'] Hlen;
    try discriminate Hlen; [reflexivity|].
  change (String c a ++ b) with (String c (a ++ b)).
  change (String c' a' ++ b') with (String c' (a' ++ b')).
  cbn [String.compare]. destruct (Ascii.compare c c'); try reflexivity.
  apply IH. injection Hlen as Hlen. exact Hlen.
Qed.

Lemma string_compare_refl (s : string) : String.compare s s = Eq.
Proof.
  induction s as [|c s IH]; [reflexivity|].
  cbn [String.compare]. unfold Ascii.compare. rewrite N.compare_refl.
  exact IH.
Qed.

Lemma twoDigits_compare (n n' : Z) :
  0 <= n <= 99 -> 0 <= n' <= 99 ->
  String.compare (JS.padStart0 2 (JS.toString n))
                 (JS.padStart0 2 (JS.toString n'))
  = (n ?= n').
Proof.
  intros Hn Hn'.
  assert (Hall :
    forallb (fun k =>
      forallb (fun k' =>
        match String.compare (JS.padStart0 2 (JS.toString (Z.of_nat k)))
                             (JS.padStart0 2 (JS.toString (Z.of_nat k'))),
              (Z.of_nat k ?= Z.of_nat k') with
        | Eq, Eq | Lt, Lt | Gt, Gt => true
        | _, _ => false
        end) (seq 0 100)) (seq 0 100) = true) by (vm_compute; reflexivity).
  rewrite forallb_forall in Hall.
  assert (Hin : In (Z.to_nat n) (seq 0 100)) by (apply in_seq; lia).
  assert (Hin' : In (Z.to_nat n') (seq 0 100)) by (apply in_seq; lia).
  specialize (Hall _ Hin). rewrite forallb_forall in Hall.
  specialize (Hall _ Hin'). rewrite !Z2Nat.id in Hall by lia.
  destruct (String.compare _ _), (n ?= n'); (reflexivity || discriminate Hall).
Qed.

Lemma twoDigits_length2 (n : Z) :
  0 <= n <= 99 -> String.length (JS.padStart0 2 (JS.toString n)) = 2%nat.
Proof. intros Hn. rewrite twoDigits_chars by exact Hn. reflexivity. Qed.

Lemma isoYear_compare (y y' : Z) :
  0 <= y <= 9999 -> 0 <= y' <= 9999 ->
  String.compare (isoYear y) (isoYear y') = (y ?= y').
Proof.
  intros Hy Hy'. rewrite !isoYear_pairs by assumption.
  assert (Hq : 0 <= y / 100 <= 99 /\ 0 <= y mod 100 <= 99)
    by (Z.to_euclidean_division_equations; lia).
  assert (Hq' : 0 <= y' / 100 <= 99 /\ 0 <= y' mod 100 <= 99)
    by (Z.to_euclidean_division_equations; lia).
  rewrite compare_append by (rewrite !twoDigits_length2; tauto).
  rewrite !twoDigits_compare by tauto.
  destruct (Z.compare_spec (y / 100) (y' / 100)) as [E|E|E];
    destruct (Z.compare_spec (y mod 100) (y' mod 100)) as [E'|E'|E'];
    symmetry;
    first [ apply Z.compare_eq_iff | apply Z.compare_lt_iff
          | apply Z.compare_gt_iff ];
    Z.to_euclidean_division_equations; lia.
Qed.

Lemma isoYear_length (y : Z) :
  0 <= y <= 9999 -> String.length (isoYear y) = 4%nat.
Proof.
  intros Hy. destruct (isoYear_chars y Hy) as (c0 & c1 & c2 & c3 & -> & _).
  reflexivity.
Qed.

(** The fields of a time value, in the ranges of a calendar. *)
Lemma DayWithinYear_lt (t : Z) :
  DayWithinYear t < DaysInYear (YearFromTime t).
Proof.
  unfold DayWithinYear, YearFromTime.
  pose proof (YearFromDay_bounds (Day t)) as [_ H].
  rewrite DayFromYear_succ in H. lia.
Qed.

Lemma DateFromTime_range (t : Z) : 1 <= DateFromTime t <= 31.
Proof.
  unfold DateFromTime, MonthFromTime.
  pose proof (DayWithinYear_nonneg t) as Hlo.
  pose proof (DayWithinYear_lt t) as Hhi.
  pose proof (InLeapYear_range t) as Hleap.
  unfold DaysInYear in Hhi. unfold InLeapYear in *.
  destruct (isLeap (YearFromTime t));
    unfold monthOfYearDay;
    repeat match goal with
           | |- context [if ?x <? ?y then _ else _] =>
               destruct (Z.ltb_spec x y)
           end; cbn [daysBeforeMonth]; lia.
Qed.

Lemma MonthFromTime_range (t : Z) : 0 <= MonthFromTime t <= 11.
Proof. apply monthOfYearDay_range. Qed.

(** The fields of two time values order as their days do. *)
Lemma fields_of_earlier_day (a b : Z) :
  Day a < Day b ->
  YearFromTime a < YearFromTime b
  \/ (YearFromTime a = YearFromTime b
      /\ (MonthFromTime a < MonthFromTime b
          \/ (MonthFromTime a = MonthFromTime b
              /\ DateFromTime a < DateFromTime b))).
Proof.
  intros Hlt.
  assert (Hy : YearFromTime a <= YearFromTime b).
  { unfold YearFromTime. apply YearFromDay_largest.
    pose proof (YearFromDay_bounds (Day a)). lia. }
  destruct (Z.eq_dec (YearFromTime a) (YearFromTime b)) as [E|NE]; [|lia].
  right. split; [exact E|].
  pose proof (DayWithinYear_nonneg a) as Ha.
  pose proof (DayWithinYear_lt b) as Hb.
  assert (Hd : DayWithinYear a < DayWithinYear b)
    by (unfold DayWithinYear; rewrite E; lia).
  unfold DateFromTime, MonthFromTime, InLeapYear. rewrite E.
  unfold DaysInYear in Hb.
  destruct (isLeap (YearFromTime b));
    unfold monthOfYearDay;
    repeat match goal with
           | |- context [if ?x <? ?y then _ else _] =>
               destruct (Z.ltb_spec x y)
           end; cbn [daysBeforeMonth]; lia.
Qed.

Lemma fields_of_same_day (a b : Z) :
  Day a = Day b ->
  YearFromTime a = YearFromTime b /\ MonthFromTime a = MonthFromTime b
  /\ DateFromTime a = DateFromTime b.
Proof.
  intros E.
  assert (Hy : YearFromTime a = YearFromTime b)
    by (unfold YearFromTime; rewrite E; reflexivity).
  assert (Hd : DayWithinYear a = DayWithinYear b)
    by (unfold DayWithinYear; rewrite E, Hy; reflexivity).
  unfold DateFromTime, MonthFromTime, InLeapYear. rewrite Hy, Hd. auto.
Qed.

(** The ISO date is read off the day alone. *)
Lemma isoDate_of_Day (a b : Z) : Day a = Day b -> isoDate a = isoDate b.
Proof.
  intros E. destruct (fields_of_same_day a b E) as (Hy & Hm & Hd).
  unfold isoDate. rewrite Hy, Hm, Hd. reflexivity.
Qed.

Lemma isoDate_compare_fields (a b : Z) :
  0 <= YearFromTime a <= 9999 -> 0 <= YearFromTime b <= 9999 ->
  String.compare (isoDate a) (isoDate b)
  = match YearFromTime a ?= YearFromTime b with
    | Eq => match MonthFromTime a + 1 ?= MonthFromTime b + 1 with
            | Eq => DateFromTime a ?= DateFromTime b
            | c => c
            end
    | c => c
    end.
Proof.
  intros Ha Hb. unfold isoDate.
  pose proof (MonthFromTime_range a). pose proof (MonthFromTime_range b).
  pose proof (DateFromTime_range a). pose proof (DateFromTime_range b).
  rewrite compare_append by (rewrite !isoYear_length; auto).
  rewrite isoYear_compare by assumption.
  destruct (YearFromTime a ?= YearFromTime b); try reflexivity.
  change ("-" ++ ?x) with (String "-" x). cbn [String.compare Ascii.compare].
  change (N_of_ascii "-" ?= N_of_ascii "-")%N with Eq.
  rewrite compare_append by (rewrite !twoDigits_length2; lia).
  rewrite twoDigits_compare by lia.
  destruct (MonthFromTime a + 1 ?= MonthFromTime b + 1); try reflexivity.
  change ("-" ++ ?x) with (String "-" x). cbn [String.compare Ascii.compare].
  change (N_of_ascii "-" ?= N_of_ascii "-")%N with Eq.
  apply twoDigits_compare; lia.
Qed.

(** ISO dates of four-digit years order as the days do. *)
Lemma isoDate_compare (a b : Z) :
  0 <= YearFromTime a <= 9999 -> 0 <= YearFromTime b <= 9999 ->
  String.compare (isoDate a) (isoDate b) = (Day a ?= Day b).
Proof.
  intros Ha Hb. rewrite isoDate_compare_fields by assumption.
  destruct (Z.compare_spec (Day a) (Day b)) as [E|E|E].
  - destruct (fields_of_same_day a b E) as (-> & -> & ->).
    rewrite !Z.compare_refl. reflexivity.
  - destruct (fields_of_earlier_day a b E) as [Hy|[Hy [Hm|[Hm Hd]]]].
    + apply Z.compare_lt_iff in Hy. rewrite Hy. reflexivity.
    + rewrite Hy, Z.compare_refl.
      assert (Hm' : MonthFromTime a + 1 < MonthFromTime b + 1) by lia.
      apply Z.compare_lt_iff in Hm'. rewrite Hm'. reflexivity.
    + rewrite Hy, Hm, !Z.compare_refl. apply Z.compare_lt_iff. exact Hd.
  - destruct (fields_of_earlier_day b a E) as [Hy|[Hy [Hm|[Hm Hd]]]].
    + apply Z.compare_gt_iff in Hy. rewrite Hy. reflexivity.
    + rewrite Hy, Z.compare_refl.
      assert (Hm' : MonthFromTime b + 1 < MonthFromTime a + 1) by lia.
      apply Z.compare_gt_iff in Hm'. rewrite Hm'. reflexivity.
    + rewrite Hy, Hm, !Z.compare_refl. apply Z.compare_gt_iff. exact Hd.
Qed.

Lemma isoDate_leb (a b : Z) :
  0 <= YearFromTime a <= 9999 -> 0 <= YearFromTime b <= 9999 ->
  String.leb (isoDate a) (isoDate b) = (Day a <=? Day b).
Proof.
  intros Ha Hb. unfold String.leb. rewrite isoDate_compare by assumption.
  unfold Z.leb. reflexivity.
Qed.

Lemma isoDate_inj (a b : Z) :
  0 <= YearFromTime a <= 9999 -> 0 <= YearFromTime b <= 9999 ->
  isoDate a = isoDate b -> Day a = Day b.
Proof.
  intros Ha Hb E. apply Z.compare_eq.
  rewrite <- isoDate_compare by assumption. rewrite E.
  apply string_compare_refl.
Qed.

End IsoOrder.

Section IsoRoundTrip.

Import JSDate.

(** A date of the calendar has the fields it was made of. *)
Lemma MakeDay_valid (y mo d : Z) :
  0 <= mo <= 11 ->
  1 <= d <= daysInMonth (if isLeap y then 1 else 0) mo ->
  let t := MakeDate (MakeDay y mo d) 0 in
  YearFromTime t = y /\ MonthFromTime t = mo /\ DateFromTime t = d.
Proof.
  intros Hmo Hd t.
  assert (Hday : Day t = MakeDay y mo d) by apply Day_MakeDate.
  assert (Hym : y + mo / 12 = y /\ mo mod 12 = mo)
    by (Z.to_euclidean_division_equations; lia).
  destruct Hym as [Hy Hm].
  assert (Hmk : MakeDay y mo d
                = DayFromYear y
                  + daysBeforeMonth (if isLeap y then 1 else 0) mo + d - 1)
    by (unfold MakeDay; cbv zeta; rewrite Hy, Hm; reflexivity).
  set (leap := if isLeap y then 1 else 0) in *.
  assert (Hleap : 0 <= leap <= 1) by (unfold leap; destruct (isLeap y); lia).
  assert (Hwithin : 0 <= daysBeforeMonth leap mo + d - 1 < DaysInYear y).
  { unfold DaysInYear, leap in *.
    assert (Hc : mo = 0 \/ mo = 1 \/ mo = 2 \/ mo = 3 \/ mo = 4 \/ mo = 5
                 \/ mo = 6 \/ mo = 7 \/ mo = 8 \/ mo = 9 \/ mo = 10 \/ mo = 11)
      by lia.
    destruct (isLeap y);
      repeat destruct Hc as [->|Hc]; try subst mo;
      cbn [daysBeforeMonth daysInMonth] in *; lia. }
  assert (Hyear : YearFromTime t = y).
  { unfold YearFromTime. rewrite Hday, Hmk. apply YearFromDay_unique.
    rewrite DayFromYear_succ. lia. }
  assert (Hdwy : DayWithinYear t = daysBeforeMonth leap mo + d - 1)
    by (unfold DayWithinYear; rewrite Hyear, Hday, Hmk; lia).
  assert (Hil : InLeapYear t = leap)
    by (unfold InLeapYear; rewrite Hyear; reflexivity).
  assert (Hmonth : MonthFromTime t = mo).
  { unfold MonthFromTime. rewrite Hil, Hdwy.
    assert (Hc : mo = 0 \/ mo = 1 \/ mo = 2 \/ mo = 3 \/ mo = 4 \/ mo = 5
                 \/ mo = 6 \/ mo = 7 \/ mo = 8 \/ mo = 9 \/ mo = 10 \/ mo = 11)
      by lia.
    unfold monthOfYearDay.
    repeat destruct Hc as [->|Hc]; try subst mo;
      cbn [daysBeforeMonth daysInMonth] in *;
      repeat match goal with
             | |- context [if ?x <? ?y then _ else _] =>
                 destruct (Z.ltb_spec x y)
             end; lia. }
  split; [exact Hyear|]. split; [exact Hmonth|].
  unfold DateFromTime. rewrite Hil, Hmonth, Hdwy. lia.
Qed.

Lemma DateFromTime_in_month (t : Z) :
  DateFromTime t <= daysInMonth (InLeapYear t) (MonthFromTime t).
Proof.
  unfold DateFromTime, MonthFromTime.
  pose proof (DayWithinYear_nonneg t) as Hlo.
  pose proof (DayWithinYear_lt t) as Hhi.
  unfold DaysInYear in Hhi. unfold InLeapYear in *.
  destruct (isLeap (YearFromTime t));
    unfold monthOfYearDay;
    repeat match goal with
           | |- context [if ?x <? ?y then _ else _] =>
               destruct (Z.ltb_spec x y)
           end; cbn [daysBeforeMonth daysInMonth]; lia.
Qed.

(** [Date.parse] reads the ISO date of an instant as the midnight that
    starts its day. *)
Lemma parseISODate_isoDate (t : Z) :
  0 <= YearFromTime t <= 9999 ->
  parseISODate (isoDate t) = Some (MakeDate (Day t) 0).
Proof.
  intros Hy. unfold isoDate.
  pose proof (MonthFromTime_range t) as Hm.
  pose proof (DateFromTime_range t) as Hd.
  pose proof (DateFromTime_in_month t) as Hdm.
  pose proof (MakeDay_fields t 0) as Hmk. rewrite !Z.add_0_r in Hmk.
  destruct (isoYear_chars _ Hy) as (c0 & c1 & c2 & c3 & -> & Hdy).
  pose proof (digits_twoDigits (MonthFromTime t + 1) ltac:(lia)) as Hdm'.
  pose proof (digits_twoDigits (DateFromTime t) ltac:(lia)) as Hdd.
  rewrite (twoDigits_chars (MonthFromTime t + 1)) in * by lia.
  rewrite (twoDigits_chars (DateFromTime t)) in * by lia.
  unfold parseISODate. cbv [append].
  cbn [String.length substring Nat.eqb andb String.eqb Ascii.eqb Bool.eqb].
  rewrite Hdy, Hdm', Hdd.
  replace (MonthFromTime t + 1 - 1) with (MonthFromTime t) by lia.
  unfold InLeapYear in Hdm.
  destruct (Z.leb_spec 1 (MonthFromTime t + 1)); [|lia].
  destruct (Z.leb_spec (MonthFromTime t + 1) 12); [|lia].
  destruct (Z.leb_spec 1 (DateFromTime t)); [|lia].
  destruct (Z.leb_spec (DateFromTime t)
              (daysInMonth (if isLeap (YearFromTime t) then 1 else 0)
                 (MonthFromTime t))); [|lia].
  cbn [andb]. rewrite Hmk. reflexivity.
Qed.

Lemma string_of_length_10 (s : string) :
  String.length s = 10%nat ->
  exists c0 c1 c2 c3 c4 c5 c6 c7 c8 c9,
    s = String c0 (String c1 (String c2 (String c3 (String c4 (String c5
          (String c6 (String c7 (String c8 (String c9 ""))))))))).
Proof.
  intros H.
  do 10 (destruct s as [|? s]; [discriminate H|]).
  destruct s; [|discriminate H]. do 10 eexists. reflexivity.
Qed.

(** What [Date.parse] accepts is the ISO date of what it returns. *)
Lemma isoDate_parseISODate (s : string) (t : Z) :
  parseISODate s = Some t ->
  isoDate t = s /\ 0 <= YearFromTime t <= 9999 /\ t = MakeDate (Day t) 0.
Proof.
  intros H. pose proof (parseISODate_midnight s t H) as Hmid.
  unfold parseISODate in H.
  destruct (String.length s =? 10)%nat eqn:Hlen; [|discriminate H].
  apply Nat.eqb_eq in Hlen.
  destruct (string_of_length_10 s Hlen)
    as (c0 & c1 & c2 & c3 & c4 & c5 & c6 & c7 & c8 & c9 & ->).
  cbn [substring] in H.
  destruct (String.eqb_spec (String c4 "") "-") as [E4|]; [|discriminate H].
  destruct (String.eqb_spec (String c7 "") "-") as [E7|]; [|discriminate H].
  injection E4 as ->. injection E7 as ->.
  cbn [andb] in H.
  destruct (digits 0 (String c0 (String c1 (String c2 (String c3 "")))))
    as [y|] eqn:Hy; [|discriminate H].
  destruct (digits 0 (String c5 (String c6 ""))) as [m|] eqn:Hm;
    [|discriminate H].
  destruct (digits 0 (String c8 (String c9 ""))) as [d|] eqn:Hd;
    [|discriminate H].
  destruct (Z.leb_spec 1 m); [|discriminate H].
  destruct (Z.leb_spec m 12); [|discriminate H].
  destruct (Z.leb_spec 1 d); [|discriminate H].
  destruct (Z.leb_spec d (daysInMonth (if isLeap y then 1 else 0) (m - 1)));
    [|discriminate H].
  cbn [andb] in H. injection H as <-.
  destruct (MakeDay_valid y (m - 1) d ltac:(lia) ltac:(lia)) as (Hyr & Hmo & Hda).
  apply digits_four in Hy as [Hy4 Hys].
  apply digits_two in Hm as [_ Hms]. apply digits_two in Hd as [_ Hds].
  split; [|split; [rewrite Hyr; exact Hy4 | exact Hmid]].
  unfold isoDate. rewrite Hyr, Hmo, Hda.
  replace (m - 1 + 1) with m by lia. rewrite Hys, Hms, Hds. reflexivity.
Qed.

End IsoRoundTrip.

(** ** The rollups in a zone at a fixed offset *)

Section FixedZone.

Import SummaryView JSDate.

Variable minutes : Z.

Local Abbreviation zone := (fixedZone minutes).
Local Abbreviation off := (minutes * 60000).

Lemma LocalTime_fixed (t : Z) : LocalTime zone t = t + off.
Proof. reflexivity. Qed.

Lemma UTC_fixed (t : Z) : UTC zone t = t - off.
Proof. reflexivity. Qed.

Lemma Day_shift (t k : Z) : Day (t + k * msPerDay) = Day t + k.
Proof. unfold Day, msPerDay. Z.to_euclidean_division_equations; lia. Qed.

Lemma MakeDate_within (t k : Z) :
  MakeDate (Day t + k) (TimeWithinDay t) = t + k * msPerDay.
Proof.
  unfold MakeDate, Day, TimeWithinDay, msPerDay.
  Z.to_euclidean_division_equations; lia.
Qed.

(** [setDate] moves an instant by whole days. *)
Lemma setDate_shift (t k : Z) :
  setDate zone t (getDate zone t + k) = t + k * msPerDay.
Proof.
  unfold setDate, getDate. rewrite LocalTime_fixed, UTC_fixed.
  rewrite MakeDay_fields, MakeDate_within. lia.
Qed.

(** The constructor, on a date counted from the one of [t], gives
    the local midnight of that day. *)
Lemma newDateYMD_shift (t k : Z) :
  ~ (0 <= getFullYear zone t <= 99) ->
  newDateYMD zone (getFullYear zone t) (getMonth zone t) (getDate zone t + k)
  = MakeDate (Day (t + off) + k) 0 - off.
Proof.
  intros Hy. unfold newDateYMD, getFullYear, getMonth, getDate in *.
  rewrite LocalTime_fixed in *. rewrite UTC_fixed.
  destruct (Z.leb_spec 0 (YearFromTime (t + off)));
    destruct (Z.leb_spec (YearFromTime (t + off)) 99);
    cbn [andb]; try lia; rewrite MakeDay_fields; reflexivity.
Qed.

(** A local midnight is written a day early east of Greenwich, and on
    its own date elsewhere. *)
Lemma Day_local_midnight (d : Z) :
  Day (MakeDate d 0 - off) = d + Day (- off).
Proof.
  unfold MakeDate, Day, msPerDay. Z.to_euclidean_division_equations; lia.
Qed.

End FixedZone.

Section Windows.

Import SummaryView JSDate.
Local Open Scope list_scope.

Lemma YearFromTime_four_digits (t : Z) :
  -719528 <= Day t < 2932897 -> 0 <= YearFromTime t <= 9999.
Proof.
  intros [Hlo Hhi]. unfold YearFromTime. split.
  - apply YearFromDay_largest. exact Hlo.
  - destruct (Z.le_gt_cases 10000 (YearFromDay (Day t))) as [H|H]; [|lia].
    apply DayFromYear_mono in H.
    pose proof (YearFromDay_bounds (Day t)) as [Hb _].
    change (DayFromYear 10000) with 2932897 in H. lia.
Qed.

Lemma dayOfEntry_date (entry : TimeEntry) (d : Z) :
  dayOfEntry entry = Some d ->
  date entry = isoDate (MakeDate d 0)
  /\ 0 <= YearFromTime (MakeDate d 0) <= 9999.
Proof.
  unfold dayOfEntry. destruct (parseISODate (date entry)) as [t|] eqn:E;
    [|discriminate].
  intros [= <-].
  destruct (isoDate_parseISODate _ _ E) as (Hs & Hy & Ht).
  rewrite <- Ht. auto.
Qed.

(** An entry is within a window of two dates when its day is between
    the days of the two. *)
Lemma dateWithin_days (lo hi : Z) (entry : TimeEntry) (d : Z) :
  0 <= YearFromTime lo <= 9999 -> 0 <= YearFromTime hi <= 9999 ->
  dayOfEntry entry = Some d ->
  dateWithin (isoDate lo) (isoDate hi) entry
  = (Day lo <=? d) && (d <=? Day hi).
Proof.
  intros Hlo Hhi Hd. apply dayOfEntry_date in Hd as [Hs Hy].
  unfold dateWithin. rewrite Hs, !isoDate_leb by assumption.
  rewrite Day_MakeDate. reflexivity.
Qed.


Lemma filter_agree {A : Type} (P Q : A -> Prop)
    `{!forall x, Decision (P x)} `{!forall x, Decision (Q x)} (l : list A) :
  Forall (fun x => P x <-> Q x) l -> filter P l = filter Q l.
Proof.
  induction 1 as [|x l Hx _ IH]; [reflexivity|].
  rewrite !filter_cons, IH.
  destruct (decide (P x)), (decide (Q x)); tauto || reflexivity.
Qed.

(** The sum over a window of dates is the sum over the days between. *)
Lemma window_sum (lo hi : Z) (entries : list TimeEntry) :
  0 <= YearFromTime lo <= 9999 -> 0 <= YearFromTime hi <= 9999 ->
  Forall (fun entry => is_Some (dayOfEntry entry)) entries ->
  sumTimeSpent
    (filter (fun entry => dateWithin (isoDate lo) (isoDate hi) entry) entries)
  = sumOnDays (fun d => (Day lo <=? d) && (d <=? Day hi)) entries.
Proof.
  intros Hlo Hhi Hvalid. unfold sumOnDays. f_equal.
  apply filter_agree. eapply Forall_impl; [exact Hvalid|].
  intros entry [d Hd]. cbn beta.
  rewrite (dateWithin_days lo hi entry d Hlo Hhi Hd), Hd. reflexivity.
Qed.


(** Two pickers that agree give one sum. *)
Lemma sumOnDays_ext (P Q : Z -> bool) (entries : list TimeEntry) :
  (forall d, P d = Q d) -> sumOnDays P entries = sumOnDays Q entries.
Proof.
  intros H. unfold sumOnDays. f_equal. apply filter_agree.
  apply Forall_forall. intros entry _.
  destruct (dayOfEntry entry) as [d|]; cbn; [rewrite H|]; reflexivity.
Qed.

End Windows.

Section CalendarDays.

Import SummaryView JSDate.

Variables minutes now : Z.

Local Abbreviation zone := (fixedZone minutes).
Local Abbreviation off := (minutes * 60000).

(** The clock reads a day of a four-digit year, and so does every
    instant of the year before it and of the hundred days after it. *)
Lemma Day_now_range : 0 <= now < TimeFromYear 9999 -> 0 <= Day now < 2932532.
Proof.
  intros Hnow. change (TimeFromYear 9999) with (msPerDay * 2932532) in Hnow.
  unfold Day, msPerDay in *. Z.to_euclidean_division_equations; lia.
Qed.

Lemma near_now_four_digits (t : Z) :
  0 <= now < TimeFromYear 9999 ->
  Day now - 400 <= Day t <= Day now + 100 -> 0 <= YearFromTime t <= 9999.
Proof.
  intros Hnow H. pose proof (Day_now_range Hnow).
  apply YearFromTime_four_digits. lia.
Qed.

Lemma local_day_near :
  -1440 <= minutes <= 1440 -> Day now - 1 <= Day (now + off) <= Day now + 1.
Proof.
  intros Hzone. unfold Day, msPerDay. Z.to_euclidean_division_equations; lia.
Qed.

Lemma offset_day : -1440 <= minutes <= 1440 -> -1 <= Day (- off) <= 1.
Proof.
  intros Hzone. unfold Day, msPerDay. Z.to_euclidean_division_equations; lia.
Qed.

(** Going to local time and back loses at most a day, and gains none. *)
Lemma local_day_back :
  Day now - 1 <= Day (now + off) + Day (- off) <= Day now.
Proof. unfold Day, msPerDay. Z.to_euclidean_division_equations; lia. Qed.

Lemma getFullYear_modern :
  -1440 <= minutes <= 1440 -> 0 <= now < TimeFromYear 9999 ->
  ~ (0 <= getFullYear zone now <= 99).
Proof.
  intros Hzone Hnow.
  assert (H : 1969 <= getFullYear zone now); [|lia].
  unfold getFullYear, YearFromTime. apply YearFromDay_largest.
  change (DayFromYear 1969) with (-365).
  pose proof (Day_now_range Hnow). pose proof (local_day_near Hzone).
  change (LocalTime zone now) with (now + off). lia.
Qed.

Lemma getDay_range : 0 <= getDay zone now <= 6.
Proof. apply WeekDay_range. Qed.

(** The day on which the constructor's local midnight is written. *)
Lemma Day_newDateYMD (k : Z) :
  -1440 <= minutes <= 1440 -> 0 <= now < TimeFromYear 9999 ->
  Day (newDateYMD zone (getFullYear zone now) (getMonth zone now)
         (getDate zone now + k))
  = Day (now + off) + k + Day (- off).
Proof.
  intros Hzone Hnow.
  rewrite (newDateYMD_shift minutes now k (getFullYear_modern Hzone Hnow)).
  apply Day_local_midnight.
Qed.

Lemma Day_startOfWeek :
  -1440 <= minutes <= 1440 -> 0 <= now < TimeFromYear 9999 ->
  Day (newDateYMD zone (getFullYear zone now) (getMonth zone now)
         (getDate zone now - getDay zone now))
  = Day (now + off) - getDay zone now + Day (- off).
Proof.
  intros Hzone Hnow.
  replace (getDate zone now - getDay zone now)
    with (getDate zone now + - getDay zone now) by lia.
  rewrite (Day_newDateYMD _ Hzone Hnow). lia.
Qed.

Lemma Day_endOfLastWeek :
  -1440 <= minutes <= 1440 -> 0 <= now < TimeFromYear 9999 ->
  Day (endOfLastWeek zone now)
  = Day (now + off) - getDay zone now + Day (- off) - 1.
Proof.
  intros Hzone Hnow. unfold endOfLastWeek.
  replace (getDate zone now - getDay zone now - 1)
    with (getDate zone now + (- getDay zone now - 1)) by lia.
  rewrite (Day_newDateYMD _ Hzone Hnow). lia.
Qed.

Lemma Day_startOfLastWeek :
  -1440 <= minutes <= 1440 -> 0 <= now < TimeFromYear 9999 ->
  Day (startOfLastWeek zone now)
  = Day (now + off) - getDay zone now + Day (- off) - 7.
Proof.
  intros Hzone Hnow. unfold startOfLastWeek. cbv zeta.
  replace (getDate zone (endOfLastWeek zone now) - 6)
    with (getDate zone (endOfLastWeek zone now) + -6) by lia.
  rewrite setDate_shift, Day_shift, (Day_endOfLastWeek Hzone Hnow). lia.
Qed.

End CalendarDays.

(** The rollups of this week and of last week as sums over days. *)
Lemma week_rollups_in_days_aux
    (minutes now : Z) (entries : list SummaryView.TimeEntry) :
  -1440 <= minutes <= 1440 ->
  0 <= now < JSDate.TimeFromYear 9999 ->
  Forall (fun entry => is_Some (SummaryView.dayOfEntry entry)) entries ->
  let zone := JSDate.fixedZone minutes in
  let start :=
    JSDate.Day
      (JSDate.newDateYMD zone
         (JSDate.getFullYear zone now) (JSDate.getMonth zone now)
         (JSDate.getDate zone now - JSDate.getDay zone now)) in
  SummaryView.getThisWeekTime zone now entries
  = SummaryView.sumOnDays
      (fun d => (start <=? d) && (d <=? JSDate.Day now)) entries
  /\ SummaryView.getLastWeekTime zone now entries
     = SummaryView.sumOnDays
         (fun d => (start - 7 <=? d) && (d <=? start - 1)) entries
  /\ (minutes = 0 -> start = JSDate.Day now - JSDate.WeekDay now).
Proof.
  intros Hzone Hnow Hvalid zone start.
  pose proof (Day_startOfWeek minutes now Hzone Hnow) as Hstart.
  pose proof (Day_endOfLastWeek minutes now Hzone Hnow) as Hend.
  pose proof (Day_startOfLastWeek minutes now Hzone Hnow) as Hbegin.
  pose proof (local_day_back minutes now) as Hback.
  pose proof (Day_now_range now Hnow) as Hday.
  pose proof (getDay_range minutes now) as Hwd.
  fold zone in Hstart, Hend, Hbegin, Hwd. fold start in Hstart.
  assert (Hrange : JSDate.Day now - 7 <= start <= JSDate.Day now) by lia.
  split; [|split].
  - unfold SummaryView.getThisWeekTime, SummaryView.startOfWeekStr. cbv zeta.
    rewrite window_sum;
      [reflexivity | | | exact Hvalid];
      apply (near_now_four_digits now _ Hnow); fold zone; fold start; lia.
  - unfold SummaryView.getLastWeekTime. cbv zeta.
    rewrite window_sum;
      [ | | | exact Hvalid];
      [ | apply (near_now_four_digits now _ Hnow); lia ..].
    apply sumOnDays_ext. intros d. rewrite Hbegin, Hend, Hstart.
    f_equal; f_equal; lia.
  - intros ->. rewrite Hstart.
    unfold JSDate.getDay, JSDate.LocalTime, zone, JSDate.fixedZone.
    change (0 * 60000) with 0. rewrite !Z.add_0_r.
    change (JSDate.Day (- 0)) with 0. lia.
Qed.


(** X13. The rollups of this week and of last week, read in days of the
    calendar, in a zone at a fixed offset and for entries with dates of
    the calendar: this week runs from the day on which the start of the
    week is written to today, last week over the seven days before
    that day, so that no entry counts in both and none between them is
    lost.  The start is today or one of the seven days before, and in
    UTC it is the Sunday on or before today. *)
Theorem week_rollups_in_days
    (minutes now : Z) (entries : list SummaryView.TimeEntry) :
  -1440 <= minutes <= 1440 ->
  0 <= now < JSDate.TimeFromYear 9999 ->
  Forall (fun entry => is_Some (SummaryView.dayOfEntry entry)) entries ->
  let zone := JSDate.fixedZone minutes in
  let start :=
    JSDate.Day
      (JSDate.newDateYMD zone
         (JSDate.getFullYear zone now) (JSDate.getMonth zone now)
         (JSDate.getDate zone now - JSDate.getDay zone now)) in
  SummaryView.getThisWeekTime zone now entries
  = SummaryView.sumOnDays
      (fun d => (start <=? d) && (d <=? JSDate.Day now)) entries
  /\ SummaryView.getLastWeekTime zone now entries
     = SummaryView.sumOnDays
         (fun d => (start - 7 <=? d) && (d <=? start - 1)) entries
  /\ JSDate.Day now - 7 <= start <= JSDate.Day now
  /\ (minutes = 0 -> start = JSDate.Day now - JSDate.WeekDay now).
Proof.
  intros Hzone Hnow Hvalid zone start.
  destruct (week_rollups_in_days_aux minutes now entries Hzone Hnow Hvalid)
    as (Hthis & Hlast & Hutc).
  fold zone in Hthis, Hlast, Hutc. fold start in Hthis, Hlast, Hutc.
  split; [exact Hthis|]. split; [exact Hlast|]. split; [|exact Hutc].
  pose proof (Day_startOfWeek minutes now Hzone Hnow) as Hstart.
  pose proof (local_day_back minutes now) as Hback.
  pose proof (getDay_range minutes now) as Hwd.
  fold zone in Hstart, Hwd. fold start in Hstart. lia.
Qed.

Lemma week_rollups_in_days_witness :
  SummaryView.getLastWeekTime (JSDate.fixedZone 120) 1704880800000
    [SummaryView.entryOn "2024-01-06" 30; SummaryView.entryOn "2024-01-05" 7]
  = SummaryView.sumOnDays
      (fun d => (19728 - 7 <=? d) && (d <=? 19728 - 1))
      [SummaryView.entryOn "2024-01-06" 30; SummaryView.entryOn "2024-01-05" 7].
Proof.
  refine (proj1 (proj2 (week_rollups_in_days 120 1704880800000
            [SummaryView.entryOn "2024-01-06" 30;
             SummaryView.entryOn "2024-01-05" 7] _ _ _))).
  - lia.
  - vm_compute. split; [discriminate | reflexivity].
  - repeat constructor; vm_compute; eexists; reflexivity.
Defined.

Section Nested.

Import SummaryView JSDate.
Local Open Scope list_scope.

(** A wider filter sums to more, the minutes being nonnegative. *)
Lemma sumTimeSpent_filter_mono (P Q : TimeEntry -> Prop)
    `{!forall x, Decision (P x)} `{!forall x, Decision (Q x)}
    (entries : list TimeEntry) :
  Forall (fun entry => (0 <= timeSpent entry)%Q) entries ->
  (forall entry, P entry -> Q entry) ->
  (sumTimeSpent (filter P entries) <= sumTimeSpent (filter Q entries))%Q.
Proof.
  intros Hpos Himp. induction Hpos as [|e entries He _ IH];
    [apply Qle_refl|].
  rewrite !filter_cons.
  destruct (decide (P e)) as [HP|HP], (decide (Q e)) as [HQ|HQ];
    rewrite ?sumTimeSpent_cons; try lra.
  exfalso. exact (HQ (Himp e HP)).
Qed.

Lemma leb_refl (s : string) : String.leb s s = true.
Proof. unfold String.leb. rewrite string_compare_refl. reflexivity. Qed.

Lemma leb_trans (a b c : string) :
  String.leb a b = true -> String.leb b c = true -> String.leb a c = true.
Proof.
  intros H1 H2. apply Is_true_true.
  change (String.le a c). transitivity b; apply Is_true_true; assumption.
Qed.

Lemma dateWithin_widen (lo lo' hi : string) (entry : TimeEntry) :
  String.leb lo' lo = true ->
  dateWithin lo hi entry = true -> dateWithin lo' hi entry = true.
Proof.
  unfold dateWithin. intros Hle Hin.
  apply andb_true_iff in Hin as [Hlo Hhi]. rewrite Hhi, andb_true_r.
  exact (leb_trans _ _ _ Hle Hlo).
Qed.

Variables minutes now : Z.
Hypothesis Hzone : -1440 <= minutes <= 1440.
Hypothesis Hnow : 0 <= now < TimeFromYear 9999.

Local Abbreviation zone := (fixedZone minutes).
Local Abbreviation off := (minutes * 60000).

Lemma Day_startOfMonth :
  Day (newDateYMD zone (getFullYear zone now) (getMonth zone now) 1)
  = Day (now + off) - (getDate zone now - 1) + Day (- off).
Proof.
  replace 1 with (getDate zone now + (1 - getDate zone now)) at 1 by lia.
  rewrite (Day_newDateYMD _ _ _ Hzone Hnow). lia.
Qed.

Lemma Day_startOfYear :
  Day (newDateYMD zone (getFullYear zone now) 0 1)
  = DayFromYear (getFullYear zone now) + Day (- off).
Proof.
  pose proof (getFullYear_modern _ _ Hzone Hnow) as Hy.
  unfold newDateYMD.
  destruct (Z.leb_spec 0 (getFullYear zone now));
    destruct (Z.leb_spec (getFullYear zone now) 99);
    cbn [andb]; try lia;
    change (UTC zone ?x) with (x - off);
    rewrite Day_local_midnight; unfold MakeDay;
    change (0 / 12) with 0; change (0 mod 12) with 0;
    rewrite !Z.add_0_r; unfold daysBeforeMonth; lia.
Qed.

Lemma startOfYear_before_month :
  DayFromYear (getFullYear zone now)
  <= Day (now + off) - (getDate zone now - 1).
Proof.
  unfold getFullYear, getDate. change (LocalTime zone now) with (now + off).
  unfold DateFromTime, DayWithinYear.
  pose proof (daysBeforeMonth_nonneg (InLeapYear (now + off))
                (MonthFromTime (now + off))) as H.
  pose proof (InLeapYear_range (now + off)). lia.
Qed.

Lemma startOfYear_after :
  Day (now + off) - 366 < DayFromYear (getFullYear zone now).
Proof.
  unfold getFullYear. change (LocalTime zone now) with (now + off).
  pose proof (DayWithinYear_lt (now + off)) as H.
  unfold DayWithinYear, DaysInYear in H.
  destruct (isLeap (YearFromTime (now + off))); lia.
Qed.

Lemma getDate_range : 1 <= getDate zone now <= 31.
Proof. apply DateFromTime_range. Qed.

End Nested.

(** X14. The rollups are nested, in a zone at a fixed offset and for
    entries of nonnegative minutes, whatever their dates: what today
    counts, this week counts and this month counts, and what this month
    counts, this year counts. *)
Theorem rollups_are_nested
    (minutes now : Z) (entries : list SummaryView.TimeEntry) :
  -1440 <= minutes <= 1440 ->
  0 <= now < JSDate.TimeFromYear 9999 ->
  Forall (fun entry => (0 <= SummaryView.timeSpent entry)%Q) entries ->
  let zone := JSDate.fixedZone minutes in
  (SummaryView.getTodayTime now entries
   <= SummaryView.getThisWeekTime zone now entries)%Q
  /\ (SummaryView.getTodayTime now entries
      <= SummaryView.getThisMonthTime zone now entries)%Q
  /\ (SummaryView.getThisMonthTime zone now entries
      <= SummaryView.getThisYearTime zone now entries)%Q.
Proof.
  intros Hzone Hnow Hpos zone.
  pose proof (Day_startOfWeek minutes now Hzone Hnow) as Hweek.
  pose proof (Day_startOfMonth minutes now Hzone Hnow) as Hmonth.
  pose proof (Day_startOfYear minutes now Hzone Hnow) as Hyear.
  pose proof (startOfYear_before_month minutes now) as Hym.
  pose proof (startOfYear_after minutes now) as Hya.
  pose proof (local_day_back minutes now) as Hback.
  pose proof (local_day_near minutes now Hzone) as Hnear.
  pose proof (offset_day minutes Hzone) as Hoff.
  pose proof (getDay_range minutes now) as Hwd.
  pose proof (getDate_range minutes now) as Hdate.
  fold zone in Hweek, Hmonth, Hyear, Hym, Hya, Hwd, Hdate.
  assert (Hnow4 : 0 <= JSDate.YearFromTime now <= 9999)
    by (apply (near_now_four_digits now _ Hnow); lia).
  unfold SummaryView.getTodayTime, SummaryView.getThisWeekTime,
    SummaryView.getThisMonthTime, SummaryView.getThisYearTime. cbv zeta.
  split; [|split].
  - apply sumTimeSpent_filter_mono; [exact Hpos|].
    intros entry Hd. apply Is_true_true. unfold SummaryView.dateWithin.
    rewrite Hd, leb_refl, andb_true_r.
    unfold SummaryView.startOfWeekStr. rewrite isoDate_leb;
      [apply Z.leb_le; lia | apply (near_now_four_digits now _ Hnow); lia
      | exact Hnow4].
  - apply sumTimeSpent_filter_mono; [exact Hpos|].
    intros entry Hd. apply Is_true_true. unfold SummaryView.dateWithin.
    rewrite Hd, leb_refl, andb_true_r.
    unfold SummaryView.startOfMonthStr. rewrite isoDate_leb;
      [apply Z.leb_le; lia | apply (near_now_four_digits now _ Hnow); lia
      | exact Hnow4].
  - assert (Hle : String.leb (SummaryView.startOfYearStr zone now)
                             (SummaryView.startOfMonthStr zone now) = true).
    { unfold SummaryView.startOfYearStr, SummaryView.startOfMonthStr.
      rewrite isoDate_leb;
        [apply Z.leb_le; lia
        | apply (near_now_four_digits now _ Hnow); lia ..]. }
    apply sumTimeSpent_filter_mono; [exact Hpos|].
    intros entry Hin. apply Is_true_true. apply Is_true_true in Hin.
    exact (dateWithin_widen _ _ _ _ Hle Hin).
Qed.

Lemma rollups_are_nested_witness :
  (SummaryView.getTodayTime 1704880800000
     [SummaryView.entryOn "2024-01-10" 30; SummaryView.entryOn "2024-01-08" 7]
   <= SummaryView.getThisWeekTime (JSDate.fixedZone (-300)) 1704880800000
        [SummaryView.entryOn "2024-01-10" 30;
         SummaryView.entryOn "2024-01-08" 7])%Q.
Proof.
  refine (proj1 (rollups_are_nested (-300) 1704880800000
            [SummaryView.entryOn "2024-01-10" 30;
             SummaryView.entryOn "2024-01-08" 7] _ _ _)).
  - lia.
  - vm_compute. split; [discriminate | reflexivity].
  - repeat constructor; discriminate.
Defined.

Section Last30Days.

Import SummaryView JSDate.
Local Open Scope list_scope.



Lemma countDown_S (n : nat) :
  countDown (S n) = Z.of_nat (S n) :: countDown n.
Proof.
  unfold countDown. rewrite (seq_S (S n) 0), rev_app_distr. reflexivity.
Qed.

Lemma countDown_0 : countDown 0 = [0].
Proof. reflexivity. Qed.

Lemma countDown_range (n : nat) (i : Z) :
  i ∈ countDown n <-> 0 <= i <= Z.of_nat n.
Proof.
  induction n as [|n IH].
  - rewrite countDown_0, list_elem_of_singleton. lia.
  - rewrite countDown_S, elem_of_cons, IH. lia.
Qed.

(** One of the last [n + 1] days. *)
Lemma existsb_countDown (D d : Z) (n : nat) :
  existsb (fun i => d =? D - i) (countDown n)
  = (D - Z.of_nat n <=? d) && (d <=? D).
Proof.
  induction n as [|n IH].
  - rewrite countDown_0. cbn [existsb]. rewrite orb_false_r.
    destruct (Z.eqb_spec d (D - 0)), (Z.leb_spec (D - Z.of_nat 0) d),
      (Z.leb_spec d D); cbn; lia || reflexivity.
  - rewrite countDown_S. cbn [existsb]. rewrite IH.
    destruct (Z.eqb_spec d (D - Z.of_nat (S n))),
      (Z.leb_spec (D - Z.of_nat n) d), (Z.leb_spec d D),
      (Z.leb_spec (D - Z.of_nat (S n)) d); cbn; lia || reflexivity.
Qed.




Variables minutes now : Z.
Hypothesis Hzone : -1440 <= minutes <= 1440.
Hypothesis Hnow : 0 <= now < TimeFromYear 9999.

Local Abbreviation zone := (fixedZone minutes).




End Last30Days.



Section WeeklyData.

Import SummaryView JSDate.
Local Open Scope list_scope.

Variables minutes now : Z.

Local Abbreviation zone := (fixedZone minutes).

Lemma weekStartOf_shift (i : Z) :
  weekStartOf zone now i = now + (- (i * 7) - getDay zone now) * msPerDay.
Proof.
  unfold weekStartOf.
  replace (getDate zone now - i * 7 - getDay zone now)
    with (getDate zone now + (- (i * 7) - getDay zone now)) by lia.
  apply setDate_shift.
Qed.

Lemma Day_weekStartOf (i : Z) :
  Day (weekStartOf zone now i) = Day now - getDay zone now - 7 * i.
Proof. rewrite weekStartOf_shift, Day_shift. lia. Qed.

Lemma Day_weekEndOf (i : Z) :
  Day (weekEndOf zone now i) = Day now - getDay zone now - 7 * i + 6.
Proof.
  unfold weekEndOf. cbv zeta.
  rewrite setDate_shift, Day_shift, Day_weekStartOf. lia.
Qed.

Lemma weekTimeOf_in_days (entries : list TimeEntry) (i : Z) :
  0 <= now < TimeFromYear 9999 ->
  0 <= i <= 6 ->
  Forall (fun entry => is_Some (dayOfEntry entry)) entries ->
  weekTimeOf zone now i entries
  = sumOnDays (fun d => (Day now - getDay zone now - 7 * i <=? d)
                        && (d <=? Day now - getDay zone now - 7 * i + 6))
              entries.
Proof.
  intros Hnow Hi Hvalid. unfold weekTimeOf. cbv zeta.
  pose proof (getDay_range minutes now) as Hwd.
  rewrite window_sum;
    [ | apply (near_now_four_digits now _ Hnow);
        rewrite ?Day_weekStartOf, ?Day_weekEndOf; lia ..
      | exact Hvalid ].
  rewrite Day_weekStartOf, Day_weekEndOf. reflexivity.
Qed.

End WeeklyData.

(** X16. The seven points of [getWeeklyData], in a zone at a fixed
    offset and for entries with dates of the calendar: they are labelled
    Week 7 down to Week 1, the oldest first, and are the minutes of
    seven windows of seven days that follow one another, the last one
    beginning [getDay()] days before today.  In UTC the sixth point is
    what [getLastWeekTime] returns, and the seventh what
    [getThisWeekTime] returns when no entry is dated after today. *)
Theorem getWeeklyData_in_days
    (minutes now : Z) (entries : list SummaryView.TimeEntry) :
  -1440 <= minutes <= 1440 ->
  0 <= now < JSDate.TimeFromYear 9999 ->
  Forall (fun entry => is_Some (SummaryView.dayOfEntry entry)) entries ->
  let zone := JSDate.fixedZone minutes in
  let data := SummaryView.getWeeklyData zone now entries in
  let first := JSDate.Day now - JSDate.getDay zone now in
  SummaryView.labels data
  = ["Week 7"; "Week 6"; "Week 5"; "Week 4"; "Week 3"; "Week 2"; "Week 1"]
  /\ SummaryView.values data
     = (fun i => SummaryView.sumOnDays
                   (fun d => (first - 7 * i <=? d) && (d <=? first - 7 * i + 6))
                   entries)
       <$> SummaryView.countDown 6
  /\ (minutes = 0 ->
      SummaryView.values data !! 5%nat
      = Some (SummaryView.getLastWeekTime zone now entries))
  /\ (minutes = 0 ->
      Forall (fun entry =>
                from_option (fun d => d <=? JSDate.Day now) false
                            (SummaryView.dayOfEntry entry)) entries ->
      SummaryView.values data !! 6%nat
      = Some (SummaryView.getThisWeekTime zone now entries)).
Proof.
  intros Hzone Hnow Hvalid zone data first.
  assert (Hvalues :
    SummaryView.values data
    = (fun i => SummaryView.sumOnDays
                  (fun d => (first - 7 * i <=? d) && (d <=? first - 7 * i + 6))
                  entries)
      <$> SummaryView.countDown 6).
  { unfold data, SummaryView.getWeeklyData. cbn [SummaryView.values].
    rewrite <- list_fmap_compose. apply list_fmap_ext.
    intros k i Hi. apply list_elem_of_lookup_2, countDown_range in Hi.
    cbn [compose snd].
    apply (weekTimeOf_in_days minutes now entries i Hnow); [lia | exact Hvalid]. }
  pose proof (week_rollups_in_days_aux minutes now entries Hzone Hnow Hvalid)
    as (Hthis & Hlast & Hstart).
  fold zone in Hthis, Hlast, Hstart.
  split; [|split; [exact Hvalues | split]].
  - unfold data, SummaryView.getWeeklyData. cbn [SummaryView.labels].
    rewrite <- list_fmap_compose. reflexivity.
  - intros Hutc. rewrite Hvalues, Hlast. specialize (Hstart Hutc).
    change (SummaryView.countDown 6) with [6; 5; 4; 3; 2; 1; 0]%list.
    cbn [fmap list_fmap lookup list_lookup]. f_equal.
    apply sumOnDays_ext. intros d. rewrite Hstart.
    unfold first, zone. rewrite Hutc.
    change (JSDate.getDay (JSDate.fixedZone 0) now) with (JSDate.WeekDay (now + 0)).
    rewrite Z.add_0_r. f_equal; f_equal; lia.
  - intros Hutc Hpast. rewrite Hvalues, Hthis. specialize (Hstart Hutc).
    change (SummaryView.countDown 6) with [6; 5; 4; 3; 2; 1; 0]%list.
    cbn [fmap list_fmap lookup list_lookup]. f_equal.
    unfold SummaryView.sumOnDays. f_equal. apply filter_agree.
    eapply Forall_impl; [exact Hpast|]. intros entry Hentry. cbn beta in *.
    destruct (SummaryView.dayOfEntry entry) as [d|]; cbn [from_option] in *;
      [|tauto].
    apply Is_true_true, Z.leb_le in Hentry.
    rewrite Hstart. unfold first, zone. rewrite Hutc.
    change (JSDate.getDay (JSDate.fixedZone 0) now) with (JSDate.WeekDay (now + 0)).
    rewrite Z.add_0_r.
    pose proof (WeekDay_range now).
    destruct (Z.leb_spec (JSDate.Day now - JSDate.WeekDay now - 7 * 0) d),
      (Z.leb_spec d (JSDate.Day now - JSDate.WeekDay now - 7 * 0 + 6)),
      (Z.leb_spec (JSDate.Day now - JSDate.WeekDay now) d),
      (Z.leb_spec d (JSDate.Day now)); cbn; try tauto; lia.
Qed.

Lemma getWeeklyData_in_days_witness :
  SummaryView.values
    (SummaryView.getWeeklyData (JSDate.fixedZone 0) 1704880800000
       [SummaryView.entryOn "2024-01-06" 30; SummaryView.entryOn "2024-01-10" 7])
  !! 5%nat
  = Some (SummaryView.getLastWeekTime (JSDate.fixedZone 0) 1704880800000
            [SummaryView.entryOn "2024-01-06" 30;
             SummaryView.entryOn "2024-01-10" 7]).
Proof.
  refine (proj1 (proj2 (proj2 (getWeeklyData_in_days 0 1704880800000
            [SummaryView.entryOn "2024-01-06" 30;
             SummaryView.entryOn "2024-01-10" 7] _ _ _))) _).
  - lia.
  - vm_compute. split; [discriminate | reflexivity].
  - repeat constructor; vm_compute; eexists; reflexivity.
  - reflexivity.
Defined.

Section Months.

Import SummaryView JSDate.
Local Open Scope list_scope.

Lemma MakeDay_date (y m d k : Z) : MakeDay y m (d + k) = MakeDay y m d + k.
Proof. unfold MakeDay. lia. Qed.

Lemma daysInMonth_range (leap m : Z) :
  0 <= leap <= 1 -> 28 <= daysInMonth leap m <= 31.
Proof.
  intros H. unfold daysInMonth.
  repeat match goal with
         | |- context [match ?x with _ => _ end] => destruct x
         end; lia.
Qed.

(** The first of the next month comes as many days later as the month
    has. *)
Lemma MakeDay_next_month (y m : Z) :
  MakeDay y (m + 1) 1
  = MakeDay y m 1
    + daysInMonth (if isLeap (y + m / 12) then 1 else 0) (m mod 12).
Proof.
  unfold MakeDay.
  assert (Hm : 0 <= m mod 12 < 12) by (apply Z.mod_pos_bound; lia).
  destruct (Z.eq_dec (m mod 12) 11) as [E|NE].
  - assert (Hq : (m + 1) / 12 = m / 12 + 1 /\ (m + 1) mod 12 = 0)
      by (Z.to_euclidean_division_equations; lia).
    destruct Hq as [-> ->]. rewrite E.
    replace (y + (m / 12 + 1)) with (y + m / 12 + 1) by lia.
    rewrite DayFromYear_succ. unfold DaysInYear.
    destruct (isLeap (y + m / 12)), (isLeap (y + m / 12 + 1));
      cbn [daysBeforeMonth daysInMonth]; lia.
  - assert (Hq : (m + 1) / 12 = m / 12 /\ (m + 1) mod 12 = m mod 12 + 1)
      by (Z.to_euclidean_division_equations; lia).
    destruct Hq as [-> ->].
    assert (Hc : m mod 12 = 0 \/ m mod 12 = 1 \/ m mod 12 = 2 \/ m mod 12 = 3
                 \/ m mod 12 = 4 \/ m mod 12 = 5 \/ m mod 12 = 6
                 \/ m mod 12 = 7 \/ m mod 12 = 8 \/ m mod 12 = 9
                 \/ m mod 12 = 10) by lia.
    destruct (isLeap (y + m / 12));
      repeat destruct Hc as [Hc|Hc]; rewrite Hc;
      change (0 + 1) with 1; change (1 + 1) with 2; change (2 + 1) with 3;
      change (3 + 1) with 4; change (4 + 1) with 5; change (5 + 1) with 6;
      change (6 + 1) with 7; change (7 + 1) with 8; change (8 + 1) with 9;
      change (9 + 1) with 10; change (10 + 1) with 11;
      cbn [daysBeforeMonth daysInMonth]; lia.
Qed.

(** The days of a month are those from its first day to the day
    before the first of the next. *)
Lemma month_window (y m d : Z) :
  MakeDay y m 1 <= d < MakeDay y (m + 1) 1
  <-> monthNumber (MakeDate d 0) = 12 * y + m.
Proof.
  rewrite MakeDay_next_month.
  assert (Hm : 0 <= m mod 12 < 12) by (apply Z.mod_pos_bound; lia).
  set (leap := if isLeap (y + m / 12) then 1 else 0).
  assert (Hleap : 0 <= leap <= 1)
    by (unfold leap; destruct (isLeap (y + m / 12)); lia).
  pose proof (daysInMonth_range leap (m mod 12) Hleap) as Hdim.
  assert (Hnorm : MakeDay y m 1 = MakeDay (y + m / 12) (m mod 12) 1).
  { unfold MakeDay.
    assert (Hq : (m mod 12) / 12 = 0 /\ (m mod 12) mod 12 = m mod 12)
      by (Z.to_euclidean_division_equations; lia).
    destruct Hq as [-> ->]. rewrite Z.add_0_r. reflexivity. }
  assert (Hidx : 12 * y + m = 12 * (y + m / 12) + m mod 12)
    by (Z.to_euclidean_division_equations; lia).
  split.
  - intros [Hlo Hhi].
    destruct (MakeDay_valid (y + m / 12) (m mod 12)
                (1 + (d - MakeDay y m 1)) ltac:(lia))
      as (Hy & Hmo & _); [fold leap; lia|].
    rewrite MakeDay_date, <- Hnorm in Hy, Hmo.
    replace (MakeDay y m 1 + (d - MakeDay y m 1)) with d in Hy, Hmo by lia.
    unfold monthNumber. rewrite Hy, Hmo. lia.
  - intros Hnum. unfold monthNumber in Hnum.
    pose proof (MonthFromTime_range (MakeDate d 0)) as Hmr.
    assert (Hy : YearFromTime (MakeDate d 0) = y + m / 12) by lia.
    assert (Hmo : MonthFromTime (MakeDate d 0) = m mod 12) by lia.
    pose proof (MakeDay_fields (MakeDate d 0) 0) as Hmk.
    rewrite Day_MakeDate, !Z.add_0_r, Hy, Hmo in Hmk.
    pose proof (DateFromTime_range (MakeDate d 0)) as Hdr.
    pose proof (DateFromTime_in_month (MakeDate d 0)) as Hdm.
    unfold InLeapYear in Hdm. rewrite Hy, Hmo in Hdm. fold leap in Hdm.
    replace (DateFromTime (MakeDate d 0))
      with (1 + (DateFromTime (MakeDate d 0) - 1)) in Hmk by lia.
    rewrite MakeDay_date, <- Hnorm in Hmk. lia.
Qed.

Lemma monthNumber_of_Day (a b : Z) :
  Day a = Day b -> monthNumber a = monthNumber b.
Proof.
  intros E. destruct (fields_of_same_day a b E) as (Hy & Hm & _).
  unfold monthNumber. rewrite Hy, Hm. reflexivity.
Qed.

Variables minutes now : Z.
Hypothesis Hzone : -1440 <= minutes <= 1440.
Hypothesis Hnow : 0 <= now < TimeFromYear 9999.

Local Abbreviation zone := (fixedZone minutes).
Local Abbreviation off := (minutes * 60000).

(** The day on which the constructor's local midnight is written, for
    any month and date. *)
Lemma Day_newDateYMD_month (m d : Z) :
  Day (newDateYMD zone (getFullYear zone now) m d)
  = MakeDay (getFullYear zone now) m d + Day (- off).
Proof.
  pose proof (getFullYear_modern _ _ Hzone Hnow) as Hy.
  unfold newDateYMD.
  destruct (Z.leb_spec 0 (getFullYear zone now));
    destruct (Z.leb_spec (getFullYear zone now) 99);
    cbn [andb]; try lia;
    change (UTC zone ?x) with (x - off); apply Day_local_midnight.
Qed.

Lemma MakeDay_this_month :
  MakeDay (getFullYear zone now) (getMonth zone now) 1
  = Day (now + off) - (getDate zone now - 1).
Proof.
  pose proof (MakeDay_fields (now + off) (1 - getDate zone now)) as H.
  unfold getFullYear, getMonth, getDate in *.
  change (LocalTime zone now) with (now + off) in *.
  replace (DateFromTime (now + off) + (1 - DateFromTime (now + off)))
    with 1 in H by lia.
  rewrite H. lia.
Qed.

End Months.

(** X17. The rollups of this month and of last month, read in days of
    the calendar, in a zone at a fixed offset and for entries with dates
    of the calendar: this month runs from the day on which the first of
    the month is written to today, last month from the day on which the
    first of the month before is written to the day before that, 28 to
    31 days in all; in UTC these are the days of the month of today up
    to today, and the days of the month before it. *)
Theorem month_rollups_in_days
    (minutes now : Z) (entries : list SummaryView.TimeEntry) :
  -1440 <= minutes <= 1440 ->
  0 <= now < JSDate.TimeFromYear 9999 ->
  Forall (fun entry => is_Some (SummaryView.dayOfEntry entry)) entries ->
  let zone := JSDate.fixedZone minutes in
  let first := JSDate.Day (SummaryView.monthStartOf zone now 0) in
  let firstOfLast := JSDate.Day (SummaryView.startOfLastMonth zone now) in
  SummaryView.getThisMonthTime zone now entries
  = SummaryView.sumOnDays
      (fun d => (first <=? d) && (d <=? JSDate.Day now)) entries
  /\ SummaryView.getLastMonthTime zone now entries
     = SummaryView.sumOnDays
         (fun d => (firstOfLast <=? d) && (d <=? first - 1)) entries
  /\ first - 31 <= firstOfLast <= first - 28
  /\ first <= JSDate.Day now
  /\ (minutes = 0 ->
      forall d : Z,
        (first <= d <= JSDate.Day now
         <-> JSDate.monthNumber (JSDate.MakeDate d 0) = JSDate.monthNumber now
             /\ d <= JSDate.Day now)
        /\ (firstOfLast <= d <= first - 1
            <-> JSDate.monthNumber (JSDate.MakeDate d 0)
                = JSDate.monthNumber now - 1)).
Proof.
  intros Hzone Hnow Hvalid zone first firstOfLast.
  set (Y := JSDate.getFullYear zone now).
  set (M := JSDate.getMonth zone now).
  set (delta := JSDate.Day (- (minutes * 60000))).
  assert (Hfirst : first = JSDate.MakeDay Y M 1 + delta).
  { unfold first, SummaryView.monthStartOf. rewrite Z.sub_0_r.
    apply (Day_newDateYMD_month minutes now Hzone Hnow). }
  assert (Hlast : firstOfLast = JSDate.MakeDay Y (M - 1) 1 + delta)
    by apply (Day_newDateYMD_month minutes now Hzone Hnow).
  assert (Hend : JSDate.Day (SummaryView.endOfLastMonth zone now) = first - 1).
  { unfold SummaryView.endOfLastMonth.
    rewrite (Day_newDateYMD_month minutes now Hzone Hnow), Hfirst.
    unfold Y, M, delta, zone, JSDate.MakeDay. lia. }
  assert (Hstart : JSDate.Day
                     (JSDate.newDateYMD zone Y M 1) = first).
  { rewrite Hfirst. apply (Day_newDateYMD_month minutes now Hzone Hnow). }
  pose proof (MakeDay_this_month minutes now) as Hthis. fold zone Y M in Hthis.
  pose proof (MakeDay_next_month Y (M - 1)) as Hnext.
  replace (M - 1 + 1) with M in Hnext by lia.
  assert (Hdim : 28 <= JSDate.daysInMonth
                         (if JSDate.isLeap (Y + (M - 1) / 12) then 1 else 0)
                         ((M - 1) mod 12) <= 31)
    by (apply daysInMonth_range; destruct (JSDate.isLeap _); lia).
  pose proof (local_day_back minutes now) as Hback. fold delta in Hback.
  pose proof (getDate_range minutes now) as Hdate. fold zone in Hdate.
  pose proof (local_day_near minutes now Hzone) as Hnear.
  pose proof (offset_day minutes Hzone) as Hoff. fold delta in Hoff.
  assert (Hle : first <= JSDate.Day now) by lia.
  split; [|split; [|split; [|split]]].
  - unfold SummaryView.getThisMonthTime, SummaryView.startOfMonthStr.
    cbv zeta. fold Y M.
    rewrite window_sum;
      [rewrite Hstart; reflexivity | | | exact Hvalid];
      apply (near_now_four_digits now _ Hnow); rewrite ?Hstart; lia.
  - unfold SummaryView.getLastMonthTime. cbv zeta.
    rewrite window_sum;
      [fold firstOfLast; rewrite Hend; reflexivity | | | exact Hvalid];
      apply (near_now_four_digits now _ Hnow);
      rewrite ?Hend; fold firstOfLast; lia.
  - lia.
  - exact Hle.
  - intros Hutc d.
    assert (Hdelta : delta = 0) by (unfold delta; rewrite Hutc; reflexivity).
    assert (Hnum : JSDate.monthNumber now = 12 * Y + M).
    { unfold Y, M, zone, JSDate.getFullYear, JSDate.getMonth, JSDate.LocalTime,
        JSDate.fixedZone. rewrite Hutc, Z.add_0_r. reflexivity. }
    assert (Hin : JSDate.MakeDay Y M 1 <= JSDate.Day now
                  < JSDate.MakeDay Y (M + 1) 1).
    { apply month_window. rewrite <- Hnum. apply monthNumber_of_Day.
      apply Day_MakeDate. }
    pose proof (month_window Y M d) as Hw.
    pose proof (month_window Y (M - 1) d) as Hw'.
    replace (M - 1 + 1) with M in Hw' by lia.
    rewrite Hnum. split; [rewrite <- Hw | rewrite Hfirst, Hlast]; lia.
Qed.

Lemma month_rollups_in_days_witness :
  SummaryView.getLastMonthTime (JSDate.fixedZone 0) 1704880800000
    [SummaryView.entryOn "2023-12-31" 30; SummaryView.entryOn "2024-01-01" 7]
  = SummaryView.sumOnDays
      (fun d => (19692 <=? d) && (d <=? 19723 - 1))
      [SummaryView.entryOn "2023-12-31" 30; SummaryView.entryOn "2024-01-01" 7].
Proof.
  refine (proj1 (proj2 (month_rollups_in_days 0 1704880800000
            [SummaryView.entryOn "2023-12-31" 30;
             SummaryView.entryOn "2024-01-01" 7] _ _ _))).
  - lia.
  - vm_compute. split; [discriminate | reflexivity].
  - repeat constructor; vm_compute; eexists; reflexivity.
Defined.

Section MonthlyData.

Import SummaryView JSDate.
Local Open Scope list_scope.

Variables minutes now : Z.
Hypothesis Hzone : -1440 <= minutes <= 1440.
Hypothesis Hnow : 0 <= now < TimeFromYear 9999.

Local Abbreviation zone := (fixedZone minutes).
Local Abbreviation off := (minutes * 60000).

Lemma Day_monthStartOf (i : Z) :
  Day (monthStartOf zone now i)
  = MakeDay (getFullYear zone now) (getMonth zone now - i) 1 + Day (- off).
Proof. apply (Day_newDateYMD_month minutes now Hzone Hnow). Qed.

Lemma Day_monthEndOf (i : Z) :
  Day (monthEndOf zone now i)
  = MakeDay (getFullYear zone now) (getMonth zone now - i + 1) 1 - 1
    + Day (- off).
Proof.
  unfold monthEndOf. rewrite (Day_newDateYMD_month minutes now Hzone Hnow).
  unfold MakeDay. lia.
Qed.

(** The first of a month some months back is within the year before. *)
Lemma MakeDay_months_back (i : Z) :
  0 <= i <= 5 ->
  Day (now + off) - 190
  <= MakeDay (getFullYear zone now) (getMonth zone now - i) 1
  <= Day (now + off).
Proof.
  intros Hi.
  pose proof (MakeDay_this_month minutes now) as Hthis.
  pose proof (getDate_range minutes now) as Hdate.
  assert (Hstep : forall m,
            MakeDay (getFullYear zone now) m 1 - 31
            <= MakeDay (getFullYear zone now) (m - 1) 1
            <= MakeDay (getFullYear zone now) m 1 - 28).
  { intros m. pose proof (MakeDay_next_month (getFullYear zone now) (m - 1)) as H.
    replace (m - 1 + 1) with m in H by lia.
    assert (Hdim : 28 <= daysInMonth
                     (if isLeap (getFullYear zone now + (m - 1) / 12)
                      then 1 else 0) ((m - 1) mod 12) <= 31)
      by (apply daysInMonth_range; destruct (isLeap _); lia).
    lia. }
  pose proof (Hstep (getMonth zone now)) as H1.
  pose proof (Hstep (getMonth zone now - 1)) as H2.
  pose proof (Hstep (getMonth zone now - 2)) as H3.
  pose proof (Hstep (getMonth zone now - 3)) as H4.
  pose proof (Hstep (getMonth zone now - 4)) as H5.
  replace (getMonth zone now - 1 - 1) with (getMonth zone now - 2) in H2 by lia.
  replace (getMonth zone now - 2 - 1) with (getMonth zone now - 3) in H3 by lia.
  replace (getMonth zone now - 3 - 1) with (getMonth zone now - 4) in H4 by lia.
  replace (getMonth zone now - 4 - 1) with (getMonth zone now - 5) in H5 by lia.
  assert (Hc : i = 0 \/ i = 1 \/ i = 2 \/ i = 3 \/ i = 4 \/ i = 5) by lia.
  repeat destruct Hc as [->|Hc]; try subst i;
    rewrite ?Z.sub_0_r; lia.
Qed.

Lemma monthTimeOf_in_days (entries : list TimeEntry) (i : Z) :
  0 <= i <= 5 ->
  Forall (fun entry => is_Some (dayOfEntry entry)) entries ->
  monthTimeOf zone now i entries
  = sumOnDays
      (fun d => monthNumber (MakeDate (d - Day (- off)) 0)
                =? 12 * getFullYear zone now + getMonth zone now - i)
      entries.
Proof.
  intros Hi Hvalid. unfold monthTimeOf. cbv zeta.
  pose proof (MakeDay_months_back i Hi) as Hback.
  pose proof (MakeDay_next_month (getFullYear zone now)
                (getMonth zone now - i)) as Hnext.
  assert (Hdim : 28 <= daysInMonth
                   (if isLeap (getFullYear zone now
                               + (getMonth zone now - i) / 12)
                    then 1 else 0) ((getMonth zone now - i) mod 12) <= 31)
    by (apply daysInMonth_range; destruct (isLeap _); lia).
  pose proof (local_day_near minutes now Hzone) as Hnear.
  pose proof (offset_day minutes Hzone) as Hoff.
  rewrite window_sum;
    [ | apply (near_now_four_digits now _ Hnow);
        rewrite ?Day_monthStartOf, ?Day_monthEndOf; lia ..
      | exact Hvalid ].
  apply sumOnDays_ext. intros d.
  rewrite Day_monthStartOf, Day_monthEndOf.
  pose proof (month_window (getFullYear zone now) (getMonth zone now - i)
                (d - Day (- off))) as Hw.
  replace (12 * getFullYear zone now + (getMonth zone now - i))
    with (12 * getFullYear zone now + getMonth zone now - i) in Hw by lia.
  destruct (Z.eqb_spec
              (monthNumber (MakeDate (d - Day (- off)) 0))
              (12 * getFullYear zone now + getMonth zone now - i)) as [E|NE].
  - apply Hw in E. apply andb_true_iff. rewrite !Z.leb_le. lia.
  - apply andb_false_iff. rewrite !Z.leb_gt.
    destruct (Z.lt_ge_cases (d - Day (- off))
                (MakeDay (getFullYear zone now) (getMonth zone now - i) 1));
      [left; lia|].
    destruct (Z.lt_ge_cases (d - Day (- off))
                (MakeDay (getFullYear zone now)
                   (getMonth zone now - i + 1) 1)); [|right; lia].
    exfalso. apply NE, Hw. lia.
Qed.

Lemma LocalTime_UTC (t : Z) : LocalTime zone (UTC zone t) = t.
Proof. unfold LocalTime, UTC, fixedZone. lia. Qed.

Lemma getMonth_monthStartOf (i : Z) :
  getMonth zone (monthStartOf zone now i) = (getMonth zone now - i) mod 12.
Proof.
  pose proof (getFullYear_modern _ _ Hzone Hnow) as Hy.
  assert (Hstart : monthStartOf zone now i
                   = UTC zone (MakeDate (MakeDay (getFullYear zone now)
                                           (getMonth zone now - i) 1) 0)).
  { unfold monthStartOf, newDateYMD.
    destruct (Z.leb_spec 0 (getFullYear zone now));
      destruct (Z.leb_spec (getFullYear zone now) 99);
      cbn [andb]; try lia; reflexivity. }
  rewrite Hstart. unfold getMonth at 1. rewrite LocalTime_UTC.
  generalize (getFullYear zone now) as Y, (getMonth zone now - i) as M.
  intros Y M.
  pose proof (proj1 (month_window Y M (MakeDay Y M 1))) as Hw.
  pose proof (MakeDay_next_month Y M) as Hnext.
  assert (Hdim : 28 <= daysInMonth (if isLeap (Y + M / 12) then 1 else 0)
                         (M mod 12) <= 31)
    by (apply daysInMonth_range; destruct (isLeap _); lia).
  specialize (Hw ltac:(lia)). unfold monthNumber in Hw.
  pose proof (MonthFromTime_range (MakeDate (MakeDay Y M 1) 0)).
  Z.to_euclidean_division_equations; lia.
Qed.

Lemma monthShortName_back (i : Z) :
  monthShortName zone (monthStartOf zone now i)
  = monthShortNames !! Z.to_nat ((getMonth zone now - i) mod 12).
Proof. unfold monthShortName. rewrite getMonth_monthStartOf. reflexivity. Qed.

End MonthlyData.

(** X18. The six points of [getMonthlyData], in a zone at a fixed offset
    and for entries with dates of the calendar: point by point, from
    five months ago to the month of today, the minutes of the entries
    of that month of the calendar, each day being counted as the day
    before east of Greenwich, as the start of a month is written there;
    the labels are the short names of these months; and the fifth
    point is what [getLastMonthTime] returns. *)
Theorem getMonthlyData_in_days
    (minutes now : Z) (entries : list SummaryView.TimeEntry) :
  -1440 <= minutes <= 1440 ->
  0 <= now < JSDate.TimeFromYear 9999 ->
  Forall (fun entry => is_Some (SummaryView.dayOfEntry entry)) entries ->
  let zone := JSDate.fixedZone minutes in
  let shift := JSDate.Day (- (minutes * 60000)) in
  let month := 12 * JSDate.getFullYear zone now + JSDate.getMonth zone now in
  (SummaryView.getMonthlyData zone now entries).2
  = (fun i => SummaryView.sumOnDays
                (fun d => JSDate.monthNumber (JSDate.MakeDate (d - shift) 0)
                          =? month - i) entries)
    <$> SummaryView.countDown 5
  /\ (SummaryView.getMonthlyData zone now entries).1
     = (fun i => SummaryView.monthShortNames
                 !! Z.to_nat ((JSDate.getMonth zone now - i) mod 12))
       <$> SummaryView.countDown 5
  /\ (SummaryView.getMonthlyData zone now entries).2 !! 4%nat
     = Some (SummaryView.getLastMonthTime zone now entries)
  /\ -1 <= shift <= 1 /\ (0 < minutes -> shift = -1)
  /\ (-1440 < minutes <= 0 -> shift = 0).
Proof.
  intros Hzone Hnow Hvalid zone shift month.
  split; [|split; [|split; [|split; [|split]]]].
  - unfold SummaryView.getMonthlyData. cbn [snd].
    rewrite <- list_fmap_compose. apply list_fmap_ext.
    intros k i Hi. apply list_elem_of_lookup_2, countDown_range in Hi.
    cbn [compose snd].
    apply (monthTimeOf_in_days minutes now Hzone Hnow); [lia | exact Hvalid].
  - unfold SummaryView.getMonthlyData. cbn [fst].
    rewrite <- list_fmap_compose. apply list_fmap_ext.
    intros k i Hi. cbn [compose fst].
    apply (monthShortName_back minutes now Hzone Hnow).
  - unfold SummaryView.getMonthlyData. cbn [snd].
    rewrite <- list_fmap_compose.
    change (SummaryView.countDown 5) with [5; 4; 3; 2; 1; 0]%list.
    cbn [fmap list_fmap lookup list_lookup compose snd]. f_equal.
    unfold SummaryView.monthTimeOf, SummaryView.getLastMonthTime,
      SummaryView.monthStartOf, SummaryView.monthEndOf,
      SummaryView.startOfLastMonth, SummaryView.endOfLastMonth.
    replace (JSDate.getMonth zone now - 1 + 1)
      with (JSDate.getMonth zone now) by lia.
    reflexivity.
  - apply (offset_day minutes Hzone).
  - intros Hpos. unfold shift, JSDate.Day, JSDate.msPerDay.
    Z.to_euclidean_division_equations; lia.
  - intros Hneg. unfold shift, JSDate.Day, JSDate.msPerDay.
    Z.to_euclidean_division_equations; lia.
Qed.

Lemma getMonthlyData_in_days_witness :
  (SummaryView.getMonthlyData (JSDate.fixedZone 0) 1704880800000
     [SummaryView.entryOn "2023-12-31" 30; SummaryView.entryOn "2024-01-01" 7]).1
  = (fun i => SummaryView.monthShortNames
              !! Z.to_nat ((JSDate.getMonth (JSDate.fixedZone 0) 1704880800000
                            - i) mod 12))
    <$> SummaryView.countDown 5.
Proof.
  refine (proj1 (proj2 (getMonthlyData_in_days 0 1704880800000
            [SummaryView.entryOn "2023-12-31" 30;
             SummaryView.entryOn "2024-01-01" 7] _ _ _))).
  - lia.
  - vm_compute. split; [discriminate | reflexivity].
  - repeat constructor; vm_compute; eexists; reflexivity.
Defined.

Section HeatMap.

Import SummaryView JSDate.
Local Open Scope list_scope.

Variable LocalTZA : Z -> bool -> Z.
Variable dailySummary : gmap string Q.
Variable date : Z.

Local Abbreviation info := (cellInfoOf LocalTZA dailySummary date).
Local Abbreviation step := (gridStep LocalTZA dailySummary date).

(** Setting the last of the cells. *)
Lemma set_last_cell (cells : list (option CellInfo)) (x y : option CellInfo) :
  match cells ++ [x] with
  | [] => cells ++ [x]
  | _ => <[ (length (cells ++ [x]) - 1)%nat := y ]> (cells ++ [x])
  end = cells ++ [y].
Proof.
  assert (Hlen : (length (cells ++ [x]) - 1)%nat = (length cells + 0)%nat)
    by (rewrite length_app; cbn; lia).
  rewrite Hlen, insert_app_r. cbn [insert list_insert].
  destruct cells; reflexivity.
Qed.

Lemma gridStep_snoc (cells : list (option CellInfo)) (x : option CellInfo)
    (day : Z) :
  step (cells ++ [x]) day = cells ++ [Some (info day); None].
Proof.
  unfold gridStep. cbv zeta. rewrite set_last_cell, <- app_assoc. reflexivity.
Qed.

(** After [j + 1] rounds the cells carry what was computed for the
    days 2 to [j + 1], and the last one nothing yet. *)
Lemma grid_loop (j : nat) :
  foldl step [] (Z.of_nat <$> seq 1 (S j))
  = ((fun k => Some (info (Z.of_nat k))) <$> seq 2 j) ++ [None].
Proof.
  induction j as [|j IH]; [reflexivity|].
  rewrite (seq_S (S j) 1), fmap_app, foldl_app, IH.
  cbn [fmap list_fmap foldl]. rewrite gridStep_snoc.
  rewrite (seq_S j 2), fmap_app, <- app_assoc. reflexivity.
Qed.

(** What [createMonthGrid] leaves for a month of [n] days. *)
Lemma grid_cells (n : Z) :
  0 < n ->
  match foldl step [] (Z.of_nat <$> seq 1 (Z.to_nat n)) with
  | [] => foldl step [] (Z.of_nat <$> seq 1 (Z.to_nat n))
  | _ =>
      <[ (length (foldl step [] (Z.of_nat <$> seq 1 (Z.to_nat n))) - 1)%nat
         := Some (info n) ]>
        (foldl step [] (Z.of_nat <$> seq 1 (Z.to_nat n)))
  end
  = ((fun k => Some (info (Z.of_nat k))) <$> seq 2 (Z.to_nat n - 1))
    ++ [Some (info n)].
Proof.
  intros Hn. destruct (Z.to_nat n) as [|j] eqn:E; [lia|].
  rewrite grid_loop, set_last_cell.
  replace (S j - 1)%nat with j by lia. reflexivity.
Qed.

End HeatMap.

Section HeatMapZone.

Import SummaryView JSDate.
Local Open Scope list_scope.

Variable zoneMinutes : Z.
Variable date : Z.
Hypothesis Hyear : ~ (0 <= getFullYear (fixedZone zoneMinutes) date <= 99).

Local Abbreviation zone := (fixedZone zoneMinutes).
Local Abbreviation off := (zoneMinutes * 60000).
Local Abbreviation Y := (getFullYear zone date).
Local Abbreviation M := (getMonth zone date).

Lemma newDateYMD_local (m d : Z) :
  newDateYMD zone Y m d = MakeDate (MakeDay Y m d) 0 - off.
Proof.
  unfold newDateYMD.
  destruct (Z.leb_spec 0 Y); destruct (Z.leb_spec Y 99);
    cbn [andb]; try lia; reflexivity.
Qed.

Lemma getMonth_range : 0 <= M <= 11.
Proof. apply MonthFromTime_range. Qed.

Lemma MakeDay_last_of_month :
  MakeDay Y (M + 1) 0
  = MakeDay Y M (daysInMonth (if isLeap Y then 1 else 0) M).
Proof.
  pose proof getMonth_range as HM.
  pose proof (MakeDay_next_month Y M) as Hnext.
  assert (Hq : M / 12 = 0 /\ M mod 12 = M)
    by (Z.to_euclidean_division_equations; lia).
  destruct Hq as [Hq Hr]. rewrite Hq, Hr, Z.add_0_r in Hnext.
  unfold MakeDay in *. lia.
Qed.

(** The number of cells: the days of the month. *)
Lemma getDate_lastDay :
  getDate zone (newDateYMD zone Y (M + 1) 0)
  = daysInMonth (if isLeap Y then 1 else 0) M.
Proof.
  pose proof getMonth_range as HM.
  assert (Hleap : 0 <= (if isLeap Y then 1 else 0) <= 1)
    by (destruct (isLeap Y); lia).
  pose proof (daysInMonth_range _ M Hleap) as Hdim.
  rewrite newDateYMD_local. unfold getDate.
  change (LocalTime zone ?x) with (x + off). rewrite Z.sub_add.
  rewrite MakeDay_last_of_month.
  apply (MakeDay_valid Y M); lia.
Qed.

(** The date that the cell computed for [day] shows, and its weekday. *)
Lemma cellInfoOf_day (dailySummary : gmap string Q) (day : Z) :
  let shown := cellInfoOf zone dailySummary date day in
  dateStr shown = isoDate (MakeDate (MakeDay Y M day + Day (- off)) 0)
  /\ minutes shown = default 0%Q (dailySummary !! dateStr shown)
  /\ level shown = getIntensityLevel (minutes shown)
  /\ dayName shown
     = dayNames !! Z.to_nat (WeekDay (MakeDate (MakeDay Y M day - 1) 0)).
Proof.
  cbv zeta. unfold cellInfoOf. cbn [dateStr minutes level dayName].
  split; [|split; [reflexivity|split; [reflexivity|]]].
  - apply isoDate_of_Day. rewrite newDateYMD_local, Day_local_midnight.
    rewrite Day_MakeDate. reflexivity.
  - rewrite newDateYMD_local. unfold getDay.
    change (LocalTime zone ?x) with (x + off). rewrite Z.sub_add.
    unfold WeekDay. rewrite !Day_MakeDate.
    generalize (MakeDay Y M day) as d. intros d.
    replace ((d - 1 + 4) mod 7) with (((d + 4) mod 7 + 6) mod 7)
      by (Z.to_euclidean_division_equations; lia).
    assert (Hw : 0 <= (d + 4) mod 7 < 7) by (apply Z.mod_pos_bound; lia).
    generalize dependent ((d + 4) mod 7). intros w Hw.
    assert (Hc : w = 0 \/ w = 1 \/ w = 2 \/ w = 3 \/ w = 4 \/ w = 5 \/ w = 6)
      by lia.
    repeat destruct Hc as [->|Hc]; try subst w; reflexivity.
Qed.

End HeatMapZone.

(** X19. The cells that [createMonthGrid] makes for the days of a month,
    in a zone at a fixed offset: there is one for each day of the month,
    and the cell of a day carries what the loop computed for the day
    after it, the last cell alone carrying its own.  What is computed
    for a day is the date of that day as its local midnight is written,
    the minutes recorded under that date, their level, and the name of
    the weekday before.  East of Greenwich the date written is the day
    before, so that every cell but the last shows its own day, named
    rightly, and the last shows the day before it again; in UTC and west
    of it every cell but the last shows the next day under the name of
    its own weekday. *)
Theorem createMonthGrid_cells
    (minutes : Z) (dailySummary : gmap string Q) (date : Z) :
  let zone := JSDate.fixedZone minutes in
  let year := JSDate.getFullYear zone date in
  let month := JSDate.getMonth zone date in
  let days := JSDate.daysInMonth (if JSDate.isLeap year then 1 else 0) month in
  let shift := JSDate.Day (- (minutes * 60000)) in
  let cells := SummaryView.createMonthGrid zone dailySummary date in
  ~ (0 <= year <= 99) ->
  length cells = Z.to_nat days
  /\ forall day : Z,
       1 <= day <= days ->
       let computed := if day <? days then day + 1 else days in
       exists shown : SummaryView.CellInfo,
         cells !! Z.to_nat (day - 1) = Some (Some shown)
         /\ SummaryView.dateStr shown
            = JSDate.isoDate
                (JSDate.MakeDate
                   (JSDate.MakeDay year month computed + shift) 0)
         /\ SummaryView.minutes shown
            = default 0%Q (dailySummary !! SummaryView.dateStr shown)
         /\ SummaryView.level shown
            = SummaryView.getIntensityLevel (SummaryView.minutes shown)
         /\ SummaryView.dayName shown
            = SummaryView.dayNames
              !! Z.to_nat
                   (JSDate.WeekDay
                      (JSDate.MakeDate
                         (JSDate.MakeDay year month computed - 1) 0)).
Proof.
  intros zone year month days shift cells Hyear.
  assert (Hleap : 0 <= (if JSDate.isLeap year then 1 else 0) <= 1)
    by (destruct (JSDate.isLeap year); lia).
  pose proof (daysInMonth_range _ month Hleap) as Hdim. fold days in Hdim.
  assert (Hcells :
    cells
    = (((fun k => Some (SummaryView.cellInfoOf zone dailySummary date
                          (Z.of_nat k)))
        <$> seq 2 (Z.to_nat days - 1))
       ++ [Some (SummaryView.cellInfoOf zone dailySummary date days)])%list).
  { unfold cells, SummaryView.createMonthGrid. cbv zeta.
    unfold zone, year, month in *.
    rewrite (getDate_lastDay minutes date Hyear).
    apply grid_cells. lia. }
  split.
  - rewrite Hcells, length_app, length_fmap, length_seq. cbn. lia.
  - intros day Hday computed.
    exists (SummaryView.cellInfoOf zone dailySummary date computed).
    split; [|apply (cellInfoOf_day minutes date Hyear)].
    rewrite Hcells. unfold computed.
    destruct (Z.ltb_spec day days) as [Hlt|Hge].
    + rewrite lookup_app_l by (rewrite length_fmap, length_seq; lia).
      rewrite list_lookup_fmap, lookup_seq_lt by lia.
      cbn [fmap option_fmap option_map]. do 3 f_equal. lia.
    + rewrite lookup_app_r by (rewrite length_fmap, length_seq; lia).
      rewrite length_fmap, length_seq.
      replace (Z.to_nat (day - 1) - (Z.to_nat days - 1))%nat with 0%nat by lia.
      reflexivity.
Qed.

Lemma createMonthGrid_cells_witness :
  length (SummaryView.createMonthGrid (JSDate.fixedZone 120)
            (list_to_map [("2024-02-28", 200%Q); ("2024-02-29", 400%Q)])
            1707566400000)
  = 29%nat.
Proof.
  refine (proj1 (createMonthGrid_cells 120
            (list_to_map [("2024-02-28", 200%Q); ("2024-02-29", 400%Q)])
            1707566400000 _)).
  vm_compute. intros [_ H]. exact (H eq_refl).
Defined.

Section StreakBounds.

Import SummaryView.
Local Open Scope list_scope.

Lemma segmentOf_length (seg l : list string) :
  segmentOf seg l -> (length seg <= length l)%nat.
Proof. intros (l1 & l2 & ->). rewrite !length_app. lia. Qed.

Lemma datesOf_length (entries : list TimeEntry) :
  (length (datesOf entries) <= length entries)%nat.
Proof.
  rewrite <- (length_fmap date entries).
  apply submseteq_length, NoDup_submseteq; [apply datesOf_NoDup|].
  intros d Hd. apply datesOf_elem in Hd as [_ Hd]. exact Hd.
Qed.

End StreakBounds.

(** X20. The two streaks are ordered, on any host: the current streak
    is never longer than the longest streak, which is never longer than
    the number of dates with an entry, itself at most the number of
    entries. *)
Theorem calculateStreaks_current_within_longest
    (LocalTZA : Z -> bool -> Z) (DateParse : string -> option Z)
    (now : Z) (entries : list SummaryView.TimeEntry) :
  let result := SummaryView.calculateStreaks LocalTZA DateParse now entries in
  (SummaryView.current result <= SummaryView.longest result)%nat
  /\ (SummaryView.longest result
      <= length (SummaryView.datesOf entries))%nat
  /\ (length (SummaryView.datesOf entries) <= length entries)%nat.
Proof.
  intros result.
  set (today := SummaryView.todayStr now).
  set (yesterday := SummaryView.yesterdayStrOf LocalTZA now).
  set (dates := SummaryView.datesOf entries).
  pose proof (LoopInv_dates DateParse today yesterday dates) as HI.
  assert (Hres : result
                 = {| SummaryView.longest :=
                        SummaryView.longestStreak
                          (SummaryView.streakLoop DateParse today yesterday
                             None dates SummaryView.initialLoop);
                      SummaryView.current :=
                        SummaryView.currentStreak
                          (SummaryView.streakLoop DateParse today yesterday
                             None dates SummaryView.initialLoop) |})
    by apply calculateStreaksAt_loop.
  set (st := SummaryView.streakLoop DateParse today yesterday None dates
               SummaryView.initialLoop) in *.
  rewrite Hres. cbn [SummaryView.longest SummaryView.current].
  split; [|split].
  - destruct (Nat.eq_dec (SummaryView.currentStreak st) 0%nat) as [E|NE];
      [lia|].
    destruct (SummaryView.inv_current_run _ _ _ _ _ HI NE)
      as (l1 & seg & l2 & Hdates & Hrun & Hlen & _).
    rewrite <- Hlen.
    apply (SummaryView.inv_longest_max _ _ _ _ _ HI); [|exact Hrun].
    exists l1, l2. exact Hdates.
  - destruct (SummaryView.inv_longest_run _ _ _ _ _ HI)
      as (seg & Hseg & _ & Hlen).
    rewrite <- Hlen. apply segmentOf_length. exact Hseg.
  - apply datesOf_length.
Qed.

Section ConsecutiveDays.

Import SummaryView JSDate.
Local Open Scope list_scope.

Variable DateParse : string -> option Z.
Hypothesis HISO : parsesISO DateParse.

(** The ISO dates of the days from [D0] on. *)
Variable D0 : Z.

Local Abbreviation dayStr k := (isoDate (MakeDate (D0 + Z.of_nat k) 0)).
Local Abbreviation dayStrs := (fun k : nat => dayStr k).

Lemma four_digits_of_day (d : Z) :
  -719528 <= d < 2932897 -> 0 <= YearFromTime (MakeDate d 0) <= 9999.
Proof.
  intros H. apply YearFromTime_four_digits. rewrite Day_MakeDate. exact H.
Qed.

Lemma dayStr_le (k k' : nat) :
  -719528 <= D0 + Z.of_nat k -> D0 + Z.of_nat k' < 2932897 ->
  (k <= k')%nat -> String.le (dayStr k) (dayStr k').
Proof.
  intros Hlo Hhi Hk. apply Is_true_true.
  rewrite isoDate_leb by (apply four_digits_of_day; lia).
  rewrite !Day_MakeDate. apply Z.leb_le. lia.
Qed.

Lemma dayStr_inj (k k' : nat) :
  -719528 <= D0 + Z.of_nat k < 2932897 ->
  -719528 <= D0 + Z.of_nat k' < 2932897 ->
  dayStr k = dayStr k' -> k = k'.
Proof.
  intros Hk Hk' E. apply isoDate_inj in E;
    [|apply four_digits_of_day; lia ..].
  rewrite !Day_MakeDate in E. lia.
Qed.

Lemma dayStr_parse (k : nat) :
  -719528 <= D0 + Z.of_nat k < 2932897 ->
  parseISODate (dayStr k) = Some (MakeDate (D0 + Z.of_nat k) 0).
Proof.
  intros Hk. rewrite parseISODate_isoDate by (apply four_digits_of_day; lia).
  rewrite Day_MakeDate. reflexivity.
Qed.

Lemma dayStr_next (k : nat) :
  -719528 <= D0 + Z.of_nat k -> D0 + Z.of_nat (S k) < 2932897 ->
  oneDayApart DateParse (dayStr k) (dayStr (S k)).
Proof.
  intros Hlo Hhi.
  apply (oneDayApart_calendar DateParse _ _ _ _ HISO
           (dayStr_parse k ltac:(lia)) (dayStr_parse (S k) ltac:(lia))).
  rewrite !Day_MakeDate. lia.
Qed.

Lemma days_Sorted (start n : nat) :
  -719528 <= D0 + Z.of_nat start ->
  D0 + Z.of_nat start + Z.of_nat n <= 2932897 ->
  Sorted String.le (dayStrs <$> seq start n).
Proof.
  revert start. induction n as [|n IH]; intros start Hlo Hhi;
    [constructor|].
  cbn [seq fmap list_fmap]. constructor; [apply IH; lia|].
  destruct n as [|n]; [constructor|].
  cbn [seq fmap list_fmap]. constructor. apply dayStr_le; lia.
Qed.

Lemma days_NoDup (start n : nat) :
  -719528 <= D0 + Z.of_nat start ->
  D0 + Z.of_nat start + Z.of_nat n <= 2932897 ->
  NoDup (dayStrs <$> seq start n).
Proof.
  intros Hlo Hhi. apply NoDup_fmap_2_strong; [|apply NoDup_seq].
  intros k k' Hk Hk' E. apply elem_of_seq in Hk, Hk'.
  apply dayStr_inj in E; [exact E | lia | lia].
Qed.

Lemma days_run (start n : nat) :
  -719528 <= D0 + Z.of_nat start ->
  D0 + Z.of_nat start + Z.of_nat n <= 2932897 ->
  isRun DateParse (dayStrs <$> seq start n).
Proof.
  revert start. induction n as [|n IH]; intros start Hlo Hhi; [exact I|].
  cbn [seq fmap list_fmap].
  destruct n as [|n]; [exact I|].
  specialize (IH (S start) ltac:(lia) ltac:(lia)).
  cbn [seq fmap list_fmap] in *. split; [|exact IH].
  apply dayStr_next; lia.
Qed.

Lemma dayStr_not_proto (k : nat) :
  -719528 <= D0 + Z.of_nat k < 2932897 -> dayStr k <> "__proto__".
Proof.
  intros Hk E. pose proof (dayStr_parse k Hk) as H. rewrite E in H.
  discriminate H.
Qed.

Lemma days_last (n : nat) :
  last (dayStrs <$> seq 0 (S n)) = Some (dayStr n).
Proof. rewrite fmap_last, seq_S, last_snoc. reflexivity. Qed.

End ConsecutiveDays.

Section ConsecutiveStreak.

Import SummaryView JSDate.
Local Open Scope list_scope.

Lemma YearFromTime_nonneg_iff (t : Z) :
  0 <= YearFromTime t -> -719528 <= Day t.
Proof.
  intros H. apply DayFromYear_mono in H.
  pose proof (YearFromDay_bounds (Day t)) as [Hb _].
  change (DayFromYear 0) with (-719528) in H. unfold YearFromTime in H. lia.
Qed.

Lemma YearFromTime_four_iff (t : Z) :
  YearFromTime t <= 9999 -> Day t < 2932897.
Proof.
  intros H. assert (H' : YearFromTime t + 1 <= 10000) by lia.
  apply DayFromYear_mono in H'.
  pose proof (YearFromDay_bounds (Day t)) as [_ Hb].
  change (DayFromYear 10000) with 2932897 in H'. unfold YearFromTime in H'.
  lia.
Qed.

Lemma yesterdayStrOf_fixed (zoneMinutes now : Z) :
  yesterdayStrOf (fixedZone zoneMinutes) now
  = isoDate (MakeDate (Day now - 1) 0).
Proof.
  unfold yesterdayStrOf.
  replace (getDate (fixedZone zoneMinutes) now - 1)
    with (getDate (fixedZone zoneMinutes) now + -1) by lia.
  rewrite setDate_shift. apply isoDate_of_Day.
  rewrite Day_shift, Day_MakeDate. lia.
Qed.

Lemma todayStr_day (now : Z) : todayStr now = isoDate (MakeDate (Day now) 0).
Proof. apply isoDate_of_Day. rewrite Day_MakeDate. reflexivity. Qed.

Lemma last_app_nonempty (l1 l2 : list string) (x : string) :
  l2 <> [] -> last (l1 ++ l2) = Some x -> x ∈ l2.
Proof.
  intros Hne Hlast. destruct l2 as [|y l2] using rev_ind; [contradiction|].
  rewrite app_assoc, last_snoc in Hlast. injection Hlast as ->.
  apply elem_of_app. right. apply list_elem_of_here.
Qed.

End ConsecutiveStreak.

(** X21. Streaks of a history without gaps, in a zone at a fixed offset
    and on a host that parses ISO dates: when the dates with an entry
    are [n] consecutive days of the calendar, the last of them [j] days
    before today, the longest streak is [n], and the current streak is
    [n] if the last day is today or yesterday and 0 otherwise.  The
    days from the one before the first to today are taken in the
    years 0 to 9999, where an ISO date has a year of four digits. *)
Theorem calculateStreaks_of_consecutive_days
    (zoneMinutes : Z) (DateParse : string -> option Z) (now : Z)
    (entries : list SummaryView.TimeEntry) (n j : Z) :
  JSDate.parsesISO DateParse ->
  1 <= n -> 0 <= j ->
  0 <= JSDate.YearFromTime (now - (j + n) * JSDate.msPerDay) ->
  JSDate.YearFromTime now <= 9999 ->
  (forall s : string,
      s ∈ SummaryView.date <$> entries
      <-> exists k : Z,
            0 <= k < n
            /\ s = JSDate.isoDate (now - (j + k) * JSDate.msPerDay)) ->
  SummaryView.calculateStreaks (JSDate.fixedZone zoneMinutes) DateParse
    now entries
  = {| SummaryView.longest := Z.to_nat n;
       SummaryView.current := if j <=? 1 then Z.to_nat n else 0%nat |}.
Proof.
  intros HISO Hn Hj Hlo Hhi Hdates.
  apply YearFromTime_nonneg_iff in Hlo. apply YearFromTime_four_iff in Hhi.
  replace (now - (j + n) * JSDate.msPerDay)
    with (now + - (j + n) * JSDate.msPerDay) in Hlo by lia.
  rewrite Day_shift in Hlo.
  set (D := JSDate.Day now) in *.
  set (D0 := D - j - n + 1).
  set (dayStr := fun k : nat =>
                   JSDate.isoDate (JSDate.MakeDate (D0 + Z.of_nat k) 0)).
  set (m := Z.to_nat (n - 1)).
  assert (Hm : Z.to_nat n = S m) by (unfold m; lia).
  assert (Hrange : forall k : nat,
            (k <= m)%nat -> -719528 <= D0 + Z.of_nat k < 2932897)
    by (intros k Hk; unfold D0, m in *; lia).
  assert (Hstr : forall k : Z,
            0 <= k < n ->
            JSDate.isoDate (now - (j + k) * JSDate.msPerDay)
            = dayStr (Z.to_nat (n - 1 - k))).
  { intros k Hk. apply isoDate_of_Day.
    replace (now - (j + k) * JSDate.msPerDay)
      with (now + - (j + k) * JSDate.msPerDay) by lia.
    rewrite Day_shift, Day_MakeDate. fold D. unfold D0. lia. }
  assert (Hds : SummaryView.datesOf entries = dayStr <$> seq 0 (S m)).
  { apply datesOf_unique.
    - apply (days_Sorted D0 0 (S m)); unfold D0, m; lia.
    - apply (days_NoDup D0 0 (S m)); unfold D0, m; lia.
    - intros d. split.
      + intros Hd. apply list_elem_of_fmap in Hd as (k & -> & Hk).
        apply elem_of_seq in Hk. split.
        * apply (dayStr_not_proto D0 k). apply Hrange. lia.
        * apply Hdates. exists (n - 1 - Z.of_nat k).
          split; [unfold m in *; lia|].
          rewrite Hstr by (unfold m in *; lia). unfold dayStr.
          do 3 f_equal. lia.
      + intros [_ Hd]. apply Hdates in Hd as (k & Hk & ->).
        apply list_elem_of_fmap. exists (Z.to_nat (n - 1 - k)).
        split; [apply Hstr; exact Hk|].
        apply elem_of_seq. unfold m. lia. }
  set (today := SummaryView.todayStr now).
  set (yesterday :=
         SummaryView.yesterdayStrOf (JSDate.fixedZone zoneMinutes) now).
  pose proof (LoopInv_dates DateParse today yesterday
                (SummaryView.datesOf entries)) as HI.
  unfold SummaryView.calculateStreaks. fold today yesterday.
  rewrite calculateStreaksAt_loop.
  set (st := SummaryView.streakLoop DateParse today yesterday None
               (SummaryView.datesOf entries) SummaryView.initialLoop) in *.
  assert (Hrun : SummaryView.isRun DateParse (SummaryView.datesOf entries)).
  { rewrite Hds. apply (days_run DateParse HISO D0 0 (S m));
      unfold D0, m; lia. }
  assert (Hlen : length (SummaryView.datesOf entries) = S m)
    by (rewrite Hds, length_fmap, length_seq; reflexivity).
  assert (Hlongest : SummaryView.longestStreak st = S m).
  { apply Nat.le_antisymm.
    - destruct (SummaryView.inv_longest_run _ _ _ _ _ HI)
        as (seg & Hseg & _ & Hl).
      rewrite <- Hl, <- Hlen. apply segmentOf_length. exact Hseg.
    - rewrite <- Hlen.
      apply (SummaryView.inv_longest_max _ _ _ _ _ HI); [|exact Hrun].
      exists [], []. rewrite app_nil_r. reflexivity. }
  assert (Htoday : today = JSDate.isoDate (JSDate.MakeDate D 0))
    by apply todayStr_day.
  assert (Hyesterday : yesterday = JSDate.isoDate (JSDate.MakeDate (D - 1) 0))
    by apply yesterdayStrOf_fixed.
  assert (Hlast : last (SummaryView.datesOf entries)
                  = Some (JSDate.isoDate (JSDate.MakeDate (D - j) 0))).
  { rewrite Hds. unfold dayStr. rewrite (days_last D0 m).
    unfold D0, m. do 3 f_equal. lia. }
  assert (Hin : forall d : Z,
            JSDate.isoDate (JSDate.MakeDate d 0) ∈ SummaryView.datesOf entries
            -> D - 1 <= d <= D -> D0 <= d <= D - j).
  { intros d Hd Hdr. rewrite Hds in Hd.
    apply list_elem_of_fmap in Hd as (k & E & Hk). apply elem_of_seq in Hk.
    apply isoDate_inj in E;
      [|apply four_digits_of_day; unfold D0, m in *; lia ..].
    rewrite !Day_MakeDate in E. unfold D0, m in *. lia. }
  f_equal; [rewrite Hm; exact Hlongest|].
  destruct (Z.leb_spec j 1) as [Hnear|Hfar].
  - assert (Hne : SummaryView.currentStreak st <> 0%nat).
    { intros E. apply (SummaryView.inv_current_zero _ _ _ _ _ HI) in E.
      apply E. apply last_Some_elem_of in Hlast.
      assert (Hc : j = 0 \/ j = 1) by lia.
      destruct Hc as [-> | ->].
      - left. rewrite Htoday. rewrite Z.sub_0_r in Hlast. exact Hlast.
      - right. rewrite Hyesterday. exact Hlast. }
    destruct (SummaryView.inv_current_run _ _ _ _ _ HI Hne)
      as (l1 & seg & l2 & Hsplit & Hsegrun & Hseglen & _ & Ht2 & Hy2 & Hmax).
    assert (Hl2 : l2 = []).
    { destruct l2 as [|x l2]; [reflexivity|]. exfalso.
      rewrite Hsplit, app_assoc in Hlast.
      apply last_app_nonempty in Hlast; [|discriminate].
      assert (Hc : j = 0 \/ j = 1) by lia.
      destruct Hc as [-> | ->].
      - apply Ht2. rewrite Htoday. rewrite Z.sub_0_r in Hlast. exact Hlast.
      - apply Hy2. rewrite Hyesterday. exact Hlast. }
    subst l2. rewrite app_nil_r in Hsplit.
    rewrite Hm. apply Nat.le_antisymm.
    + rewrite <- Hseglen, <- Hlen, Hsplit, length_app. lia.
    + rewrite <- Hlen. apply Hmax; [rewrite <- Hsplit; reflexivity|].
      exact Hrun.
  - apply (SummaryView.inv_current_zero _ _ _ _ _ HI).
    intros [H | H].
    + rewrite Htoday in H. apply Hin in H; lia.
    + rewrite Hyesterday in H. apply Hin in H; lia.
Qed.

Lemma calculateStreaks_of_consecutive_days_witness :
  SummaryView.calculateStreaks (JSDate.fixedZone (-480)) JSDate.parseISODate
    1704880800000
    [SummaryView.entryOn "2024-01-08" 30; SummaryView.entryOn "2024-01-09" 5;
     SummaryView.entryOn "2024-01-07" 12; SummaryView.entryOn "2024-01-09" 1]
  = {| SummaryView.longest := 3; SummaryView.current := 3 |}.
Proof.
  apply (calculateStreaks_of_consecutive_days (-480) JSDate.parseISODate
           1704880800000 _ 3 1).
  - intros s t H. exact H.
  - lia.
  - lia.
  - vm_compute. discriminate.
  - vm_compute. discriminate.
  - intros s. split.
    + intros H.
      repeat (apply elem_of_cons in H as [->|H]);
        [exists 1 | exists 0 | exists 2 | exists 0 | inversion H];
        (split; [lia | reflexivity]).
    + intros (k & Hk & ->).
      assert (Hc : k = 0 \/ k = 1 \/ k = 2) by lia.
      destruct Hc as [-> | [-> | ->]]; vm_compute;
        repeat first [apply list_elem_of_here | apply list_elem_of_further].
Defined.

Section HexColour.

Import StatusBarSettings.

Lemma hexDigit_facts (c : ascii) :
  isHexDigit c = true ->
  isHexDigit (JS.lowerUnit c) = true
  /\ JS.lowerUnit (JS.lowerUnit c) = JS.lowerUnit c
  /\ SummaryView.isWhiteSpace c = false
  /\ Ascii.eqb c "#" = false.
Proof.
  destruct c as [[] [] [] [] [] [] [] []]; vm_compute; intros H;
    first [discriminate H | repeat split].
Qed.

Lemma allUnits_toLowerCase (s : string) :
  allUnits isHexDigit s = true ->
  allUnits isHexDigit (JS.toLowerCase s) = true
  /\ JS.toLowerCase (JS.toLowerCase s) = JS.toLowerCase s.
Proof.
  induction s as [|c s IH]; cbn [allUnits JS.toLowerCase]; [split; reflexivity|].
  intros H. apply andb_prop in H as [Hc Hs].
  destruct (hexDigit_facts c Hc) as (H1 & H2 & _). destruct (IH Hs) as [H3 H4].
  rewrite H1, H2, H3, H4. split; reflexivity.
Qed.

Lemma length_toLowerCase (s : string) :
  String.length (JS.toLowerCase s) = String.length s.
Proof.
  induction s as [|c s IH]; cbn [String.length JS.toLowerCase];
    [reflexivity | rewrite IH; reflexivity].
Qed.

Lemma dropWhiteSpace_append (ws s : string) :
  allUnits SummaryView.isWhiteSpace ws = true ->
  SummaryView.dropWhiteSpace (ws ++ s) = SummaryView.dropWhiteSpace s.
Proof.
  induction ws as [|c ws IH]; cbn [allUnits]; [reflexivity|].
  intros H. apply andb_prop in H as [Hc Hs].
  change (String c ws ++ s) with (String c (ws ++ s)).
  cbn [SummaryView.dropWhiteSpace]. rewrite Hc. apply IH. exact Hs.
Qed.

Lemma trimEnd_whiteSpace (ws : string) :
  allUnits SummaryView.isWhiteSpace ws = true -> trimEnd ws = "".
Proof.
  induction ws as [|c ws IH]; cbn [allUnits trimEnd]; [reflexivity|].
  intros H. apply andb_prop in H as [Hc Hs]. rewrite (IH Hs), Hc. reflexivity.
Qed.

Lemma trimEnd_append (core ws : string) :
  allUnits (fun c => negb (SummaryView.isWhiteSpace c)) core = true ->
  allUnits SummaryView.isWhiteSpace ws = true ->
  trimEnd (core ++ ws) = core.
Proof.
  intros Hcore Hws. induction core as [|c core IH].
  - apply trimEnd_whiteSpace. exact Hws.
  - cbn [allUnits] in Hcore. apply andb_prop in Hcore as [Hc Hcore].
    change (String c core ++ ws) with (String c (core ++ ws)).
    cbn [trimEnd]. rewrite (IH Hcore).
    destruct core; [|reflexivity].
    apply negb_true_iff in Hc. rewrite Hc. reflexivity.
Qed.

Lemma trim_core (ws1 core ws2 : string) (c : ascii) :
  allUnits SummaryView.isWhiteSpace ws1 = true ->
  allUnits SummaryView.isWhiteSpace ws2 = true ->
  allUnits (fun c => negb (SummaryView.isWhiteSpace c)) (String c core)
  = true ->
  trim (ws1 ++ String c core ++ ws2) = String c core.
Proof.
  intros H1 H2 Hcore. unfold trim. rewrite (dropWhiteSpace_append _ _ H1).
  pose proof Hcore as Hcore'. cbn [allUnits] in Hcore'.
  apply andb_prop in Hcore' as [Hc _]. apply negb_true_iff in Hc.
  change (String c core ++ ws2) with (String c (core ++ ws2)).
  cbn [SummaryView.dropWhiteSpace]. rewrite Hc.
  change (String c (core ++ ws2)) with (String c core ++ ws2).
  apply trimEnd_append; assumption.
Qed.

Lemma hex_not_whiteSpace (h : string) :
  allUnits isHexDigit h = true ->
  allUnits (fun c => negb (SummaryView.isWhiteSpace c)) h = true.
Proof.
  induction h as [|c h IH]; cbn [allUnits]; [reflexivity|].
  intros H. apply andb_prop in H as [Hc Hh].
  destruct (hexDigit_facts c Hc) as (_ & _ & -> & _). rewrite (IH Hh).
  reflexivity.
Qed.

(** The six digits a valid colour stands for. *)
Lemma expand_three (h : string) :
  allUnits isHexDigit h = true -> String.length h = 3%nat ->
  exists a b c : ascii,
    h = String a (String b (String c ""))
    /\ String.concat "" ((fun c => c ++ c) <$> splitUnits h)
       = String a (String a (String b (String b (String c (String c ""))))).
Proof.
  intros _ Hlen.
  destruct h as [|a [|b [|c [|d h]]]]; try discriminate Hlen.
  exists a, b, c. split; reflexivity.
Qed.

Lemma prefix_hash (h : string) : String.prefix "#" (String "#" h) = true.
Proof.
  cbn [String.prefix]. destruct (ascii_dec "#" "#"); [|contradiction].
  destruct h; reflexivity.
Qed.

Lemma normalizeHexToSix_of_hash (h : string) :
  allUnits isHexDigit h = true ->
  String.length h = 6%nat \/ String.length h = 3%nat ->
  normalizeHexToSix ("#" ++ h)
  = "#" ++ JS.toLowerCase
             (if (String.length h =? 3)%nat
              then String.concat "" ((fun c => c ++ c) <$> splitUnits h)
              else h).
Proof.
  intros Hhex Hlen. unfold normalizeHexToSix.
  assert (Htrim : trim ("#" ++ h) = "#" ++ h).
  { pose proof (trim_core "" h "" "#" eq_refl eq_refl) as H.
    cbn [allUnits] in H. rewrite (hex_not_whiteSpace h Hhex) in H.
    specialize (H eq_refl).
    change ("" ++ String "#" h ++ "") with (String "#" (h ++ "")) in H.
    rewrite append_empty_r in H. exact H. }
  rewrite Htrim. change ("#" ++ h) with (String "#" h).
  change (JS.truthy (String "#" h)) with true. cbv [negb]. cbv zeta.
  rewrite (prefix_hash h). cbn [hexRegexTest]. rewrite Hhex.
  assert (Ht : ((String.length h =? 6)%nat || (String.length h =? 3)%nat) = true)
    by (destruct Hlen as [-> | ->]; reflexivity).
  rewrite Ht. cbn [andb negb removeFirstHash Ascii.eqb Bool.eqb].
  destruct (String.length h =? 3)%nat; reflexivity.
Qed.

Lemma normalizeHexToSix_shape (value : string) :
  normalizeHexToSix value = ""
  \/ exists h : string,
       allUnits isHexDigit h = true
       /\ (String.length h = 6%nat \/ String.length h = 3%nat)
       /\ (trim value = h \/ trim value = "#" ++ h)
       /\ normalizeHexToSix value = normalizeHexToSix ("#" ++ h).
Proof.
  unfold normalizeHexToSix at 1 2.
  destruct (JS.truthy (trim value)) eqn:Htruthy; cbv [negb]; [|left; reflexivity].
  set (withHash := if String.prefix "#" (trim value) then trim value
                   else "#" ++ trim value).
  destruct (hexRegexTest withHash) eqn:Htest; [|left; reflexivity].
  right.
  assert (Hw : exists h, withHash = String "#" h).
  { destruct withHash as [|c w]; [discriminate Htest|].
    cbn [hexRegexTest] in Htest.
    destruct c as [[] [] [] [] [] [] [] []]; try discriminate Htest.
    exists w. reflexivity. }
  destruct Hw as [h Hw]. rewrite Hw in Htest. cbn [hexRegexTest] in Htest.
  apply andb_prop in Htest as [Hhex Hlen].
  assert (Hlen' : String.length h = 6%nat \/ String.length h = 3%nat).
  { apply orb_prop in Hlen as [H | H]; apply Nat.eqb_eq in H; auto. }
  exists h. split; [exact Hhex|]. split; [exact Hlen'|].
  assert (Hshape : trim value = h \/ trim value = "#" ++ h).
  { unfold withHash in Hw.
    destruct (String.prefix "#" (trim value)); [right; exact Hw|].
    left. injection Hw as Hw. exact Hw. }
  split; [exact Hshape|].
  rewrite (normalizeHexToSix_of_hash h Hhex Hlen').
  rewrite Hw. cbn [removeFirstHash Ascii.eqb Bool.eqb].
  destruct (String.length h =? 3)%nat; reflexivity.
Qed.

Lemma canonical_of_hash (h : string) :
  allUnits isHexDigit h = true ->
  String.length h = 6%nat \/ String.length h = 3%nat ->
  exists d : string,
    normalizeHexToSix ("#" ++ h) = "#" ++ d
    /\ String.length d = 6%nat
    /\ allUnits isHexDigit d = true
    /\ JS.toLowerCase d = d.
Proof.
  intros Hhex Hlen. rewrite (normalizeHexToSix_of_hash h Hhex Hlen).
  destruct Hlen as [Hlen | Hlen]; rewrite Hlen; cbn [Nat.eqb].
  - exists (JS.toLowerCase h). split; [reflexivity|].
    rewrite length_toLowerCase.
    destruct (allUnits_toLowerCase h Hhex) as [H1 H2]. auto.
  - destruct (expand_three h Hhex Hlen) as (a & b & c & -> & ->).
    eexists. split; [reflexivity|].
    cbn [allUnits] in Hhex.
    repeat match goal with
           | H : _ && _ = true |- _ => apply andb_prop in H as [? H]
           end.
    cbn [JS.toLowerCase String.length allUnits].
    repeat match goal with
           | H : isHexDigit ?x = true |- _ =>
               destruct (hexDigit_facts x H) as (-> & -> & _); clear H
           end.
    repeat split.
Qed.

End HexColour.

(** X22. The colour the settings page hands to the colour picker.
    Whatever is typed, [normalizeHexToSix] answers either the empty
    string or a canonical colour: a hash and exactly six hexadecimal
    digits, none a capital; a canonical colour is returned as it is,
    so normalising twice is normalising once; and [syncTextAndPicker]
    always sets the picker to a canonical colour ("#ffaa00" when the
    text is no colour) while the text field keeps what was typed. *)
Theorem normalizeHexToSix_canonical (value : string) :
  let canonical (s : string) :=
    exists d : string,
      s = "#" ++ d
      /\ String.length d = 6%nat
      /\ StatusBarSettings.allUnits StatusBarSettings.isHexDigit d = true
      /\ JS.toLowerCase d = d in
  let normalized := StatusBarSettings.normalizeHexToSix value in
  (normalized = "" \/ canonical normalized)
  /\ StatusBarSettings.normalizeHexToSix normalized = normalized
  /\ canonical
       (StatusBarSettings.pickerInput
          (StatusBarSettings.syncTextAndPicker value))
  /\ StatusBarSettings.textInput (StatusBarSettings.syncTextAndPicker value)
     = value.
Proof.
  intros canonical normalized.
  assert (Hfallback : canonical "#ffaa00")
    by (exists "ffaa00"; repeat split).
  assert (Hcases : normalized = ""
                   \/ (canonical normalized
                       /\ StatusBarSettings.normalizeHexToSix normalized
                          = normalized)).
  { destruct (normalizeHexToSix_shape value)
      as [H | (h & Hhex & Hlen & _ & H)]; [left; exact H|].
    right. fold normalized in H.
    destruct (canonical_of_hash h Hhex Hlen) as (d & Hd & Hd6 & Hdhex & Hdlow).
    rewrite <- H in Hd. split; [exists d; auto|].
    rewrite Hd at 1.
    rewrite (normalizeHexToSix_of_hash d Hdhex (or_introl Hd6)).
    rewrite Hd6. cbn [Nat.eqb]. rewrite Hdlow. symmetry. exact Hd. }
  unfold StatusBarSettings.syncTextAndPicker.
  cbn [StatusBarSettings.pickerInput StatusBarSettings.textInput].
  fold normalized.
  destruct Hcases as [E | [Hc Hfix]].
  - rewrite E. repeat split; [left; reflexivity | exact Hfallback].
  - repeat split; [right; exact Hc | exact Hfix |].
    destruct Hc as (d & E & Hd). rewrite E at 1.
    change (JS.truthy ("#" ++ d)) with true. cbv iota. exists d. auto.
Qed.

(** X23. What [normalizeHexToSix] accepts.  Around six hexadecimal
    digits, or three, white space is ignored and the hash may be left
    out; six digits are returned in lower case after a hash, and three
    digits with each digit doubled.  Every other text is answered by
    the empty string: when the answer is not empty, the text without
    the white space at its ends is three or six hexadecimal digits
    with or without a hash. *)
Theorem normalizeHexToSix_accepts (before after digits : string) :
  StatusBarSettings.allUnits SummaryView.isWhiteSpace before = true ->
  StatusBarSettings.allUnits SummaryView.isWhiteSpace after = true ->
  StatusBarSettings.allUnits StatusBarSettings.isHexDigit digits = true ->
  (String.length digits = 6%nat \/ String.length digits = 3%nat) ->
  let expanded :=
    match digits with
    | String a (String b (String c "")) =>
        String a (String a (String b (String b (String c (String c "")))))
    | _ => digits
    end in
  StatusBarSettings.normalizeHexToSix (before ++ digits ++ after)
  = "#" ++ JS.toLowerCase expanded
  /\ StatusBarSettings.normalizeHexToSix (before ++ "#" ++ digits ++ after)
     = "#" ++ JS.toLowerCase expanded
  /\ forall value : string,
       StatusBarSettings.normalizeHexToSix value <> "" ->
       exists h : string,
         StatusBarSettings.allUnits StatusBarSettings.isHexDigit h = true
         /\ (String.length h = 6%nat \/ String.length h = 3%nat)
         /\ (StatusBarSettings.trim value = h
             \/ StatusBarSettings.trim value = "#" ++ h).
Proof.
  intros Hbefore Hafter Hhex Hlen expanded.
  assert (Hexp : StatusBarSettings.normalizeHexToSix ("#" ++ digits)
                 = "#" ++ JS.toLowerCase expanded).
  { rewrite (normalizeHexToSix_of_hash digits Hhex Hlen). unfold expanded.
    destruct Hlen as [Hlen | Hlen]; rewrite Hlen; cbn [Nat.eqb].
    - destruct digits as [|a [|b [|c [|d h]]]]; try discriminate Hlen.
      reflexivity.
    - destruct (expand_three digits Hhex Hlen) as (a & b & c & -> & ->).
      reflexivity. }
  assert (Hne : exists c rest, digits = String c rest)
    by (destruct digits as [|c rest];
        [destruct Hlen; discriminate | eauto]).
  destruct Hne as (c & rest & Hd).
  assert (Hnws := hex_not_whiteSpace digits Hhex).
  assert (Hc : StatusBarSettings.isHexDigit c = true)
    by (rewrite Hd in Hhex; cbn [StatusBarSettings.allUnits] in Hhex;
        apply andb_prop in Hhex as [H _]; exact H).
  split; [|split].
  - rewrite <- Hexp.
    assert (Ht : StatusBarSettings.trim (before ++ digits ++ after) = digits)
      by (rewrite Hd in *; apply trim_core; assumption).
    unfold StatusBarSettings.normalizeHexToSix at 1. rewrite Ht.
    assert (Ht' : StatusBarSettings.trim ("#" ++ digits) = "#" ++ digits).
    { pose proof (trim_core "" digits "" "#" eq_refl eq_refl) as H.
      cbn [StatusBarSettings.allUnits] in H. rewrite Hnws in H.
      specialize (H eq_refl).
      change ("" ++ String "#" digits ++ "")
        with (String "#" (digits ++ "")) in H.
      rewrite append_empty_r in H. exact H. }
    unfold StatusBarSettings.normalizeHexToSix. rewrite Ht'.
    assert (Hp : String.prefix "#" digits = false).
    { rewrite Hd. cbn [String.prefix].
      destruct (ascii_dec "#" c) as [<-|]; [discriminate Hc | reflexivity]. }
    assert (Hp' := prefix_hash digits).
    change (String "#" digits) with ("#" ++ digits) in Hp'.
    rewrite Hp, Hp'.
    assert (Htr : JS.truthy digits = true) by (rewrite Hd; reflexivity).
    rewrite Htr. reflexivity.
  - rewrite <- Hexp.
    assert (Ht : StatusBarSettings.trim (before ++ "#" ++ digits ++ after)
                 = "#" ++ digits).
    { change (before ++ "#" ++ digits ++ after)
        with (before ++ String "#" digits ++ after).
      apply trim_core; [assumption ..|].
      cbn [StatusBarSettings.allUnits]. rewrite Hnws. reflexivity. }
    assert (Ht' : StatusBarSettings.trim ("#" ++ digits) = "#" ++ digits).
    { pose proof (trim_core "" digits "" "#" eq_refl eq_refl) as H.
      cbn [StatusBarSettings.allUnits] in H. rewrite Hnws in H.
      specialize (H eq_refl).
      change ("" ++ String "#" digits ++ "")
        with (String "#" (digits ++ "")) in H.
      rewrite append_empty_r in H. exact H. }
    unfold StatusBarSettings.normalizeHexToSix. rewrite Ht, Ht'. reflexivity.
  - intros value Hvalue.
    destruct (normalizeHexToSix_shape value)
      as [H | (h & Hh & Hl & Ht & _)]; [contradiction|].
    exists h. auto.
Qed.

Lemma normalizeHexToSix_accepts_witness :
  StatusBarSettings.normalizeHexToSix "  Fa0 " = "#ffaa00"
  /\ StatusBarSettings.normalizeHexToSix "  #Fa0 " = "#ffaa00".
Proof.
  pose proof (normalizeHexToSix_accepts "  " " " "Fa0"
                eq_refl eq_refl eq_refl (or_intror eq_refl)) as (H1 & H2 & _).
  split; [exact H1 | exact H2].
Defined.

(** X24. The weekday [calculateDayOfWeekStats] files an entry under, on
    a host that parses ISO dates and whose local time is within a day
    of UTC: where local time is UTC or ahead of it, the weekday of the
    entry's date; where local time is behind UTC, the weekday before
    it, for every entry. *)
Theorem dayOfWeekOf_by_zone
    (LocalTZA : Z -> bool -> Z) (DateParse : string -> option Z)
    (entry : SummaryView.TimeEntry) (t : Z) :
  JSDate.parsesISO DateParse ->
  JSDate.parseISODate (SummaryView.date entry) = Some t ->
  - JSDate.msPerDay <= LocalTZA t true < JSDate.msPerDay ->
  SummaryView.dayOfWeekOf LocalTZA DateParse entry
  = Some (Z.to_nat (if LocalTZA t true <? 0
                    then (JSDate.WeekDay t + 6) mod 7
                    else JSDate.WeekDay t)).
Proof.
  intros HISO Ht Hzone. unfold SummaryView.dayOfWeekOf.
  rewrite (HISO _ _ Ht). cbn [fmap option_fmap option_map]. do 2 f_equal.
  pose proof (parseISODate_midnight _ _ Ht) as Hmid.
  unfold JSDate.getDay, JSDate.WeekDay, JSDate.LocalTime.
  generalize dependent (LocalTZA t true). intros off Hzone.
  unfold JSDate.MakeDate, JSDate.Day, JSDate.msPerDay in *.
  destruct (Z.ltb_spec off 0); Z.to_euclidean_division_equations; lia.
Qed.

Lemma dayOfWeekOf_by_zone_witness :
  SummaryView.dayOfWeekOf (JSDate.fixedZone (-300)) JSDate.parseISODate
    (SummaryView.entryOn "2024-01-07" 60)
  = Some 6%nat.
Proof.
  apply (dayOfWeekOf_by_zone (JSDate.fixedZone (-300)) JSDate.parseISODate
           (SummaryView.entryOn "2024-01-07" 60) 1704585600000).
  - intros s t H. exact H.
  - reflexivity.
  - vm_compute. split; [discriminate | reflexivity].
Defined.

Section LanguagesChart.

Import SummaryView.
Local Open Scope list_scope.
Local Open Scope Q_scope.











End LanguagesChart.



Section MostRecentDate.

Import SummaryView JSDate.
Local Open Scope list_scope.



End MostRecentDate.


